(** * A shallow embedding of the trading bot's risk-gated execution core

    The development follows the Python sources:
    - [config.py]               -> [Module Config]
    - [core/backtester.py]      -> [Module Backtester]
    - [live/risk_manager.py]    -> [Module RiskManager]
    - [live/execution.py]       -> [Module Execution]
    - [live/order_manager.py]   -> [Module OrderManager]
    - [live/main.py]            -> [Module Engine]
    - [live/live_trader.py]     -> [Module LiveTrader], [Module Session]
    - [live/execution.py] ([get_account_balance]) -> [Module Account]
    - [core/strategy.py]        -> [Module Strategy]
    - [core/backtester.py], on binary64 -> [Module Backtester64]

    Numbers.  Python [float] values are read as exact rationals ([Q]):
    rounding, NaN and the infinities are not part of the model.  Python
    [int] values are [Z].  Comparisons are the boolean tests of [Q], so a
    branch of the source is a branch of the model.  What is proved of a
    value computed in two ways (a sum taken in another order, a quotient
    multiplied back) holds of the exact values only; [Module Backtester64]
    is the backtester again with its floats as they are, IEEE 754 binary64
    values rounded to nearest even, and is evaluated where rounding
    decides.

    Environment.  Wall-clock reads ([datetime.now]) and the venue's replies
    are inputs of the functions that perform them. *)

From Stdlib Require Import QArith Qabs Qround ZArith List Bool Ascii String Lia Lqa.
From Stdlib Require Import DecimalString.
From Stdlib Require Floats.
Import ListNotations.

Open Scope Q_scope.

(** ** Python built-ins used by the sources *)

Module Py.

(** [a < b], [a > b], [a >= b] on floats. *)
Definition ltb (a b : Q) : bool := negb (Qle_bool b a).
Definition gtb (a b : Q) : bool := negb (Qle_bool a b).
Definition leb (a b : Q) : bool := Qle_bool a b.
Definition geb (a b : Q) : bool := Qle_bool b a.

(** [max(a, b)] keeps its first argument unless the second is greater. *)
Definition max (a b : Q) : Q := if gtb b a then b else a.

(** [min(a, b)] keeps its first argument unless the second is smaller. *)
Definition min (a b : Q) : Q := if ltb b a then b else a.

Definition abs (a : Q) : Q := Qabs a.

(** [sum(...)] over floats, starting from [0]. *)
Definition sum (l : list Q) : Q := fold_left Qplus l 0.

(** [x or d] for an optional numeric argument: [None] and zero are
    falsy, every other number is kept. *)
Definition or_float (x : option Q) (d : Q) : Q :=
  match x with
  | None => d
  | Some v => if Qeq_bool v 0 then d else v
  end.

Definition or_int (x : option Z) (d : Z) : Z :=
  match x with
  | None => d
  | Some v => if Z.eqb v 0 then d else v
  end.

(** [round(x, ndigits)]: to the nearest multiple of [10^-ndigits], a tie
    going to the even one. *)
Definition round_half_even (q : Q) : Z :=
  let f := Qfloor q in
  match Qcompare (q - inject_Z f) (1 # 2) with
  | Lt => f
  | Gt => (f + 1)%Z
  | Eq => if Z.even f then f else (f + 1)%Z
  end.

Definition round (q : Q) (ndigits : nat) : Q :=
  let scale := inject_Z (10 ^ Z.of_nat ndigits) in
  inject_Z (round_half_even (q * scale)) / scale.

(** [s.upper()] on ASCII text. *)
Definition upper_ascii (c : ascii) : ascii :=
  let n := nat_of_ascii c in
  if (97 <=? n)%nat && (n <=? 122)%nat then ascii_of_nat (n - 32) else c.

Fixpoint upper (s : string) : string :=
  match s with
  | EmptyString => EmptyString
  | String c t => String (upper_ascii c) (upper t)
  end.

(** [sorted(l, reverse=True)] on indices. *)
Fixpoint insert_desc (x : nat) (l : list nat) : list nat :=
  match l with
  | [] => [x]
  | y :: t => if (y <=? x)%nat then x :: l else y :: insert_desc x t
  end.

Definition sorted_reverse (l : list nat) : list nat :=
  fold_right insert_desc [] l.

(** [l.pop(idx)] for an index in range; out of range Python raises
    [IndexError], the model leaves the list unchanged (the callers below
    only pop indices they have just enumerated). *)
Fixpoint pop {A : Type} (idx : nat) (l : list A) : list A :=
  match l, idx with
  | [], _ => []
  | _ :: t, O => t
  | h :: t, S i => h :: pop i t
  end.

End Py.

(** ** config.py *)

Module Config.

Definition TRADING_FEE : Q := 1 # 1000.
Definition SLIPPAGE : Q := 5 # 10000.
Definition RISK_PER_TRADE : Q := 1 # 100.
Definition MAX_DAILY_LOSS : Q := 3 # 100.
Definition MAX_OPEN_TRADES : Z := 3.
Definition CIRCUIT_BREAKER_DD : Q := 10 # 100.
Definition TP_PCT : Q := 3 # 1000.
Definition SL_PCT : Q := 3 # 1000.
Definition EMA_FAST : Z := 9.
Definition EMA_SLOW : Z := 21.
Definition INITIAL_CAPITAL : Q := 10000.

End Config.

(** ** core/backtester.py *)

Module Backtester.

(** [Trade.side]: ["SL"], ["TP"], or the forced close at the end of a run. *)
Inductive Side := SL | TP | DONG.

Record Position := mkPosition {
  entry_time : Z;
  entry_price : Q;
  quantity : Q;
  tp_price : Q;
  sl_price : Q;
  entry_fee : Q
}.

(** [t_pnl_pct] divides by [entry_price * quantity]; where that product
    is zero the model's quotient is [0] (no property below reads the field). *)
Record Trade := mkTrade {
  t_entry_time : Z;
  t_exit_time : Z;
  t_entry_price : Q;
  t_exit_price : Q;
  t_quantity : Q;
  t_side : Side;
  t_pnl : Q;
  t_pnl_pct : Q;
  t_total_fee : Q
}.

Record BacktestParams := mkParams {
  initial_capital : Q;
  trading_fee : Q;
  slippage : Q;
  risk_per_trade : Q;
  max_daily_loss : Q;
  max_open_trades : Z;
  circuit_breaker_dd : Q;
  tp_pct : Q;
  sl_pct : Q
}.

(** [BacktestParams()] with the dataclass defaults. *)
Definition default_params : BacktestParams :=
  mkParams 10000 (1 # 1000) (5 # 10000) (1 # 100) (3 # 100) 3
           (10 # 100) (3 # 1000) (3 # 1000).

(** One row of the data frame.  [timestamp] counts seconds (UTC);
    [signal] is the row's ["signal"] column ([row.get("signal", 0)]). *)
Record Row := mkRow {
  timestamp : Z;
  open : Q;
  high : Q;
  low : Q;
  close : Q;
  signal : Z
}.

(** [current_time.date()] *)
Definition date_of (ts : Z) : Z := (ts / 86400)%Z.

(** The mutable fields of a [Backtester]. *)
Record State := mkState {
  cash : Q;
  equity : Q;
  peak_equity : Q;
  positions : list Position;
  trades : list Trade;
  equity_curve : list (Z * Q);
  circuit_breaker_active : bool;
  current_date : option Z;
  daily_pnl : Q
}.

Section WithParams.

Variable params : BacktestParams.

Definition _reset : State :=
  {| cash := initial_capital params;
     equity := initial_capital params;
     peak_equity := initial_capital params;
     positions := [];
     trades := [];
     equity_curve := [];
     circuit_breaker_active := false;
     current_date := None;
     daily_pnl := 0 |}.

Definition _update_daily_tracking (current_time : Z) (s : State) : State :=
  let d := date_of current_time in
  let roll :=
    match current_date s with
    | None => true
    | Some d0 => negb (Z.eqb d d0)
    end in
  if roll then
    {| cash := cash s; equity := equity s; peak_equity := peak_equity s;
       positions := positions s; trades := trades s;
       equity_curve := equity_curve s;
       circuit_breaker_active := circuit_breaker_active s;
       current_date := Some d;
       daily_pnl := 0 |}
  else s.

(** The [if]/[elif] of [_check_exits]: the stop-loss test comes first.
    The result is the trigger price and the exit side. *)
Definition exit_trigger (row : Row) (pos : Position) : option (Q * Side) :=
  if Py.leb (low row) (sl_price pos) then Some (sl_price pos, SL)
  else if Py.geb (high row) (tp_price pos) then Some (tp_price pos, TP)
  else None.

(** The exit price after slippage; both branches of the source's
    [if exit_side == "TP"] apply the same factor. *)
Definition slipped (side : Side) (trigger : Q) : Q :=
  match side with
  | TP => trigger * (1 - slippage params)
  | _ => trigger * (1 - slippage params)
  end.

(** The [Trade] built for a position leaving at [exit_price]. *)
Definition make_trade (row : Row) (pos : Position) (exit_price : Q)
           (side : Side) : Trade :=
  let exit_fee := exit_price * quantity pos * trading_fee params in
  let gross_pnl := (exit_price - entry_price pos) * quantity pos in
  let net_pnl := gross_pnl - entry_fee pos - exit_fee in
  {| t_entry_time := entry_time pos;
     t_exit_time := timestamp row;
     t_entry_price := entry_price pos;
     t_exit_price := exit_price;
     t_quantity := quantity pos;
     t_side := side;
     t_pnl := net_pnl;
     t_pnl_pct := (net_pnl / (entry_price pos * quantity pos)) * 100;
     t_total_fee := entry_fee pos + exit_fee |}.

(** The body of [if exit_price is not None:] for one position. *)
Definition close_on_exit (row : Row) (pos : Position)
           (trigger : Q) (side : Side) (s : State) : State :=
  let exit_price := slipped side trigger in
  let exit_fee := exit_price * quantity pos * trading_fee params in
  let trade := make_trade row pos exit_price side in
  {| cash := cash s + (exit_price * quantity pos - exit_fee);
     equity := equity s; peak_equity := peak_equity s;
     positions := positions s;
     trades := trades s ++ [trade];
     equity_curve := equity_curve s;
     circuit_breaker_active := circuit_breaker_active s;
     current_date := current_date s;
     daily_pnl := daily_pnl s + t_pnl trade |}.

(** [for idx, pos in enumerate(self.positions)]: the state carries the
    trade log, cash and daily P&L; [closed] is [closed_indices]. *)
Fixpoint exits_loop (row : Row) (idx : nat) (ps : list Position)
         (s : State) (closed : list nat) : State * list nat :=
  match ps with
  | [] => (s, closed)
  | pos :: rest =>
      match exit_trigger row pos with
      | Some (trigger, side) =>
          exits_loop row (S idx) rest
                     (close_on_exit row pos trigger side s)
                     (closed ++ [idx])
      | None => exits_loop row (S idx) rest s closed
      end
  end.

(** [for idx in sorted(closed_indices, reverse=True): positions.pop(idx)] *)
Definition pop_closed (closed : list nat) (ps : list Position)
  : list Position :=
  fold_left (fun l idx => Py.pop idx l) (Py.sorted_reverse closed) ps.

Definition with_positions (ps : list Position) (s : State) : State :=
  {| cash := cash s; equity := equity s; peak_equity := peak_equity s;
     positions := ps; trades := trades s;
     equity_curve := equity_curve s;
     circuit_breaker_active := circuit_breaker_active s;
     current_date := current_date s;
     daily_pnl := daily_pnl s |}.

Definition _check_exits (row : Row) (s : State) : State :=
  let '(s1, closed) := exits_loop row 0 (positions s) s [] in
  with_positions (pop_closed closed (positions s1)) s1.

Definition with_breaker (b : bool) (s : State) : State :=
  {| cash := cash s; equity := equity s; peak_equity := peak_equity s;
     positions := positions s; trades := trades s;
     equity_curve := equity_curve s;
     circuit_breaker_active := b;
     current_date := current_date s;
     daily_pnl := daily_pnl s |}.

Definition _check_circuit_breaker (s : State) : State :=
  if Py.gtb (peak_equity s) 0 then
    let drawdown := (peak_equity s - equity s) / peak_equity s in
    if Py.geb drawdown (circuit_breaker_dd params) then
      if negb (circuit_breaker_active s) then with_breaker true s
      else s
    else s
  else s.

Definition _can_open_trade (s : State) : bool :=
  if circuit_breaker_active s then false
  else if (Z.of_nat (List.length (positions s)) >=? max_open_trades params)%Z
  then false
  else if Py.gtb (equity s) 0 then
    let daily_loss_pct := Py.abs (Py.min 0 (daily_pnl s)) / equity s in
    if Py.geb daily_loss_pct (max_daily_loss params) then false
    else true
  else true.

(** [risk_amount / sl_distance]: the size computed from the risk
    budget, before the cash clamp. *)
Definition risk_quantity (equity_ entry sl : Q) : Q :=
  let risk_amount := equity_ * risk_per_trade params in
  let sl_distance := entry - sl in
  risk_amount / sl_distance.

Definition open_with (row : Row) (entry tp sl qty : Q) (s : State)
  : State :=
  let cost := entry * qty in
  let fee := cost * trading_fee params in
  let total_cost := cost + fee in
  let pos :=
    {| entry_time := timestamp row;
       entry_price := entry;
       quantity := qty;
       tp_price := tp;
       sl_price := sl;
       entry_fee := fee |} in
  {| cash := cash s - total_cost;
     equity := equity s; peak_equity := peak_equity s;
     positions := positions s ++ [pos];
     trades := trades s;
     equity_curve := equity_curve s;
     circuit_breaker_active := circuit_breaker_active s;
     current_date := current_date s;
     daily_pnl := daily_pnl s |}.

Definition _try_open_position (row : Row) (s : State) : State :=
  if negb (_can_open_trade s) then s
  else
    let entry := close row * (1 + slippage params) in
    let tp := entry * (1 + tp_pct params) in
    let sl := entry * (1 - sl_pct params) in
    let sl_distance := entry - sl in
    if Py.leb sl_distance 0 then s
    else
      let qty := risk_quantity (equity s) entry sl in
      let cost := entry * qty in
      let fee := cost * trading_fee params in
      let total_cost := cost + fee in
      if Py.gtb total_cost (cash s) then
        let qty' := cash s / (entry * (1 + trading_fee params)) in
        if Py.leb qty' 0 then s
        else open_with row entry tp sl qty' s
      else open_with row entry tp sl qty s.

Definition position_value (row : Row) (ps : list Position) : Q :=
  Py.sum (map (fun pos => quantity pos * close row) ps).

Definition _update_equity (row : Row) (s : State) : State :=
  let e := cash s + position_value row (positions s) in
  {| cash := cash s;
     equity := e;
     peak_equity := Py.max (peak_equity s) e;
     positions := positions s; trades := trades s;
     equity_curve := equity_curve s;
     circuit_breaker_active := circuit_breaker_active s;
     current_date := current_date s;
     daily_pnl := daily_pnl s |}.

Definition record_equity (row : Row) (s : State) : State :=
  {| cash := cash s; equity := equity s; peak_equity := peak_equity s;
     positions := positions s; trades := trades s;
     equity_curve := equity_curve s ++ [(timestamp row, equity s)];
     circuit_breaker_active := circuit_breaker_active s;
     current_date := current_date s;
     daily_pnl := daily_pnl s |}.

(** One forced close of [_close_all_positions]. *)
Definition force_close (row : Row) (s : State) (pos : Position) : State :=
  let exit_price := close row * (1 - slippage params) in
  let exit_fee := exit_price * quantity pos * trading_fee params in
  let trade := make_trade row pos exit_price DONG in
  {| cash := cash s + (exit_price * quantity pos - exit_fee);
     equity := equity s; peak_equity := peak_equity s;
     positions := positions s;
     trades := trades s ++ [trade];
     equity_curve := equity_curve s;
     circuit_breaker_active := circuit_breaker_active s;
     current_date := current_date s;
     daily_pnl := daily_pnl s |}.

Definition _close_all_positions (row : Row) (s : State) : State :=
  let s1 := fold_left (force_close row) (positions s) s in
  {| cash := cash s1;
     equity := cash s1;
     peak_equity := peak_equity s1;
     positions := [];
     trades := trades s1;
     equity_curve := equity_curve s1;
     circuit_breaker_active := circuit_breaker_active s1;
     current_date := current_date s1;
     daily_pnl := daily_pnl s1 |}.

(** The body of the [for i in range(len(df))] loop of [run]. *)
Definition process_row (s : State) (row : Row) : State :=
  let s1 := _update_daily_tracking (timestamp row) s in
  let s2 := _check_exits row s1 in
  let s3 := _check_circuit_breaker s2 in
  let s4 := if (signal row =? 1)%Z then _try_open_position row s3
            else s3 in
  let s5 := _update_equity row s4 in
  record_equity row s5.

(** The state after the loop over the rows [df], from a given state. *)
Definition run_loop (s : State) (df : list Row) : State :=
  fold_left process_row df s.

(** [run]: full reset, the loop, then the forced close on the last row. *)
Definition run (df : list Row) : State :=
  let s := run_loop _reset df in
  match df with
  | [] => s
  | r :: rest => _close_all_positions (last rest r) s
  end.

End WithParams.

End Backtester.

(** ** core/backtester.py on binary64

    The same functions as [Module Backtester], with every [float] of the
    source a binary64 value: each arithmetic operation of the source is
    one correctly rounded operation here, in the source's order, and each
    comparison is the IEEE comparison (false on NaN).  Python raises
    ZeroDivisionError where a float is divided by zero; the operations
    here return an infinity or NaN instead, so the module stands for the
    source on runs that divide by no zero. *)

Module Backtester64.

Import PrimFloat.
#[local] Open Scope float_scope.

(** [a > b], [a >= b], [max(a, b)], [min(a, b)] and [sum(...)] (which
    starts from the integer [0]) on binary64 values. *)
Definition gtb (a b : float) : bool := ltb b a.
Definition geb (a b : float) : bool := leb b a.
Definition max (a b : float) : float := if gtb b a then b else a.
Definition min (a b : float) : float := if ltb b a then b else a.
Definition sum (l : list float) : float := fold_left add l 0.

(** [Trade.side]: ["SL"], ["TP"], or the forced close at the end of a run. *)
Inductive Side := SL | TP | DONG.

Record Position := mkPosition {
  entry_time : Z;
  entry_price : float;
  quantity : float;
  tp_price : float;
  sl_price : float;
  entry_fee : float
}.

Record Trade := mkTrade {
  t_entry_time : Z;
  t_exit_time : Z;
  t_entry_price : float;
  t_exit_price : float;
  t_quantity : float;
  t_side : Side;
  t_pnl : float;
  t_pnl_pct : float;
  t_total_fee : float
}.

Record BacktestParams := mkParams {
  initial_capital : float;
  trading_fee : float;
  slippage : float;
  risk_per_trade : float;
  max_daily_loss : float;
  max_open_trades : Z;
  circuit_breaker_dd : float;
  tp_pct : float;
  sl_pct : float
}.

Record Row := mkRow {
  timestamp : Z;
  open : float;
  high : float;
  low : float;
  close : float;
  signal : Z
}.

Definition date_of (ts : Z) : Z := (ts / 86400)%Z.

Record State := mkState {
  cash : float;
  equity : float;
  peak_equity : float;
  positions : list Position;
  trades : list Trade;
  equity_curve : list (Z * float);
  circuit_breaker_active : bool;
  current_date : option Z;
  daily_pnl : float
}.

Section WithParams.

Variable params : BacktestParams.

Definition _reset : State :=
  {| cash := initial_capital params;
     equity := initial_capital params;
     peak_equity := initial_capital params;
     positions := [];
     trades := [];
     equity_curve := [];
     circuit_breaker_active := false;
     current_date := None;
     daily_pnl := 0 |}.

Definition _update_daily_tracking (current_time : Z) (s : State) : State :=
  let d := date_of current_time in
  let roll :=
    match current_date s with
    | None => true
    | Some d0 => negb (Z.eqb d d0)
    end in
  if roll then
    {| cash := cash s; equity := equity s; peak_equity := peak_equity s;
       positions := positions s; trades := trades s;
       equity_curve := equity_curve s;
       circuit_breaker_active := circuit_breaker_active s;
       current_date := Some d;
       daily_pnl := 0 |}
  else s.

(** The [if]/[elif] of [_check_exits]: the stop-loss test comes first. *)
Definition exit_trigger (row : Row) (pos : Position)
  : option (float * Side) :=
  if leb (low row) (sl_price pos) then Some (sl_price pos, SL)
  else if geb (high row) (tp_price pos) then Some (tp_price pos, TP)
  else None.

Definition slipped (side : Side) (trigger : float) : float :=
  match side with
  | TP => trigger * (1 - slippage params)
  | _ => trigger * (1 - slippage params)
  end.

Definition make_trade (row : Row) (pos : Position) (exit_price : float)
           (side : Side) : Trade :=
  let exit_fee := exit_price * quantity pos * trading_fee params in
  let gross_pnl := (exit_price - entry_price pos) * quantity pos in
  let net_pnl := gross_pnl - entry_fee pos - exit_fee in
  {| t_entry_time := entry_time pos;
     t_exit_time := timestamp row;
     t_entry_price := entry_price pos;
     t_exit_price := exit_price;
     t_quantity := quantity pos;
     t_side := side;
     t_pnl := net_pnl;
     t_pnl_pct := (net_pnl / (entry_price pos * quantity pos)) * 100;
     t_total_fee := entry_fee pos + exit_fee |}.

Definition close_on_exit (row : Row) (pos : Position)
           (trigger : float) (side : Side) (s : State) : State :=
  let exit_price := slipped side trigger in
  let exit_fee := exit_price * quantity pos * trading_fee params in
  let trade := make_trade row pos exit_price side in
  {| cash := cash s + (exit_price * quantity pos - exit_fee);
     equity := equity s; peak_equity := peak_equity s;
     positions := positions s;
     trades := trades s ++ [trade];
     equity_curve := equity_curve s;
     circuit_breaker_active := circuit_breaker_active s;
     current_date := current_date s;
     daily_pnl := daily_pnl s + t_pnl trade |}.

Fixpoint exits_loop (row : Row) (idx : nat) (ps : list Position)
         (s : State) (closed : list nat) : State * list nat :=
  match ps with
  | [] => (s, closed)
  | pos :: rest =>
      match exit_trigger row pos with
      | Some (trigger, side) =>
          exits_loop row (S idx) rest
                     (close_on_exit row pos trigger side s)
                     (closed ++ [idx])
      | None => exits_loop row (S idx) rest s closed
      end
  end.

Definition pop_closed (closed : list nat) (ps : list Position)
  : list Position :=
  fold_left (fun l idx => Py.pop idx l) (Py.sorted_reverse closed) ps.

Definition with_positions (ps : list Position) (s : State) : State :=
  {| cash := cash s; equity := equity s; peak_equity := peak_equity s;
     positions := ps; trades := trades s;
     equity_curve := equity_curve s;
     circuit_breaker_active := circuit_breaker_active s;
     current_date := current_date s;
     daily_pnl := daily_pnl s |}.

Definition _check_exits (row : Row) (s : State) : State :=
  let '(s1, closed) := exits_loop row 0 (positions s) s [] in
  with_positions (pop_closed closed (positions s1)) s1.

Definition with_breaker (b : bool) (s : State) : State :=
  {| cash := cash s; equity := equity s; peak_equity := peak_equity s;
     positions := positions s; trades := trades s;
     equity_curve := equity_curve s;
     circuit_breaker_active := b;
     current_date := current_date s;
     daily_pnl := daily_pnl s |}.

Definition _check_circuit_breaker (s : State) : State :=
  if gtb (peak_equity s) 0 then
    let drawdown := (peak_equity s - equity s) / peak_equity s in
    if geb drawdown (circuit_breaker_dd params) then
      if negb (circuit_breaker_active s) then with_breaker true s
      else s
    else s
  else s.

Definition _can_open_trade (s : State) : bool :=
  if circuit_breaker_active s then false
  else if (Z.of_nat (List.length (positions s)) >=? max_open_trades params)%Z
  then false
  else if gtb (equity s) 0 then
    let daily_loss_pct := abs (min 0 (daily_pnl s)) / equity s in
    if geb daily_loss_pct (max_daily_loss params) then false
    else true
  else true.

Definition open_with (row : Row) (entry tp sl qty : float) (s : State)
  : State :=
  let cost := entry * qty in
  let fee := cost * trading_fee params in
  let total_cost := cost + fee in
  let pos :=
    {| entry_time := timestamp row;
       entry_price := entry;
       quantity := qty;
       tp_price := tp;
       sl_price := sl;
       entry_fee := fee |} in
  {| cash := cash s - total_cost;
     equity := equity s; peak_equity := peak_equity s;
     positions := positions s ++ [pos];
     trades := trades s;
     equity_curve := equity_curve s;
     circuit_breaker_active := circuit_breaker_active s;
     current_date := current_date s;
     daily_pnl := daily_pnl s |}.

(** [_try_open_position]: the size from the risk budget, cut to what the
    cash pays for when its cost with the fee exceeds the cash. *)
Definition _try_open_position (row : Row) (s : State) : State :=
  if negb (_can_open_trade s) then s
  else
    let entry := close row * (1 + slippage params) in
    let tp := entry * (1 + tp_pct params) in
    let sl := entry * (1 - sl_pct params) in
    let risk_amount := equity s * risk_per_trade params in
    let sl_distance := entry - sl in
    if leb sl_distance 0 then s
    else
      let qty := risk_amount / sl_distance in
      let cost := entry * qty in
      let fee := cost * trading_fee params in
      let total_cost := cost + fee in
      if gtb total_cost (cash s) then
        let qty' := cash s / (entry * (1 + trading_fee params)) in
        if leb qty' 0 then s
        else open_with row entry tp sl qty' s
      else open_with row entry tp sl qty s.

Definition position_value (row : Row) (ps : list Position) : float :=
  sum (map (fun pos => quantity pos * close row) ps).

(** [_update_equity]: the positions are summed first, then added to the
    cash. *)
Definition _update_equity (row : Row) (s : State) : State :=
  let e := cash s + position_value row (positions s) in
  {| cash := cash s;
     equity := e;
     peak_equity := max (peak_equity s) e;
     positions := positions s; trades := trades s;
     equity_curve := equity_curve s;
     circuit_breaker_active := circuit_breaker_active s;
     current_date := current_date s;
     daily_pnl := daily_pnl s |}.

Definition record_equity (row : Row) (s : State) : State :=
  {| cash := cash s; equity := equity s; peak_equity := peak_equity s;
     positions := positions s; trades := trades s;
     equity_curve := equity_curve s ++ [(timestamp row, equity s)];
     circuit_breaker_active := circuit_breaker_active s;
     current_date := current_date s;
     daily_pnl := daily_pnl s |}.

(** One forced close of [_close_all_positions]: the proceeds of the
    position are added to the cash. *)
Definition force_close (row : Row) (s : State) (pos : Position) : State :=
  let exit_price := close row * (1 - slippage params) in
  let exit_fee := exit_price * quantity pos * trading_fee params in
  let trade := make_trade row pos exit_price DONG in
  {| cash := cash s + (exit_price * quantity pos - exit_fee);
     equity := equity s; peak_equity := peak_equity s;
     positions := positions s;
     trades := trades s ++ [trade];
     equity_curve := equity_curve s;
     circuit_breaker_active := circuit_breaker_active s;
     current_date := current_date s;
     daily_pnl := daily_pnl s |}.

(** [_close_all_positions]: after the loop, [self.equity = self.cash]. *)
Definition _close_all_positions (row : Row) (s : State) : State :=
  let s1 := fold_left (force_close row) (positions s) s in
  {| cash := cash s1;
     equity := cash s1;
     peak_equity := peak_equity s1;
     positions := [];
     trades := trades s1;
     equity_curve := equity_curve s1;
     circuit_breaker_active := circuit_breaker_active s1;
     current_date := current_date s1;
     daily_pnl := daily_pnl s1 |}.

Definition process_row (s : State) (row : Row) : State :=
  let s1 := _update_daily_tracking (timestamp row) s in
  let s2 := _check_exits row s1 in
  let s3 := _check_circuit_breaker s2 in
  let s4 := if (signal row =? 1)%Z then _try_open_position row s3
            else s3 in
  let s5 := _update_equity row s4 in
  record_equity row s5.

Definition run_loop (s : State) (df : list Row) : State :=
  fold_left process_row df s.

Definition run (df : list Row) : State :=
  let s := run_loop _reset df in
  match df with
  | [] => s
  | r :: rest => _close_all_positions (last rest r) s
  end.

End WithParams.

End Backtester64.

(** ** live/risk_manager.py *)

Module RiskManager.

Record State := mkState {
  initial_capital : Q;
  risk_per_trade : Q;
  max_daily_loss : Q;
  max_open_trades : Z;
  circuit_breaker_dd : Q;
  current_equity : Q;
  peak_equity : Q;
  open_trade_count : Z;
  circuit_breaker_active : bool;
  daily_pnl : Q;
  current_date : option Z;
  daily_start_equity : Q
}.

(** [RiskManager(...)]: every argument defaults to [None] and is combined
    with the configuration by [or]. *)
Definition __init__ (initial_capital_ risk_per_trade_ max_daily_loss_ : option Q)
           (max_open_trades_ : option Z) (circuit_breaker_dd_ : option Q)
  : State :=
  let ic := Py.or_float initial_capital_ Config.INITIAL_CAPITAL in
  {| initial_capital := ic;
     risk_per_trade := Py.or_float risk_per_trade_ Config.RISK_PER_TRADE;
     max_daily_loss := Py.or_float max_daily_loss_ Config.MAX_DAILY_LOSS;
     max_open_trades := Py.or_int max_open_trades_ Config.MAX_OPEN_TRADES;
     circuit_breaker_dd :=
       Py.or_float circuit_breaker_dd_ Config.CIRCUIT_BREAKER_DD;
     current_equity := ic;
     peak_equity := ic;
     open_trade_count := 0;
     circuit_breaker_active := false;
     daily_pnl := 0;
     current_date := None;
     daily_start_equity := ic |}.

Definition with_equity (e pk : Q) (s : State) : State :=
  {| initial_capital := initial_capital s;
     risk_per_trade := risk_per_trade s;
     max_daily_loss := max_daily_loss s;
     max_open_trades := max_open_trades s;
     circuit_breaker_dd := circuit_breaker_dd s;
     current_equity := e;
     peak_equity := pk;
     open_trade_count := open_trade_count s;
     circuit_breaker_active := circuit_breaker_active s;
     daily_pnl := daily_pnl s;
     current_date := current_date s;
     daily_start_equity := daily_start_equity s |}.

Definition with_breaker (b : bool) (s : State) : State :=
  {| initial_capital := initial_capital s;
     risk_per_trade := risk_per_trade s;
     max_daily_loss := max_daily_loss s;
     max_open_trades := max_open_trades s;
     circuit_breaker_dd := circuit_breaker_dd s;
     current_equity := current_equity s;
     peak_equity := peak_equity s;
     open_trade_count := open_trade_count s;
     circuit_breaker_active := b;
     daily_pnl := daily_pnl s;
     current_date := current_date s;
     daily_start_equity := daily_start_equity s |}.

Definition with_count (n : Z) (s : State) : State :=
  {| initial_capital := initial_capital s;
     risk_per_trade := risk_per_trade s;
     max_daily_loss := max_daily_loss s;
     max_open_trades := max_open_trades s;
     circuit_breaker_dd := circuit_breaker_dd s;
     current_equity := current_equity s;
     peak_equity := peak_equity s;
     open_trade_count := n;
     circuit_breaker_active := circuit_breaker_active s;
     daily_pnl := daily_pnl s;
     current_date := current_date s;
     daily_start_equity := daily_start_equity s |}.

Definition with_daily (pnl : Q) (d : option Z) (start : Q) (s : State)
  : State :=
  {| initial_capital := initial_capital s;
     risk_per_trade := risk_per_trade s;
     max_daily_loss := max_daily_loss s;
     max_open_trades := max_open_trades s;
     circuit_breaker_dd := circuit_breaker_dd s;
     current_equity := current_equity s;
     peak_equity := peak_equity s;
     open_trade_count := open_trade_count s;
     circuit_breaker_active := circuit_breaker_active s;
     daily_pnl := pnl;
     current_date := d;
     daily_start_equity := start |}.

Definition _check_circuit_breaker (s : State) : State :=
  if Py.leb (peak_equity s) 0 then s
  else
    let drawdown := (peak_equity s - current_equity s) / peak_equity s in
    if Py.geb drawdown (circuit_breaker_dd s)
       && negb (circuit_breaker_active s)
    then with_breaker true s
    else s.

Definition update_equity (new_equity : Q) (s : State) : State :=
  _check_circuit_breaker
    (with_equity new_equity (Py.max (peak_equity s) new_equity) s).

Definition record_trade_pnl (pnl : Q) (s : State) : State :=
  with_daily (daily_pnl s + pnl) (current_date s) (daily_start_equity s) s.

Definition trade_opened (s : State) : State :=
  with_count (open_trade_count s + 1)%Z s.

Definition trade_closed (s : State) : State :=
  with_count (Z.max 0 (open_trade_count s - 1))%Z s.

(** [now] is the date read from the clock,
    [datetime.now(timezone.utc).date()]. *)
Definition _update_daily_tracking (now : Z) (s : State) : State :=
  let roll :=
    match current_date s with
    | None => true
    | Some d0 => negb (Z.eqb now d0)
    end in
  if roll then with_daily 0 (Some now) (current_equity s) s else s.

(** [can_trade] first rolls the daily window, so it returns the verdict
    together with the state it leaves behind. *)
Definition can_trade (now : Z) (s : State) : bool * State :=
  let s1 := _update_daily_tracking now s in
  if circuit_breaker_active s1 then (false, s1)
  else if (open_trade_count s1 >=? max_open_trades s1)%Z then (false, s1)
  else if Py.gtb (daily_start_equity s1) 0 then
    let daily_loss_pct :=
      Py.abs (Py.min 0 (daily_pnl s1)) / daily_start_equity s1 in
    if Py.geb daily_loss_pct (max_daily_loss s1) then (false, s1)
    else (true, s1)
  else (true, s1).

(** [risk_amount / sl_distance]: the size before the 95% cap. *)
Definition risk_quantity (entry_price sl_price : Q) (s : State) : Q :=
  let risk_amount := current_equity s * risk_per_trade s in
  let sl_distance := Py.abs (entry_price - sl_price) in
  risk_amount / sl_distance.

Definition calculate_position_size (entry_price sl_price : Q) (s : State)
  : Q :=
  let sl_distance := Py.abs (entry_price - sl_price) in
  if Py.leb sl_distance 0 then 0
  else
    let quantity := risk_quantity entry_price sl_price s in
    let cost := quantity * entry_price in
    if Py.gtb cost (current_equity s * (95 # 100))
    then (current_equity s * (95 # 100)) / entry_price
    else quantity.

End RiskManager.

(** ** live/execution.py *)

Module Execution.

(** The exceptions the connector's code distinguishes; [OtherError] is
    any exception it has no handler for. *)
Inductive Exn :=
| BinanceAPIException (code : Z)
| BinanceRequestException
| ValueError
| IndexError
| AttributeError
| OtherError.

Inductive Outcome (A : Type) :=
| Returned (a : A)
| Raised (e : Exn).
Arguments Returned {A} a.
Arguments Raised {A} e.

Record Fill := mkFill { f_qty : Q; f_price : Q }.

(** The order document the venue returns: ["fills"] and ["executedQty"]
    may be absent. *)
Record OrderResult := mkOrderResult {
  fills : option (list Fill);
  executedQty : option Q;
  orderId : option string
}.

(** [str(result.get("orderId", ""))] *)
Definition order_id_text (r : OrderResult) : string :=
  match orderId r with
  | Some t => t
  | None => EmptyString
  end.

Inductive Side := BUY | SELL.

(** What the venue does with one [create_order] call. *)
Inductive Reply :=
| Filled (r : OrderResult)
| Fails (e : Exn).

(** What the venue does with [get_symbol_info]: the [LOT_SIZE] step, no
    such symbol, or an exception.  The step is a string such as
    ["0.00100000"]; the code uses it only as [Decimal(stepSize)] in
    [quantize], which reads its exponent and not its value, so the model
    keeps the number of digits the string is written with after the
    decimal point: 8 for ["0.00100000"], 1 for ["0.5"], 0 for ["1"]
    (absent filter: the default ["0.00000001"], 8 digits). *)
Inductive InfoReply :=
| Info (step_places : option nat)
| NoSuchSymbol
| InfoFails (e : Exn).

(** The venue: its reply to the n-th [create_order] call of the session
    and to a symbol query. *)
Record Venue := mkVenue {
  create_order : nat -> Reply;
  get_symbol_info_reply : string -> InfoReply
}.

(** The connector: the [_symbol_info] cache (symbol to the number of
    digits its step string has after the decimal point), and the record
    of what it has done so far: number of [create_order] calls sent and
    the delays slept. *)
Record Conn := mkConn {
  symbol_info : list (string * nat);
  calls : nat;
  sleeps : list Z
}.

Definition MAX_RETRIES : Z := 3.
Definition RETRY_DELAY_BASE : Z := 2.

Definition connector : Conn := mkConn [] 0 [].

Fixpoint lookup {A : Type} (k : string) (l : list (string * A)) : option A :=
  match l with
  | [] => None
  | (k', v) :: t => if String.eqb k k' then Some v else lookup k t
  end.

Definition get_symbol_info (v : Venue) (symbol : string) (c : Conn)
  : Outcome nat * Conn :=
  match lookup symbol (symbol_info c) with
  | Some p => (Returned p, c)
  | None =>
      match get_symbol_info_reply v symbol with
      | InfoFails e => (Raised e, c)
      | NoSuchSymbol => (Raised ValueError, c)
      | Info sp =>
          let p := match sp with Some p => p | None => 8%nat end in
          (Returned p,
           mkConn ((symbol, p) :: symbol_info c) (calls c) (sleeps c))
      end
  end.

(** [Decimal(str(q)).quantize(Decimal(step), rounding=ROUND_DOWN)]: the
    result has the exponent of the step string, the digits of [q] beyond
    it are cut, toward zero.  This is a cut to [places] decimal digits,
    not to a multiple of the step's value: with the step ["0.5"], 1.26
    becomes 1.2.  [quantize] raises [InvalidOperation] when the result
    would need more than the 28 digits of the decimal context; that is
    not modelled, the properties below state the bound. *)
Definition quantize_down (places : nat) (q : Q) : Q :=
  let scale := (10 ^ Z.of_nat places)%Z in
  let scaled := q * inject_Z scale in
  inject_Z (Z.quot (Qnum scaled) (Zpos (Qden scaled))) / inject_Z scale.

Definition _adjust_quantity (symbol : string) (quantity : Q) (c : Conn) : Q :=
  let places :=
    match lookup symbol (symbol_info c) with
    | Some p => p
    | None => 8%nat
    end in
  quantize_down places quantity.

Definition permanent (code : Z) : bool :=
  (code =? -2010)%Z || (code =? -1013)%Z || (code =? -1111)%Z.

Definition sent (c : Conn) : Conn :=
  mkConn (symbol_info c) (S (calls c)) (sleeps c).

Definition sleep (delay : Z) (c : Conn) : Conn :=
  mkConn (symbol_info c) (calls c) (sleeps c ++ [delay]).

(** The [for attempt in range(1, MAX_RETRIES + 1)] loop of
    [place_market_order] over the attempts still to make.  A loop that
    runs out without returning or raising makes the function return
    [None]. *)
Fixpoint order_loop (v : Venue) (attempts : list Z) (c : Conn)
  : Outcome (option OrderResult) * Conn :=
  match attempts with
  | [] => (Returned None, c)
  | attempt :: rest =>
      let c1 := sent c in
      match create_order v (calls c) with
      | Filled r =>
          (* [result.get("fills", [{}])[0]] *)
          match fills r with
          | Some [] => (Raised IndexError, c1)
          | _ => (Returned (Some r), c1)
          end
      | Fails (BinanceAPIException code) =>
          if permanent code then (Raised (BinanceAPIException code), c1)
          else if (attempt <? MAX_RETRIES)%Z then
            order_loop v rest (sleep (RETRY_DELAY_BASE ^ attempt)%Z c1)
          else (Raised (BinanceAPIException code), c1)
      | Fails BinanceRequestException =>
          if (attempt <? MAX_RETRIES)%Z then
            order_loop v rest (sleep (RETRY_DELAY_BASE ^ attempt)%Z c1)
          else (Raised BinanceRequestException, c1)
      | Fails e => (Raised e, c1)
      end
  end.

(** [range(1, MAX_RETRIES + 1)] *)
Definition attempts_range : list Z :=
  map Z.of_nat (seq 1 (Z.to_nat MAX_RETRIES)).

Definition place_market_order (v : Venue) (symbol : string) (side : Side)
           (quantity : Q) (c : Conn)
  : Outcome (option OrderResult) * Conn :=
  match get_symbol_info v symbol c with
  | (Raised e, c0) => (Raised e, c0)
  | (Returned _, c0) =>
      let adjusted_qty := _adjust_quantity symbol quantity c0 in
      if Py.leb adjusted_qty 0 then (Raised ValueError, c0)
      else order_loop v attempts_range c0
  end.

End Execution.

(** ** live/order_manager.py *)

Module OrderManager.

Inductive Status := OPEN | CLOSED.

Definition is_open (st : Status) : bool :=
  match st with OPEN => true | CLOSED => false end.

(** [position_id] is the counter value [n] of the text ["POS_000n"]. *)
Record LivePosition := mkLivePosition {
  position_id : Z;
  symbol : string;
  entry_price : Q;
  quantity : Q;
  tp_price : Q;
  sl_price : Q;
  entry_time : Z;
  entry_order_id : string;
  status : Status
}.

Inductive Reason := TP | SL | DONG_HE_THONG.

(** An [OrderManager] with the two objects it holds references to.
    [positions] is the dictionary in insertion order. *)
Record State := mkState {
  connector : Execution.Conn;
  risk_manager : RiskManager.State;
  tp_pct : Q;
  sl_pct : Q;
  positions : list LivePosition;
  _position_counter : Z
}.

Definition __init__ (connector_ : Execution.Conn)
           (risk_manager_ : RiskManager.State) (tp_pct_ sl_pct_ : option Q)
  : State :=
  {| connector := connector_;
     risk_manager := risk_manager_;
     tp_pct := Py.or_float tp_pct_ Config.TP_PCT;
     sl_pct := Py.or_float sl_pct_ Config.SL_PCT;
     positions := [];
     _position_counter := 0 |}.

Definition open_positions (s : State) : list LivePosition :=
  filter (fun p => is_open (status p)) (positions s).

Definition with_risk (rm : RiskManager.State) (s : State) : State :=
  {| connector := connector s; risk_manager := rm;
     tp_pct := tp_pct s; sl_pct := sl_pct s;
     positions := positions s;
     _position_counter := _position_counter s |}.

Definition with_connector (c : Execution.Conn) (s : State) : State :=
  {| connector := c; risk_manager := risk_manager s;
     tp_pct := tp_pct s; sl_pct := sl_pct s;
     positions := positions s;
     _position_counter := _position_counter s |}.

(** [total_qty] and [total_cost] (or [total_revenue]) over a non-empty
    ["fills"] list. *)
Definition fill_totals (r : Execution.OrderResult) : Q * Q :=
  match Execution.fills r with
  | Some (f :: fs) =>
      (Py.sum (map Execution.f_qty (f :: fs)),
       Py.sum (map (fun x => Execution.f_qty x * Execution.f_price x)
                   (f :: fs)))
  | _ => (0, 0)
  end.

Definition has_fills (r : Execution.OrderResult) : bool :=
  match Execution.fills r with
  | Some (_ :: _) => true
  | _ => false
  end.

(** The average fill price, as [open_position] and [_close_position]
    compute it; [fallback_price] is used where there are no fills or the
    filled quantity is not positive. *)
Definition fill_price (r : Execution.OrderResult) (fallback_price : Q) : Q :=
  if has_fills r then
    let '(total_qty, total_cost) := fill_totals r in
    if Py.gtb total_qty 0 then total_cost / total_qty else fallback_price
  else fallback_price.

Definition fill_quantity (r : Execution.OrderResult) (fallback_qty : Q) : Q :=
  if has_fills r then fst (fill_totals r)
  else match Execution.executedQty r with
       | Some q => q
       | None => fallback_qty
       end.

(** [open_position]; [now] is the clock's date (read by [can_trade]) and
    [now_ts] the clock's time stamp.  The result is the position opened,
    or [None]. *)
Definition open_position (v : Execution.Venue) (now now_ts : Z)
           (symbol_ : string) (current_price : Q) (s : State)
  : option LivePosition * State :=
  let '(ok, rm1) := RiskManager.can_trade now (risk_manager s) in
  let s1 := with_risk rm1 s in
  if negb ok then (None, s1)
  else
    let slippage_price := current_price * (1 + Config.SLIPPAGE) in
    let sl0 := slippage_price * (1 - sl_pct s1) in
    let quantity_ :=
      RiskManager.calculate_position_size slippage_price sl0 rm1 in
    if Py.leb quantity_ 0 then (None, s1)
    else
      match Execution.place_market_order v symbol_ Execution.BUY quantity_
                                         (connector s1) with
      | (Execution.Returned (Some r), c1) =>
          let actual_price := fill_price r slippage_price in
          let actual_qty := fill_quantity r quantity_ in
          let counter := (_position_counter s1 + 1)%Z in
          let position :=
            {| position_id := counter;
               symbol := symbol_;
               entry_price := actual_price;
               quantity := actual_qty;
               tp_price := actual_price * (1 + tp_pct s1);
               sl_price := actual_price * (1 - sl_pct s1);
               entry_time := now_ts;
               entry_order_id := Execution.order_id_text r;
               status := OPEN |} in
          (Some position,
           {| connector := c1;
              risk_manager := RiskManager.trade_opened rm1;
              tp_pct := tp_pct s1; sl_pct := sl_pct s1;
              positions := positions s1 ++ [position];
              _position_counter := counter |})
      | (_, c1) =>
          (* [except Exception]: the attempt is abandoned *)
          (None, with_connector c1 s1)
      end.

(** [position.status = "CLOSED"] on the object the dictionary holds under
    this id. *)
Definition mark_closed (pid : Z) (ps : list LivePosition)
  : list LivePosition :=
  map (fun p =>
         if (position_id p =? pid)%Z then
           {| position_id := position_id p; symbol := symbol p;
              entry_price := entry_price p; quantity := quantity p;
              tp_price := tp_price p; sl_price := sl_price p;
              entry_time := entry_time p;
              entry_order_id := entry_order_id p;
              status := CLOSED |}
         else p) ps.

Definition _close_position (v : Execution.Venue) (position : LivePosition)
           (reason : Reason) (current_price : Q) (s : State) : State :=
  match Execution.place_market_order v (symbol position) Execution.SELL
                                     (quantity position) (connector s) with
  | (Execution.Returned (Some r), c1) =>
      let exit_price := fill_price r current_price in
      let gross_pnl := (exit_price - entry_price position)
                       * quantity position in
      let entry_fee := entry_price position * quantity position
                       * Config.TRADING_FEE in
      let exit_fee := exit_price * quantity position * Config.TRADING_FEE in
      let net_pnl := gross_pnl - entry_fee - exit_fee in
      let rm1 := RiskManager.trade_closed (risk_manager s) in
      let rm2 := RiskManager.record_trade_pnl net_pnl rm1 in
      let rm3 := RiskManager.update_equity
                   (RiskManager.current_equity rm2 + net_pnl) rm2 in
      {| connector := c1;
         risk_manager := rm3;
         tp_pct := tp_pct s; sl_pct := sl_pct s;
         positions := mark_closed (position_id position) (positions s);
         _position_counter := _position_counter s |}
  | (_, c1) =>
      (* [except Exception]: the position stays open *)
      with_connector c1 s
  end.

(** The [if]/[elif] of [check_tp_sl]: take-profit is tested first. *)
Definition close_reason (current_price : Q) (position : LivePosition)
  : option Reason :=
  if Py.geb current_price (tp_price position) then Some TP
  else if Py.leb current_price (sl_price position) then Some SL
  else None.

(** [for position in self.open_positions], over the list built when the
    loop starts. *)
Fixpoint check_loop (v : Execution.Venue) (symbol_ : string)
         (current_price : Q) (todo : list LivePosition) (s : State)
  : State :=
  match todo with
  | [] => s
  | position :: rest =>
      if negb (String.eqb (symbol position) symbol_) then
        check_loop v symbol_ current_price rest s
      else
        match close_reason current_price position with
        | Some reason =>
            check_loop v symbol_ current_price rest
                       (_close_position v position reason current_price s)
        | None => check_loop v symbol_ current_price rest s
        end
  end.

Definition check_tp_sl (v : Execution.Venue) (symbol_ : string)
           (current_price : Q) (s : State) : State :=
  check_loop v symbol_ current_price (open_positions s) s.

Definition close_all_positions (v : Execution.Venue) (symbol_ : string)
           (current_price : Q) (s : State) : State :=
  let open_pos :=
    filter (fun p => String.eqb (symbol p) symbol_) (open_positions s) in
  fold_left (fun st p => _close_position v p DONG_HE_THONG current_price st)
            open_pos s.

(** The calls the engine makes on an order manager. *)
Inductive Call :=
| CheckTpSl (symbol_ : string) (current_price : Q)
| OpenPosition (now now_ts : Z) (symbol_ : string) (current_price : Q)
| CloseAll (symbol_ : string) (current_price : Q).

Definition call (v : Execution.Venue) (s : State) (c : Call) : State :=
  match c with
  | CheckTpSl sy p => check_tp_sl v sy p s
  | OpenPosition now now_ts sy p => snd (open_position v now now_ts sy p s)
  | CloseAll sy p => close_all_positions v sy p s
  end.

Definition calls (v : Execution.Venue) (s : State) (cs : list Call) : State :=
  fold_left (call v) cs s.

End OrderManager.

(** ** live/main.py *)

Module Engine.

(** The [kline_data] dictionary the connector hands to the callback. *)
Record Kline := mkKline {
  timestamp : Z;
  open : Q;
  high : Q;
  low : Q;
  close : Q;
  volume : Q;
  is_closed : bool
}.

Definition MIN_CANDLES : nat := 60.

(** A [LiveTradingEngine]: its symbol, its order manager (which holds the
    connector and the risk manager) and the candle buffer, a [deque] of at
    most 500 candles. *)
Record State := mkState {
  symbol : string;
  order_manager : OrderManager.State;
  _candle_buffer : list Kline
}.

(** [deque.append] with [maxlen=500]: a full buffer drops its oldest
    candle. *)
Definition buffer_append (k : Kline) (b : list Kline) : list Kline :=
  let b' := b ++ [k] in
  if (500 <? List.length b')%nat then tl b' else b'.

(** [_on_kline].  [signal] is what [compute_indicators] and
    [generate_signals] give for the last buffered candle ([None] when they
    raise or return an empty frame); [now] and [now_ts] are the clock's
    date and time stamp. *)
Definition _on_kline (v : Execution.Venue) (now now_ts : Z)
           (signal : option Z) (kline_data : Kline) (e : State) : State :=
  let current_price := close kline_data in
  let om1 := OrderManager.check_tp_sl v (symbol e) current_price
                                      (order_manager e) in
  if negb (is_closed kline_data) then mkState (symbol e) om1 (_candle_buffer e)
  else
    let buffer := buffer_append kline_data (_candle_buffer e) in
    if (List.length buffer <? MIN_CANDLES)%nat
    then mkState (symbol e) om1 buffer
    else
      match signal with
      | None => mkState (symbol e) om1 buffer
      | Some last_signal =>
          if (last_signal =? 1)%Z then
            mkState (symbol e)
                    (snd (OrderManager.open_position v now now_ts (symbol e)
                                                    current_price om1))
                    buffer
          else mkState (symbol e) om1 buffer
      end.

End Engine.

(** ** JSON documents, as [json.dump] writes and [json.load] reads them *)

Module Json.

#[local] Unset Elimination Schemes.

Inductive t :=
| Null
| Bool (b : bool)
| Num (q : Q)
| Int (z : Z)
| Str (s : string)
| Arr (l : list t)
| Obj (kv : list (string * t)).

#[local] Set Elimination Schemes.

(** [d.get(k)] on a decoded object. *)
Definition get (k : string) (kv : list (string * t)) : option t :=
  Execution.lookup k kv.

End Json.

(** ** live/live_trader.py *)

Module LiveTrader.

(** [TP], [SL], or the manual close of [close_all]. *)
Inductive Reason := TP | SL | DONG_THU_CONG.

(** A position dictionary. *)
Record Position := mkPosition {
  id : string;
  symbol : string;
  entry_price : Q;
  quantity : Q;
  tp_price : Q;
  sl_price : Q;
  entry_time : string;
  order_id : string
}.

(** A trade dictionary of [trade_history]. *)
Record Trade := mkTrade {
  t_id : string;
  t_symbol : string;
  t_entry_time : string;
  t_exit_time : string;
  t_entry_price : Q;
  t_exit_price : Q;
  t_quantity : Q;
  t_reason : Reason;
  t_pnl : Q;
  t_pnl_pct : Q;
  t_fee : Q
}.

(** The fields of a [LiveTrader] the modelled methods read or write;
    [step_places] is the number of decimal places of
    [symbol_info["step_size"]] ([None] before [connect]), [calls] and
    [sleeps] record the [create_order] calls sent and the delays slept.
    The log buffer and the credentials are left out. *)
Record State := mkState {
  trader_symbol : string;
  ema_fast : Z;
  ema_slow : Z;
  tp_pct : Q;
  sl_pct : Q;
  connected : bool;
  step_places : option nat;
  positions : list Position;
  trade_history : list Trade;
  initial_equity : Q;
  current_equity : Q;
  peak_equity : Q;
  daily_pnl : Q;
  daily_date : option string;
  circuit_breaker : bool;
  last_signal : Z;
  last_price : Q;
  calls : nat;
  sleeps : list Z
}.

(** The content of [STATE_FILE]. *)
Inductive File :=
| Absent
| Garbled
| Document (j : Json.t).

(** How a write of [STATE_FILE] goes: completed, refused at [open] (the
    file keeps its content), or broken off after [open] truncated it. *)
Inductive WriteResult := WriteOk | OpenFails | DumpFails.

Definition position_to_json (p : Position) : Json.t :=
  Json.Obj [("id", Json.Str (id p));
            ("symbol", Json.Str (symbol p));
            ("entry_price", Json.Num (entry_price p));
            ("quantity", Json.Num (quantity p));
            ("tp_price", Json.Num (tp_price p));
            ("sl_price", Json.Num (sl_price p));
            ("entry_time", Json.Str (entry_time p));
            ("order_id", Json.Str (order_id p))]%string.

Definition as_num (j : option Json.t) : option Q :=
  match j with
  | Some (Json.Num q) => Some q
  | Some (Json.Int z) => Some (inject_Z z)
  | _ => None
  end.

Definition as_str (j : option Json.t) : option string :=
  match j with
  | Some (Json.Str s) => Some s
  | _ => None
  end.

(** A loaded position is the decoded dictionary itself; the model reads
    it back into the record, and has no value for a dictionary that lacks
    one of the keys the methods index. *)
Definition position_of_json (j : Json.t) : option Position :=
  match j with
  | Json.Obj kv =>
      match as_str (Json.get "id" kv), as_str (Json.get "symbol" kv),
            as_num (Json.get "entry_price" kv),
            as_num (Json.get "quantity" kv),
            as_num (Json.get "tp_price" kv),
            as_num (Json.get "sl_price" kv),
            as_str (Json.get "entry_time" kv),
            as_str (Json.get "order_id" kv) with
      | Some i, Some sy, Some ep, Some q, Some tp, Some sl, Some et, Some oi =>
          Some (mkPosition i sy ep q tp sl et oi)
      | _, _, _, _, _, _, _, _ => None
      end
  | _ => None
  end%string.

Fixpoint positions_of_json (l : list Json.t) : option (list Position) :=
  match l with
  | [] => Some []
  | j :: t =>
      match position_of_json j, positions_of_json t with
      | Some p, Some ps => Some (p :: ps)
      | _, _ => None
      end
  end.

(** The dictionary [state] of [_save_state]. *)
Definition state_document (s : State) : Json.t :=
  Json.Obj [("positions", Json.Arr (map position_to_json (positions s)));
            ("initial_equity", Json.Num (initial_equity s));
            ("peak_equity", Json.Num (peak_equity s));
            ("daily_pnl", Json.Num (daily_pnl s));
            ("daily_date", match daily_date s with
                           | Some d => Json.Str d
                           | None => Json.Null
                           end);
            ("circuit_breaker", Json.Bool (circuit_breaker s));
            ("trade_count",
             Json.Int (Z.of_nat (List.length (trade_history s))))]%string.

Definition _save_state (io : WriteResult) (s : State) (f : File) : File :=
  match io with
  | WriteOk => Document (state_document s)
  | OpenFails => f
  | DumpFails => Garbled
  end.

(** [state.get(key, default)] for each persisted key, read at the type
    the field has. *)
Definition get_positions (kv : list (string * Json.t))
  : option (list Position) :=
  match Json.get "positions" kv with
  | None => Some []
  | Some (Json.Arr l) => positions_of_json l
  | Some _ => None
  end.

Definition get_num (k : string) (kv : list (string * Json.t)) : option Q :=
  match Json.get k kv with
  | None => Some 0
  | j => as_num j
  end.

Definition get_date (kv : list (string * Json.t)) : option (option string) :=
  match Json.get "daily_date" kv with
  | None => Some None
  | Some Json.Null => Some None
  | Some (Json.Str d) => Some (Some d)
  | Some _ => None
  end.

Definition get_flag (kv : list (string * Json.t)) : option bool :=
  match Json.get "circuit_breaker" kv with
  | None => Some false
  | Some (Json.Bool b) => Some b
  | Some _ => None
  end.

Definition with_loaded (ps : list Position) (ie pk dp : Q)
           (dd : option string) (cb : bool) (s : State) : State :=
  {| trader_symbol := trader_symbol s;
     ema_fast := ema_fast s; ema_slow := ema_slow s;
     tp_pct := tp_pct s; sl_pct := sl_pct s;
     connected := connected s; step_places := step_places s;
     positions := ps;
     trade_history := trade_history s;
     initial_equity := ie;
     current_equity := current_equity s;
     peak_equity := pk;
     daily_pnl := dp;
     daily_date := dd;
     circuit_breaker := cb;
     last_signal := last_signal s; last_price := last_price s;
     calls := calls s; sleeps := sleeps s |}.

(** [_load_state]: a missing file and an unreadable one ([except
    Exception: pass]) leave the trader as it is.  The code assigns the six
    fields one by one, from [state.get(key, default)], and keeps whatever
    value the document holds.  The fields of the model are typed, so it
    covers the documents whose values have the types [_save_state] writes
    (a missing key takes its default); a document with a value of another
    type is outside the model and is read here as leaving the trader as it
    is, which is not what the code does with it. *)
Definition _load_state (f : File) (s : State) : State :=
  match f with
  | Document (Json.Obj kv) =>
      match get_positions kv, get_num "initial_equity" kv,
            get_num "peak_equity" kv, get_num "daily_pnl" kv,
            get_date kv, get_flag kv with
      | Some ps, Some ie, Some pk, Some dp, Some dd, Some cb =>
          with_loaded ps ie pk dp dd cb s
      | _, _, _, _, _, _ => s
      end
  | _ => s
  end%string.

(** [LiveTrader(api_key, api_secret, symbol, ema_fast, ema_slow, tp_pct,
    sl_pct)] with the state file as it is found. *)
Definition __init__ (symbol_ : string) (ema_fast_ ema_slow_ : option Z)
           (tp_pct_ sl_pct_ : option Q) (f : File) : State :=
  _load_state f
    {| trader_symbol := Py.upper symbol_;
       ema_fast := Py.or_int ema_fast_ Config.EMA_FAST;
       ema_slow := Py.or_int ema_slow_ Config.EMA_SLOW;
       tp_pct := Py.or_float tp_pct_ Config.TP_PCT;
       sl_pct := Py.or_float sl_pct_ Config.SL_PCT;
       connected := false;
       step_places := None;
       positions := [];
       trade_history := [];
       initial_equity := 0;
       current_equity := 0;
       peak_equity := 0;
       daily_pnl := 0;
       daily_date := None;
       circuit_breaker := false;
       last_signal := 0;
       last_price := 0;
       calls := 0;
       sleeps := [] |}.

Definition _can_trade (s : State) : bool :=
  if circuit_breaker s then false
  else if (Z.of_nat (List.length (positions s)) >=? Config.MAX_OPEN_TRADES)%Z
  then false
  else if Py.gtb (current_equity s) 0 then
    let daily_loss_pct :=
      Py.abs (Py.min 0 (daily_pnl s)) / current_equity s in
    if Py.geb daily_loss_pct Config.MAX_DAILY_LOSS then false else true
  else true.

Definition with_risk (pnl : Q) (dd : option string) (cb : bool) (s : State)
  : State :=
  with_loaded (positions s) (initial_equity s) (peak_equity s) pnl dd cb s.

Definition _check_circuit_breaker (s : State) : State :=
  if Py.leb (peak_equity s) 0 then s
  else
    let dd := (peak_equity s - current_equity s) / peak_equity s in
    if Py.geb dd Config.CIRCUIT_BREAKER_DD && negb (circuit_breaker s)
    then with_risk (daily_pnl s) (daily_date s) true s
    else s.

(** [today] is the clock's date in ISO text. *)
Definition _update_daily_tracking (today : string) (s : State) : State :=
  let same :=
    match daily_date s with
    | Some d => String.eqb d today
    | None => false
    end in
  if same then s else with_risk 0 (Some today) (circuit_breaker s) s.

Definition _adjust_quantity (quantity_ : Q) (s : State) : Q :=
  let places :=
    match step_places s with
    | Some p => p
    | None => 8%nat
    end in
  Execution.quantize_down places quantity_.

Definition MAX_RETRIES : Z := 3.

Definition with_io (calls_ : nat) (sleeps_ : list Z) (s : State) : State :=
  {| trader_symbol := trader_symbol s;
     ema_fast := ema_fast s; ema_slow := ema_slow s;
     tp_pct := tp_pct s; sl_pct := sl_pct s;
     connected := connected s; step_places := step_places s;
     positions := positions s;
     trade_history := trade_history s;
     initial_equity := initial_equity s;
     current_equity := current_equity s;
     peak_equity := peak_equity s;
     daily_pnl := daily_pnl s;
     daily_date := daily_date s;
     circuit_breaker := circuit_breaker s;
     last_signal := last_signal s; last_price := last_price s;
     calls := calls_; sleeps := sleeps_ |}.

Definition with_history (h : list Trade) (s : State) : State :=
  {| trader_symbol := trader_symbol s;
     ema_fast := ema_fast s; ema_slow := ema_slow s;
     tp_pct := tp_pct s; sl_pct := sl_pct s;
     connected := connected s; step_places := step_places s;
     positions := positions s;
     trade_history := h;
     initial_equity := initial_equity s;
     current_equity := current_equity s;
     peak_equity := peak_equity s;
     daily_pnl := daily_pnl s;
     daily_date := daily_date s;
     circuit_breaker := circuit_breaker s;
     last_signal := last_signal s; last_price := last_price s;
     calls := calls s; sleeps := sleeps s |}.

Definition with_positions (ps : list Position) (s : State) : State :=
  with_loaded ps (initial_equity s) (peak_equity s) (daily_pnl s)
              (daily_date s) (circuit_breaker s) s.

(** The retry loop of [_close_position]: the order document obtained, or
    [None] when the method gives up or an exception leaves the loop. *)
Fixpoint sell_loop (v : Execution.Venue) (attempts : list Z) (s : State)
  : option Execution.OrderResult * State :=
  match attempts with
  | [] => (None, s)
  | attempt :: rest =>
      let s1 := with_io (S (calls s)) (sleeps s) s in
      match Execution.create_order v (calls s) with
      | Execution.Filled r => (Some r, s1)
      | Execution.Fails (Execution.BinanceAPIException _) =>
          if (attempt <? MAX_RETRIES)%Z then
            sell_loop v rest
                      (with_io (calls s1) (sleeps s1 ++ [2 ^ attempt]%Z) s1)
          else (None, s1)
      | Execution.Fails _ => (None, s1)
      end
  end.

(** [not result] for an order document: the empty dictionary. *)
Definition is_empty (r : Execution.OrderResult) : bool :=
  match Execution.fills r, Execution.executedQty r, Execution.orderId r with
  | None, None, None => true
  | _, _, _ => false
  end.

(** [_close_position]; [now_iso] is the clock's time stamp in ISO text.
    The P&L percentage divides by [entry_price * quantity]: where that is
    zero the exception is raised after [daily_pnl] was updated and before
    the trade is recorded. *)
Definition _close_position (v : Execution.Venue) (now_iso : string)
           (pos : Position) (reason : Reason) (s : State) : State :=
  let quantity_ := _adjust_quantity (quantity pos) s in
  if Py.leb quantity_ 0 then s
  else
    match sell_loop v (map Z.of_nat (seq 1 (Z.to_nat MAX_RETRIES))) s with
    | (None, s1) => s1
    | (Some r, s1) =>
        if is_empty r then s1
        else
          let exit_price := OrderManager.fill_price r (last_price s1) in
          let gross_pnl := (exit_price - entry_price pos) * quantity pos in
          let entry_fee :=
            entry_price pos * quantity pos * Config.TRADING_FEE in
          let exit_fee := exit_price * quantity pos * Config.TRADING_FEE in
          let net_pnl := gross_pnl - entry_fee - exit_fee in
          let s2 := with_risk (daily_pnl s1 + net_pnl) (daily_date s1)
                              (circuit_breaker s1) s1 in
          if Qeq_bool (entry_price pos * quantity pos) 0 then s2
          else
            let trade :=
              {| t_id := id pos;
                 t_symbol := trader_symbol s2;
                 t_entry_time := entry_time pos;
                 t_exit_time := now_iso;
                 t_entry_price := Py.round (entry_price pos) 4;
                 t_exit_price := Py.round exit_price 4;
                 t_quantity := Py.round (quantity pos) 8;
                 t_reason := reason;
                 t_pnl := Py.round net_pnl 4;
                 t_pnl_pct :=
                   Py.round ((net_pnl / (entry_price pos * quantity pos))
                             * 100) 2;
                 t_fee := Py.round (entry_fee + exit_fee) 4 |} in
            with_history (trade_history s2 ++ [trade]) s2
    end.

(** The [if]/[elif] of [_check_tp_sl]: take-profit is tested first,
    against the single last price. *)
Definition tp_sl_reason (price : Q) (pos : Position) : option Reason :=
  if Py.geb price (tp_price pos) then Some TP
  else if Py.leb price (sl_price pos) then Some SL
  else None.

Fixpoint tp_sl_loop (v : Execution.Venue) (now_iso : string)
         (todo : list Position) (s : State) : State :=
  match todo with
  | [] => s
  | pos :: rest =>
      match tp_sl_reason (last_price s) pos with
      | Some reason =>
          tp_sl_loop v now_iso rest (_close_position v now_iso pos reason s)
      | None => tp_sl_loop v now_iso rest s
      end
  end.

(** [_check_tp_sl].  Every position with a reason is put on [closed] and
    then removed with [list.remove], which drops the first equal
    dictionary; equal dictionaries have the same reason, so what is left
    is the positions without one, in order. *)
Definition _check_tp_sl (v : Execution.Venue) (now_iso : string) (s : State)
  : State :=
  let s1 := tp_sl_loop v now_iso (positions s) s in
  with_positions
    (filter (fun pos => match tp_sl_reason (last_price s1) pos with
                        | Some _ => false
                        | None => true
                        end) (positions s1)) s1.


(** [reset_state]: the operator's reset; the state file is removed. *)
Definition reset_state (s : State) (f : File) : State * File :=
  (with_loaded [] 0 0 0 (daily_date s) false s, Absent).

End LiveTrader.

(** ** live/execution.py: the balance query *)

Module Account.

(** What the venue does with one [get_account] call: the list
    [account["balances"]], as pairs of asset and free amount, or an
    exception. *)
Inductive AccountReply :=
| Balances (balances : list (string * Q))
| AccountFails (e : Execution.Exn).

(** [for balance in account["balances"]: if balance["asset"] == asset:
    return float(balance["free"])], and [return 0.0] after the loop. *)
Fixpoint free_of (asset : string) (balances : list (string * Q)) : Q :=
  match balances with
  | [] => 0
  | (a, free) :: rest => if String.eqb a asset then free
                         else free_of asset rest
  end.



End Account.

(** ** live/live_trader.py: opening a position and the tick *)

Module Session.

(** What the clock, the venue and the signal pipeline give during one
    tick: the date and the time stamp in ISO text, the ticker price
    ([None]: the query raises), the account document, the signal of the
    last candle as [_check_signal] finds it ([None]: the klines or the
    indicators raise, or the frame is empty), [symbol_info]'s
    ["min_notional"] entry, and how the write of the state file goes. *)
Record Inputs := mkInputs {
  today : string;
  now_iso : string;
  ticker : option Q;
  account : Account.AccountReply;
  signal : option Z;
  min_notional : option Q;
  write : LiveTrader.WriteResult
}.

Definition with_price (price : Q) (s : LiveTrader.State) : LiveTrader.State :=
  {| LiveTrader.trader_symbol := LiveTrader.trader_symbol s;
     LiveTrader.ema_fast := LiveTrader.ema_fast s;
     LiveTrader.ema_slow := LiveTrader.ema_slow s;
     LiveTrader.tp_pct := LiveTrader.tp_pct s;
     LiveTrader.sl_pct := LiveTrader.sl_pct s;
     LiveTrader.connected := LiveTrader.connected s;
     LiveTrader.step_places := LiveTrader.step_places s;
     LiveTrader.positions := LiveTrader.positions s;
     LiveTrader.trade_history := LiveTrader.trade_history s;
     LiveTrader.initial_equity := LiveTrader.initial_equity s;
     LiveTrader.current_equity := LiveTrader.current_equity s;
     LiveTrader.peak_equity := LiveTrader.peak_equity s;
     LiveTrader.daily_pnl := LiveTrader.daily_pnl s;
     LiveTrader.daily_date := LiveTrader.daily_date s;
     LiveTrader.circuit_breaker := LiveTrader.circuit_breaker s;
     LiveTrader.last_signal := LiveTrader.last_signal s;
     LiveTrader.last_price := price;
     LiveTrader.calls := LiveTrader.calls s;
     LiveTrader.sleeps := LiveTrader.sleeps s |}.

Definition with_equity (e pk : Q) (s : LiveTrader.State) : LiveTrader.State :=
  {| LiveTrader.trader_symbol := LiveTrader.trader_symbol s;
     LiveTrader.ema_fast := LiveTrader.ema_fast s;
     LiveTrader.ema_slow := LiveTrader.ema_slow s;
     LiveTrader.tp_pct := LiveTrader.tp_pct s;
     LiveTrader.sl_pct := LiveTrader.sl_pct s;
     LiveTrader.connected := LiveTrader.connected s;
     LiveTrader.step_places := LiveTrader.step_places s;
     LiveTrader.positions := LiveTrader.positions s;
     LiveTrader.trade_history := LiveTrader.trade_history s;
     LiveTrader.initial_equity := LiveTrader.initial_equity s;
     LiveTrader.current_equity := e;
     LiveTrader.peak_equity := pk;
     LiveTrader.daily_pnl := LiveTrader.daily_pnl s;
     LiveTrader.daily_date := LiveTrader.daily_date s;
     LiveTrader.circuit_breaker := LiveTrader.circuit_breaker s;
     LiveTrader.last_signal := LiveTrader.last_signal s;
     LiveTrader.last_price := LiveTrader.last_price s;
     LiveTrader.calls := LiveTrader.calls s;
     LiveTrader.sleeps := LiveTrader.sleeps s |}.

Definition with_signal (z : Z) (s : LiveTrader.State) : LiveTrader.State :=
  {| LiveTrader.trader_symbol := LiveTrader.trader_symbol s;
     LiveTrader.ema_fast := LiveTrader.ema_fast s;
     LiveTrader.ema_slow := LiveTrader.ema_slow s;
     LiveTrader.tp_pct := LiveTrader.tp_pct s;
     LiveTrader.sl_pct := LiveTrader.sl_pct s;
     LiveTrader.connected := LiveTrader.connected s;
     LiveTrader.step_places := LiveTrader.step_places s;
     LiveTrader.positions := LiveTrader.positions s;
     LiveTrader.trade_history := LiveTrader.trade_history s;
     LiveTrader.initial_equity := LiveTrader.initial_equity s;
     LiveTrader.current_equity := LiveTrader.current_equity s;
     LiveTrader.peak_equity := LiveTrader.peak_equity s;
     LiveTrader.daily_pnl := LiveTrader.daily_pnl s;
     LiveTrader.daily_date := LiveTrader.daily_date s;
     LiveTrader.circuit_breaker := LiveTrader.circuit_breaker s;
     LiveTrader.last_signal := z;
     LiveTrader.last_price := LiveTrader.last_price s;
     LiveTrader.calls := LiveTrader.calls s;
     LiveTrader.sleeps := LiveTrader.sleeps s |}.

(** [_get_balance(asset)]: one [get_account] call, no retry. *)
Definition _get_balance (reply : Account.AccountReply) (asset : string)
  : Execution.Outcome Q :=
  match reply with
  | Account.Balances bs => Execution.Returned (Account.free_of asset bs)
  | Account.AccountFails e => Execution.Raised e
  end.

(** [_calculate_equity]: free USDT plus the positions at the last price. *)
Definition _calculate_equity (reply : Account.AccountReply)
           (s : LiveTrader.State) : Execution.Outcome Q :=
  match _get_balance reply "USDT" with
  | Execution.Raised e => Execution.Raised e
  | Execution.Returned usdt =>
      let position_value :=
        Py.sum (map (fun p => LiveTrader.quantity p * LiveTrader.last_price s)
                    (LiveTrader.positions s)) in
      Execution.Returned (usdt + position_value)
  end.

(** [f"{n:04d}"] *)
Definition zero_pad4 (digits : string) : string :=
  match String.length digits with
  | 0%nat => "0000"
  | 1%nat => "000" ++ digits
  | 2%nat => "00" ++ digits
  | 3%nat => "0" ++ digits
  | _ => digits
  end%string.

(** [f"POS_{n:04d}"] *)
Definition position_name (n : nat) : string :=
  ("POS_" ++ zero_pad4 (NilEmpty.string_of_uint (Nat.to_uint n)))%string.

(** The retry loop of [_open_position]: the order document obtained, or
    [None] when a permanent rejection makes the method return, the last
    attempt's error is re-raised, or another exception leaves the loop. *)
Fixpoint buy_loop (v : Execution.Venue) (attempts : list Z)
         (s : LiveTrader.State)
  : option Execution.OrderResult * LiveTrader.State :=
  match attempts with
  | [] => (None, s)
  | attempt :: rest =>
      let s1 := LiveTrader.with_io (S (LiveTrader.calls s))
                                   (LiveTrader.sleeps s) s in
      match Execution.create_order v (LiveTrader.calls s) with
      | Execution.Filled r => (Some r, s1)
      | Execution.Fails (Execution.BinanceAPIException code) =>
          if Execution.permanent code then (None, s1)
          else if (attempt <? LiveTrader.MAX_RETRIES)%Z then
            buy_loop v rest
                     (LiveTrader.with_io
                        (LiveTrader.calls s1)
                        (LiveTrader.sleeps s1 ++ [2 ^ attempt]%Z) s1)
          else (None, s1)
      | Execution.Fails _ => (None, s1)
      end
  end.

(** [_open_position]; every exception inside it is caught and logged. *)
Definition _open_position (v : Execution.Venue) (now_iso_ : string)
           (min_notional_ : option Q) (s : LiveTrader.State)
  : LiveTrader.State :=
  let entry_price := LiveTrader.last_price s * (1 + Config.SLIPPAGE) in
  let sl_price := entry_price * (1 - LiveTrader.sl_pct s) in
  let risk_amount := LiveTrader.current_equity s * Config.RISK_PER_TRADE in
  let sl_distance := entry_price - sl_price in
  if Py.leb sl_distance 0 then s
  else
    let quantity := risk_amount / sl_distance in
    let notional := quantity * LiveTrader.last_price s in
    if Py.ltb notional (match min_notional_ with
                        | Some m => m
                        | None => 10
                        end)
    then s
    else
      let quantity := LiveTrader._adjust_quantity quantity s in
      if Py.leb quantity 0 then s
      else
        match buy_loop v (map Z.of_nat
                              (seq 1 (Z.to_nat LiveTrader.MAX_RETRIES))) s with
        | (None, s1) => s1
        | (Some r, s1) =>
            if LiveTrader.is_empty r then s1
            else
              let actual_price :=
                OrderManager.fill_price r (LiveTrader.last_price s1) in
              let actual_qty := OrderManager.fill_quantity r quantity in
              let position :=
                {| LiveTrader.id :=
                     position_name
                       (List.length (LiveTrader.trade_history s1)
                        + List.length (LiveTrader.positions s1) + 1);
                   LiveTrader.symbol := LiveTrader.trader_symbol s1;
                   LiveTrader.entry_price := actual_price;
                   LiveTrader.quantity := actual_qty;
                   LiveTrader.tp_price :=
                     actual_price * (1 + LiveTrader.tp_pct s1);
                   LiveTrader.sl_price :=
                     actual_price * (1 - LiveTrader.sl_pct s1);
                   LiveTrader.entry_time := now_iso_;
                   LiveTrader.order_id := Execution.order_id_text r |} in
              LiveTrader.with_positions
                (LiveTrader.positions s1 ++ [position]) s1
        end.

(** [tick].  An exception raised by the ticker or the account query ends
    the tick where it stands ([except Exception]), before the state file
    is written. *)
Definition tick (v : Execution.Venue) (i : Inputs) (s : LiveTrader.State)
           (f : LiveTrader.File) : LiveTrader.State * LiveTrader.File :=
  if negb (LiveTrader.connected s) then (s, f)
  else
    let s1 := LiveTrader._update_daily_tracking (today i) s in
    match ticker i with
    | None => (s1, f)
    | Some price =>
        let s2 := with_price price s1 in
        match _calculate_equity (account i) s2 with
        | Execution.Raised _ => (s2, f)
        | Execution.Returned e =>
            let s3 := with_equity e (Py.max (LiveTrader.peak_equity s2) e)
                                  s2 in
            let s4 := LiveTrader._check_circuit_breaker s3 in
            let s5 := LiveTrader._check_tp_sl v (now_iso i) s4 in
            let s6 := match signal i with
                      | Some z => with_signal z s5
                      | None => s5
                      end in
            let signal_ := match signal i with
                           | Some z => z
                           | None => 0%Z
                           end in
            let s7 := if (signal_ =? 1)%Z && LiveTrader._can_trade s6
                      then _open_position v (now_iso i) (min_notional i) s6
                      else s6 in
            (s7, LiveTrader._save_state (write i) s7 f)
        end
    end.

(** A session: the ticks the dashboard makes, one after the other. *)
Definition ticks (v : Execution.Venue) (inputs : list Inputs)
           (s : LiveTrader.State) (f : LiveTrader.File)
  : LiveTrader.State * LiveTrader.File :=
  fold_left (fun sf i => tick v i (fst sf) (snd sf)) inputs (s, f).

End Session.

(** ** core/strategy.py *)

Module Strategy.

(** The indicator columns of one row of the frame; a NaN is [None]. *)
Record Row := mkRow {
  ema_fast : option Q;
  ema_slow : option Q;
  rsi : option Q
}.

(** Comparisons of two cells: false as soon as one of them is NaN. *)
Definition cell_le (a b : option Q) : bool :=
  match a, b with
  | Some x, Some y => Py.leb x y
  | _, _ => false
  end.

Definition cell_gt (a b : option Q) : bool :=
  match a, b with
  | Some x, Some y => Py.gtb x y
  | _, _ => false
  end.

Definition cell_lt (a b : option Q) : bool :=
  match a, b with
  | Some x, Some y => Py.ltb x y
  | _, _ => false
  end.

(** [col.shift(1)]: every cell moves down one row, the first becomes NaN,
    the last is dropped. *)
Definition shift (col : list (option Q)) : list (option Q) :=
  firstn (List.length col) (None :: col).

(** An element-wise operation on two columns of one frame. *)
Fixpoint zip_with {A B C : Type} (f : A -> B -> C) (a : list A) (b : list B)
  : list C :=
  match a, b with
  | x :: a', y :: b' => f x y :: zip_with f a' b'
  | _, _ => []
  end.

(** [df.loc[0, "signal"] = 0] on a frame with the default index: the
    first row's cell is overwritten; an empty frame gains a row. *)
Definition set_first_zero (col : list Z) : list Z :=
  match col with
  | [] => [0%Z]
  | _ :: rest => 0%Z :: rest
  end.

(** [generate_signals]: the ["signal"] column of the frame returned. *)
Definition generate_signals (rsi_threshold : Q) (use_rsi_filter : bool)
           (df : list Row) : list Z :=
  let fast := map ema_fast df in
  let slow := map ema_slow df in
  let ema_fast_prev := shift fast in
  let ema_slow_prev := shift slow in
  let crossover :=
    zip_with andb (zip_with cell_le ema_fast_prev ema_slow_prev)
             (zip_with cell_gt fast slow) in
  let chosen :=
    if use_rsi_filter then
      let rsi_ok := map (fun r => cell_lt (rsi r) (Some rsi_threshold)) df in
      zip_with andb crossover rsi_ok
    else crossover in
  set_first_zero (map (fun b : bool => if b then 1%Z else 0%Z) chosen).

End Strategy.

(** * Vocabulary of the properties *)

(** The trades [_check_exits] appends: one per position with a trigger, in
    the order of the positions, with the side the trigger chose. *)
Definition exit_trades params (row : Backtester.Row)
           (ps : list Backtester.Position) : list Backtester.Trade :=
  flat_map (fun pos =>
              match Backtester.exit_trigger row pos with
              | Some (trigger, side) =>
                  [Backtester.make_trade params row pos
                     (Backtester.slipped params side trigger) side]
              | None => []
              end) ps.

(** A reply the loop of [place_market_order] retries: a request failure,
    or an API error whose code is not one of the permanent ones. *)
Definition transient (r : Execution.Reply) : Prop :=
  r = Execution.Fails Execution.BinanceRequestException
  \/ exists code, r = Execution.Fails (Execution.BinanceAPIException code)
                  /\ Execution.permanent code = false.

(** The exception a failing reply raises. *)
Definition raised_by (r : Execution.Reply) : option Execution.Exn :=
  match r with
  | Execution.Fails e => Some e
  | Execution.Filled _ => None
  end.

(** The delays slept before attempt [k + 1]: 2, 4, ... *)
Definition backoff (k : nat) : list Z :=
  map (fun j => (Execution.RETRY_DELAY_BASE ^ Z.of_nat j)%Z) (seq 1 k).

(** A venue that drops the first request, then rejects the order for
    insufficient balance. *)
Definition flaky_then_rejecting : Execution.Venue :=
  Execution.mkVenue
    (fun n =>
       match n with
       | O => Execution.Fails Execution.BinanceRequestException
       | _ => Execution.Fails (Execution.BinanceAPIException (-2010))
       end)
    (fun _ => Execution.Info (Some 3%nat)).

(** The risk manager [RiskManager()] builds from the configuration alone. *)
Definition configured_risk_manager : RiskManager.State :=
  RiskManager.__init__ None None None None None.

(** The parameters of Scenario A: no fee, no slippage, a 1% stop. *)
Definition scenario_A_params : Backtester.BacktestParams :=
  Backtester.mkParams 10000 0 0 (1 # 100) (3 # 100) 3 (10 # 100)
                      (1 # 100) (1 # 100).

(** The risk manager after a day's first admission check (date 0), one
    opened trade, and its close at a net loss of 295. *)
Definition after_losing_trade : RiskManager.State :=
  let rm1 := snd (RiskManager.can_trade 0 configured_risk_manager) in
  let rm2 := RiskManager.trade_opened rm1 in
  let rm3 := RiskManager.trade_closed rm2 in
  let rm4 := RiskManager.record_trade_pnl (- (295)) rm3 in
  RiskManager.update_equity (RiskManager.current_equity rm4 + - (295)) rm4.

(** Scenario E: a backtest state on day 0 with a realised loss of 350 on an
    equity of 10000. *)
Definition scenario_E_state : Backtester.State :=
  Backtester.mkState 9650 10000 10000 [] [] [] false (Some 0%Z) (- (350)).

(** The test [_check_circuit_breaker] makes on the recorded equity. *)
Definition drawdown_reached params (s : Backtester.State) : bool :=
  Py.gtb (Backtester.peak_equity s) 0
  && Py.geb ((Backtester.peak_equity s - Backtester.equity s)
             / Backtester.peak_equity s)
            (Backtester.circuit_breaker_dd params).

(** Scenario B: one position bought with the whole capital at 100, then
    closes at 95, 89 and 89. *)
Definition scenario_B_params : Backtester.BacktestParams :=
  Backtester.mkParams 10000 0 0 (1 # 2) (3 # 100) 3 (10 # 100)
                      (1 # 2) (1 # 2).

Definition scenario_B_rows : list Backtester.Row :=
  [Backtester.mkRow 0 100 100 100 100 1;
   Backtester.mkRow 60 100 100 95 95 0;
   Backtester.mkRow 120 95 95 89 89 0;
   Backtester.mkRow 180 89 89 89 89 0].

(** The state after the first [n] candles of Scenario B. *)
Definition scenario_B_after (n : nat) : Backtester.State :=
  Backtester.run_loop scenario_B_params (Backtester._reset scenario_B_params)
                      (firstn n scenario_B_rows).

(** A candle's step with the entry step left out. *)
Definition process_row_without_entry params (s : Backtester.State)
           (row : Backtester.Row) : Backtester.State :=
  Backtester.record_equity
    row
    (Backtester._update_equity
       row
       (Backtester._check_circuit_breaker
          params
          (Backtester._check_exits
             params row
             (Backtester._update_daily_tracking (Backtester.timestamp row)
                                                s)))).

Definition within_limit params (s : Backtester.State) : Prop :=
  (Z.of_nat (List.length (Backtester.positions s))
   <= Backtester.max_open_trades params)%Z.

Definition ids (ps : list OrderManager.LivePosition) : list Z :=
  map OrderManager.position_id ps.

Definition open_count (ps : list OrderManager.LivePosition) : nat :=
  List.length (filter (fun p => OrderManager.is_open (OrderManager.status p))
                      ps).

(** The invariant of an order manager whose risk manager allows at most
    [limit] open trades. *)
Record live_inv (limit : Z) (s : OrderManager.State) : Prop := {
  inv_limit : RiskManager.max_open_trades (OrderManager.risk_manager s) = limit;
  inv_nodup : NoDup (ids (OrderManager.positions s));
  inv_fresh : forall p, In p (OrderManager.positions s) ->
                        (OrderManager.position_id p
                         <= OrderManager._position_counter s)%Z;
  inv_count : RiskManager.open_trade_count (OrderManager.risk_manager s)
              = Z.of_nat (open_count (OrderManager.positions s));
  inv_bound : (RiskManager.open_trade_count (OrderManager.risk_manager s)
               <= limit)%Z
}.

(** What is left to close is a list of distinct open positions of the
    manager. *)
Definition closable (todo : list OrderManager.LivePosition)
           (s : OrderManager.State) : Prop :=
  NoDup (ids todo)
  /\ forall p, In p todo ->
               In p (OrderManager.positions s)
               /\ OrderManager.status p = OrderManager.OPEN.

(** Fractions are fractions and prices are not negative. *)
Definition sane (params : Backtester.BacktestParams) : Prop :=
  0 <= Backtester.initial_capital params
  /\ 0 <= Backtester.trading_fee params <= 1
  /\ 0 <= Backtester.slippage params <= 1
  /\ 0 <= Backtester.risk_per_trade params
  /\ 0 <= Backtester.tp_pct params
  /\ 0 <= Backtester.sl_pct params <= 1.

Definition nonneg_closes (df : list Backtester.Row) : Prop :=
  forall row, In row df -> 0 <= Backtester.close row.

Definition sound_position (pos : Backtester.Position) : Prop :=
  0 <= Backtester.quantity pos
  /\ 0 <= Backtester.tp_price pos
  /\ 0 <= Backtester.sl_price pos.

(** The bookkeeping invariant of a run. *)
Record ledger_inv (s : Backtester.State) : Prop := {
  inv_cash : 0 <= Backtester.cash s;
  inv_positions : forall pos, In pos (Backtester.positions s) ->
                              sound_position pos;
  inv_equity : 0 <= Backtester.equity s;
  inv_peak : Backtester.equity s <= Backtester.peak_equity s
}.

(** After a candle the recorded equity is the mark-to-market at its close. *)
Definition marked (row : Backtester.Row) (s : Backtester.State) : Prop :=
  Backtester.equity s
  = Backtester.cash s + Backtester.position_value row (Backtester.positions s).

(** A live position with its stop below and its target above the entry,
    and a kline whose range crosses both levels and that closes above the
    target. *)
Definition held_position : OrderManager.LivePosition :=
  OrderManager.mkLivePosition 1 "BTCUSDT" 100 1 101 99 0 "7" OrderManager.OPEN.

Definition crossing_kline : Engine.Kline :=
  Engine.mkKline 0 100 102 98 (203 # 2) 5 false.

(** A venue that fills every order at 100. *)
Definition filling_venue : Execution.Venue :=
  Execution.mkVenue
    (fun _ => Execution.Filled
                (Execution.mkOrderResult
                   (Some [Execution.mkFill 1 100]) (Some 1) (Some "7"%string)))
    (fun _ => Execution.Info (Some 3%nat)).

(** A connected live trader at last price 100 that holds one position whose
    target (99) is below its stop (101). *)
Definition trader_with_crossed_levels : LiveTrader.State :=
  LiveTrader.mkState
    "BTCUSDT" 9 21 (3 # 1000) (3 # 1000) true (Some 3%nat)
    [LiveTrader.mkPosition "POS_0001" "BTCUSDT" 100 1 99 101
                           "2024-01-01T00:00:00" "7"]
    [] 10000 10000 10000 0 (Some "2024-01-01"%string) false 0 100 0 [].

(** The indices, counted from [n], of the elements [keep] rejects. *)
Fixpoint dropped {A : Type} (keep : A -> bool) (n : nat) (l : list A)
  : list nat :=
  match l with
  | [] => []
  | x :: t => if keep x then dropped keep (S n) t
              else n :: dropped keep (S n) t
  end.

(** A position no exit triggers on. *)
Definition stays (row : Backtester.Row) (pos : Backtester.Position) : bool :=
  match Backtester.exit_trigger row pos with
  | Some _ => false
  | None => true
  end.


(** The levels of a position as the entry step sets them. *)
Definition levelled (params : Backtester.BacktestParams)
           (pos : Backtester.Position) : Prop :=
  Backtester.sl_price pos < Backtester.entry_price pos
  /\ Backtester.sl_price pos
     = Backtester.entry_price pos * (1 - Backtester.sl_pct params)
  /\ Backtester.tp_price pos
     = Backtester.entry_price pos * (1 + Backtester.tp_pct params)
  /\ Backtester.entry_fee pos
     = Backtester.entry_price pos * Backtester.quantity pos
       * Backtester.trading_fee params.



(** Nothing open, nothing traded, the cash untouched. *)
Record idle params (s : Backtester.State) : Prop := {
  idle_positions : Backtester.positions s = [];
  idle_trades : Backtester.trades s = [];
  idle_cash : Backtester.cash s = Backtester.initial_capital params;
  idle_equity : Backtester.equity s == Backtester.initial_capital params;
  idle_curve : forall snap, In snap (Backtester.equity_curve s) ->
                            snd snap == Backtester.initial_capital params
}.

(** A frame without a buy signal. *)
Definition no_signal (df : list Backtester.Row) : Prop :=
  forall row, In row df -> Backtester.signal row <> 1%Z.

(** Rows of Scenario B with the buy signal taken out. *)
Definition quiet_rows : list Backtester.Row :=
  [Backtester.mkRow 0 100 100 100 100 0;
   Backtester.mkRow 60 100 100 95 95 0].

(** Scenario A continued: a position of 100 units bought at 100, stopped
    out at 99 by the next candle, whose low is 98. *)
Definition stopped_rows : list Backtester.Row :=
  [Backtester.mkRow 0 100 100 100 100 1;
   Backtester.mkRow 60 100 100 98 98 0].

(** A venue that fills no order. *)
Definition always_failing (v : Execution.Venue) : Prop :=
  forall n, exists e, Execution.create_order v n = Execution.Fails e.

Definition unreachable_venue : Execution.Venue :=
  Execution.mkVenue (fun _ => Execution.Fails Execution.BinanceRequestException)
                    (fun _ => Execution.Info (Some 3%nat)).

(** An order manager as the engine builds it, and one that holds
    [held_position]. *)
Definition fresh_manager : OrderManager.State :=
  OrderManager.__init__ Execution.connector configured_risk_manager None None.

Definition manager_with_position : OrderManager.State :=
  OrderManager.mkState
    Execution.connector
    (RiskManager.trade_opened configured_risk_manager)
    Config.TP_PCT Config.SL_PCT [held_position] 1.

(** Nothing was booked between [s] and [s']: the positions and what the
    risk manager knows of the account are the same. *)
Record unbooked (s s' : OrderManager.State) : Prop := {
  same_positions : OrderManager.positions s' = OrderManager.positions s;
  same_counter : OrderManager._position_counter s'
                 = OrderManager._position_counter s;
  same_count : RiskManager.open_trade_count (OrderManager.risk_manager s')
               = RiskManager.open_trade_count (OrderManager.risk_manager s);
  same_equity : RiskManager.current_equity (OrderManager.risk_manager s')
                = RiskManager.current_equity (OrderManager.risk_manager s);
  same_peak : RiskManager.peak_equity (OrderManager.risk_manager s')
              = RiskManager.peak_equity (OrderManager.risk_manager s);
  same_breaker : RiskManager.circuit_breaker_active
                   (OrderManager.risk_manager s')
                 = RiskManager.circuit_breaker_active
                     (OrderManager.risk_manager s)
}.

(** [p'] is the position [p], possibly closed since. *)
Definition same_entry (p p' : OrderManager.LivePosition) : Prop :=
  OrderManager.position_id p' = OrderManager.position_id p
  /\ OrderManager.symbol p' = OrderManager.symbol p
  /\ OrderManager.entry_price p' = OrderManager.entry_price p
  /\ OrderManager.quantity p' = OrderManager.quantity p
  /\ OrderManager.tp_price p' = OrderManager.tp_price p
  /\ OrderManager.sl_price p' = OrderManager.sl_price p
  /\ OrderManager.entry_time p' = OrderManager.entry_time p
  /\ OrderManager.entry_order_id p' = OrderManager.entry_order_id p
  /\ (OrderManager.status p = OrderManager.CLOSED ->
      OrderManager.status p' = OrderManager.CLOSED).

(** The book of [s'] continues the book of [s]: the positions of [s] are
    all there, in place, and new ones come after them. *)
Definition continues (s s' : OrderManager.State) : Prop :=
  (exists new, ids (OrderManager.positions s')
               = ids (OrderManager.positions s) ++ new)
  /\ (OrderManager._position_counter s
      <= OrderManager._position_counter s')%Z
  /\ forall p, In p (OrderManager.positions s) ->
               exists p', In p' (OrderManager.positions s')
                          /\ same_entry p p'.

(** What the engine is given with one kline update: the clock's date and
    time stamp, the signal the indicator pipeline computes on the buffer,
    and the kline. *)
Record Event := mkEvent {
  ev_now : Z;
  ev_now_ts : Z;
  ev_signal : option Z;
  ev_kline : Engine.Kline
}.

(** The engine after a stream of kline updates. *)
Definition feed (v : Execution.Venue) (e : Engine.State) (evs : list Event)
  : Engine.State :=
  fold_left (fun st ev =>
               Engine._on_kline v (ev_now ev) (ev_now_ts ev) (ev_signal ev)
                                (ev_kline ev) st)
            evs e.

(** The closed klines of a stream, in order. *)
Definition closed_klines (evs : list Event) : list Engine.Kline :=
  filter Engine.is_closed (map ev_kline evs).

(** The last [n] elements of a list. *)
Definition lastn {A : Type} (n : nat) (l : list A) : list A :=
  skipn (List.length l - n) l.

(** An engine that has just been built. *)
Definition fresh_engine : Engine.State :=
  Engine.mkState "BTCUSDT" fresh_manager [].

(** A position of the live trader that the last price leaves alone: neither
    its target nor its stop is reached. *)
Definition holds (price : Q) (pos : LiveTrader.Position) : bool :=
  match LiveTrader.tp_sl_reason price pos with
  | Some _ => false
  | None => true
  end.

(** What placing orders and booking their results leaves as it is in a
    live trader: everything but the order log, the daily P&L and the trade
    history. *)
Record kept (s s' : LiveTrader.State) : Prop := {
  kept_symbol : LiveTrader.trader_symbol s' = LiveTrader.trader_symbol s;
  kept_tp : LiveTrader.tp_pct s' = LiveTrader.tp_pct s;
  kept_sl : LiveTrader.sl_pct s' = LiveTrader.sl_pct s;
  kept_connected : LiveTrader.connected s' = LiveTrader.connected s;
  kept_step : LiveTrader.step_places s' = LiveTrader.step_places s;
  kept_positions : LiveTrader.positions s' = LiveTrader.positions s;
  kept_initial : LiveTrader.initial_equity s' = LiveTrader.initial_equity s;
  kept_equity : LiveTrader.current_equity s' = LiveTrader.current_equity s;
  kept_peak : LiveTrader.peak_equity s' = LiveTrader.peak_equity s;
  kept_date : LiveTrader.daily_date s' = LiveTrader.daily_date s;
  kept_breaker : LiveTrader.circuit_breaker s' = LiveTrader.circuit_breaker s;
  kept_price : LiveTrader.last_price s' = LiveTrader.last_price s
}.

(** The inputs of one tick: last price 100, 10000 USDT free, a buy
    signal, and a state file that is written. *)
Definition buy_tick : Session.Inputs :=
  Session.mkInputs "2024-01-01" "2024-01-01T00:01:00" (Some 100)
                   (Account.Balances [("USDT"%string, 10000)])
                   (Some 1%Z) None LiveTrader.WriteOk.

(** A connected trader without positions, before and after its breaker
    has tripped, and a trader as the constructor leaves it. *)
Definition idle_trader : LiveTrader.State :=
  LiveTrader.mkState
    "BTCUSDT" 9 21 (3 # 1000) (3 # 1000) true (Some 3%nat)
    [] [] 10000 10000 10000 0 (Some "2024-01-01"%string) false 0 100 0 [].

Definition tripped_trader : LiveTrader.State :=
  LiveTrader.mkState
    "BTCUSDT" 9 21 (3 # 1000) (3 # 1000) true (Some 3%nat)
    [] [] 10000 8900 10000 0 (Some "2024-01-01"%string) true 0 100 0 [].

Definition unconnected_trader : LiveTrader.State :=
  LiveTrader.__init__ "btcusdt" None None None None LiveTrader.Absent.

(** The fast average is at or under the slow one on the row before and
    over it on the row: an upward crossover. *)
Definition crosses_up (prev cur : Strategy.Row) : bool :=
  Strategy.cell_le (Strategy.ema_fast prev) (Strategy.ema_slow prev)
  && Strategy.cell_gt (Strategy.ema_fast cur) (Strategy.ema_slow cur).

(** The rule of the strategy for one row, given the row before it. *)
Definition row_signal (rsi_threshold : Q) (use_rsi_filter : bool)
           (prev cur : Strategy.Row) : Z :=
  if crosses_up prev cur
     && (if use_rsi_filter
         then Strategy.cell_lt (Strategy.rsi cur) (Some rsi_threshold)
         else true)
  then 1%Z else 0%Z.

(** The rule applied down the rows that follow [prev]. *)
Fixpoint row_signals (rsi_threshold : Q) (use_rsi_filter : bool)
         (prev : Strategy.Row) (rest : list Strategy.Row) : list Z :=
  match rest with
  | [] => []
  | cur :: t =>
      row_signal rsi_threshold use_rsi_filter prev cur
      :: row_signals rsi_threshold use_rsi_filter cur t
  end.

(** A frame of three rows whose second row is an upward crossover. *)
Definition crossing_frame : list Strategy.Row :=
  [Strategy.mkRow (Some 1) (Some 2) (Some 50);
   Strategy.mkRow (Some 3) (Some 2) (Some 50);
   Strategy.mkRow (Some 4) (Some 2) (Some 50)].

(** An order document that reports a filled order with an empty list of
    fills, and a venue that answers every order with it. *)
Definition bare_document : Execution.OrderResult :=
  Execution.mkOrderResult (Some []) (Some 1) (Some "7"%string).

Definition bare_venue : Execution.Venue :=
  Execution.mkVenue (fun _ => Execution.Filled bare_document)
                    (fun _ => Execution.Info (Some 3%nat)).

(** A run on binary64 in which rounding decides: no fee, no slippage, 1%
    risk, target and stop at 10%, and two candles closing at 100.2 and
    102.3, each with a buy signal.  The decimal literals stand for the
    nearest binary64 values, as they do in Python. *)
Module Rounding.

Import PrimFloat.
#[local] Open Scope float_scope.
#[local] Set Warnings "-inexact-float".

Definition params : Backtester64.BacktestParams :=
  Backtester64.mkParams 10000 0 0 0.01 0.03 3 0.10 0.1 0.1.

Definition rows : list Backtester64.Row :=
  [Backtester64.mkRow 0 100.2 100.2 100.2 100.2 1;
   Backtester64.mkRow 60 102.3 102.3 102.3 102.3 1].

(** The state after the last candle of that run, and the state [run]
    leaves. *)
Definition last_snapshot : Backtester64.State :=
  Backtester64.run_loop params (Backtester64._reset params) rows.

Definition final : Backtester64.State := Backtester64.run params rows.

(** The peak the last mark-to-market records and the equity the forced
    close leaves. *)
Definition peak_recorded : float := 10020.958083832335.
Definition equity_left : float := 10020.958083832336.

End Rounding.

(** * Properties *)

(** ** Comparisons and arithmetic of the Python layer *)

Lemma leb_true (a b : Q) : Py.leb a b = true <-> a <= b.
Proof. unfold Py.leb. apply Qle_bool_iff. Qed.

Lemma leb_false (a b : Q) : Py.leb a b = false <-> b < a.
Proof.
  unfold Py.leb. split; intro H.
  - apply Qnot_le_lt. intro Hle. apply Qle_bool_iff in Hle. congruence.
  - destruct (Qle_bool a b) eqn:E; [|reflexivity].
    apply Qle_bool_iff in E. exfalso. apply (Qlt_not_le _ _ H E).
Qed.

Lemma geb_true (a b : Q) : Py.geb a b = true <-> b <= a.
Proof. unfold Py.geb. apply Qle_bool_iff. Qed.

Lemma geb_false (a b : Q) : Py.geb a b = false <-> a < b.
Proof. unfold Py.geb. apply (leb_false b a). Qed.

Lemma gtb_true (a b : Q) : Py.gtb a b = true <-> b < a.
Proof.
  unfold Py.gtb. rewrite negb_true_iff. apply (leb_false a b).
Qed.

Lemma gtb_false (a b : Q) : Py.gtb a b = false <-> a <= b.
Proof.
  unfold Py.gtb. rewrite negb_false_iff. apply Qle_bool_iff.
Qed.

Lemma max_ge_r (a b : Q) : b <= Py.max a b.
Proof.
  unfold Py.max. destruct (Py.gtb b a) eqn:E.
  - apply Qle_refl.
  - apply gtb_false in E. exact E.
Qed.

Lemma max_ge_l (a b : Q) : a <= Py.max a b.
Proof.
  unfold Py.max. destruct (Py.gtb b a) eqn:E.
  - apply gtb_true in E. apply Qlt_le_weak. exact E.
  - apply Qle_refl.
Qed.

Lemma max_cases (a b : Q) : Py.max a b = a \/ Py.max a b = b.
Proof. unfold Py.max. destruct (Py.gtb b a); auto. Qed.

Lemma sum_from (l : list Q) (a : Q) : fold_left Qplus l a == a + Py.sum l.
Proof.
  unfold Py.sum. revert a. induction l as [|x l IH]; intro a; simpl.
  - lra.
  - rewrite IH. rewrite (IH (0 + x)). lra.
Qed.

Lemma sum_cons (x : Q) (l : list Q) : Py.sum (x :: l) == x + Py.sum l.
Proof. unfold Py.sum at 1. simpl. rewrite sum_from. lra. Qed.

Lemma pop_length {A : Type} (idx : nat) (l : list A) :
  (List.length (Py.pop idx l) <= List.length l)%nat.
Proof.
  revert idx. induction l as [|h t IH]; intros [|i]; simpl; try lia.
  specialize (IH i). lia.
Qed.

Lemma pop_incl {A : Type} (idx : nat) (l : list A) : incl (Py.pop idx l) l.
Proof.
  revert idx. induction l as [|h t IH]; intros [|i]; simpl.
  - apply incl_refl.
  - apply incl_refl.
  - apply incl_tl, incl_refl.
  - intros x [->|Hx]; [left; reflexivity | right; apply (IH i); exact Hx].
Qed.

(** The helpers at a few inputs. *)
Example round_ties_to_even :
  Py.round (5 # 2) 0 == 2 /\ Py.round (7 # 2) 0 == 4
  /\ Py.round (123456 # 100000) 4 == 12346 # 10000.
Proof. repeat split. Qed.

Example quantize_cuts_toward_zero :
  Execution.quantize_down 3 (123456 # 100000) == 1234 # 1000
  /\ Execution.quantize_down 3 (- (123456 # 100000)) == - (1234 # 1000)
  /\ Execution.quantize_down 3 (4 # 10000) == 0.
Proof. repeat split. Qed.

Example sorted_reverse_indices :
  Py.sorted_reverse [0; 2; 5]%nat = [5; 2; 0]%nat
  /\ Py.pop 1 [10; 20; 30]%Z = [10; 30]%Z.
Proof. split; reflexivity. Qed.

Example upper_symbol : Py.upper "btcUsdt" = "BTCUSDT"%string.
Proof. reflexivity. Qed.

Example or_keeps_negative : Py.or_float (Some (- (1 # 100))) 5 = - (1 # 100).
Proof. reflexivity. Qed.

(** ** Exit priority (C3) *)

Lemma exits_loop_positions params row idx ps s closed :
  Backtester.positions (fst (Backtester.exits_loop params row idx ps s closed))
  = Backtester.positions s.
Proof.
  revert idx s closed. induction ps as [|pos rest IH]; intros idx s closed; simpl.
  - reflexivity.
  - destruct (Backtester.exit_trigger row pos) as [[trigger side]|].
    + rewrite IH. reflexivity.
    + apply IH.
Qed.

Lemma exits_loop_trades params row idx ps s closed :
  Backtester.trades (fst (Backtester.exits_loop params row idx ps s closed))
  = Backtester.trades s ++ exit_trades params row ps.
Proof.
  revert idx s closed. induction ps as [|pos rest IH]; intros idx s closed; simpl.
  - rewrite app_nil_r. reflexivity.
  - destruct (Backtester.exit_trigger row pos) as [[trigger side]|].
    + rewrite IH. simpl. rewrite <- app_assoc. reflexivity.
    + rewrite IH. reflexivity.
Qed.

Lemma check_exits_trades params row s :
  Backtester.trades (Backtester._check_exits params row s)
  = Backtester.trades s ++ exit_trades params row (Backtester.positions s).
Proof.
  unfold Backtester._check_exits.
  pose proof (exits_loop_trades params row 0 (Backtester.positions s) s [])
    as H.
  destruct (Backtester.exits_loop params row 0 (Backtester.positions s) s [])
    as [s1 closed].
  simpl in *. exact H.
Qed.

(** C3, as stated, fails on the live exit check.  The order manager is
    given the kline's close only: a kline whose low is under the stop and
    whose high is over the target of a position, and that closes over the
    target, is resolved to TP.  The live trader compares one last price,
    target first: where both of its conditions hold the reason is TP, and
    the trade is recorded so. *)
Lemma C3_live_resolves_tp :
  (Engine.low crossing_kline <= OrderManager.sl_price held_position
   /\ OrderManager.tp_price held_position <= Engine.high crossing_kline
   /\ OrderManager.close_reason (Engine.close crossing_kline) held_position
      = Some OrderManager.TP)
  /\ ~ (forall (price : Q) (pos : LiveTrader.Position),
          price <= LiveTrader.sl_price pos ->
          LiveTrader.tp_price pos <= price ->
          LiveTrader.tp_sl_reason price pos = Some LiveTrader.SL)
  /\ map LiveTrader.t_reason
         (LiveTrader.trade_history
            (LiveTrader._check_tp_sl filling_venue "2024-01-01T00:01:00"
                                     trader_with_crossed_levels))
     = [LiveTrader.TP].
Proof.
  split; [|split].
  - repeat split; intro H; vm_compute in H; discriminate H.
  - intro H.
    specialize (H 100 (LiveTrader.mkPosition "POS_0001" "BTCUSDT" 100 1 99 101
                                             "2024-01-01T00:00:00" "7")).
    simpl in H.
    assert (H1 : 100 <= 101) by lra.
    assert (H2 : 99 <= 100) by lra.
    specialize (H H1 H2). vm_compute in H. discriminate H.
  - vm_compute. reflexivity.
Qed.

Lemma live_reason_cases (price tp sl : Q) :
  (tp <= price -> Py.geb price tp = true)
  /\ (price < tp -> price <= sl ->
      Py.geb price tp = false /\ Py.leb price sl = true)
  /\ (price < tp -> sl < price ->
      Py.geb price tp = false /\ Py.leb price sl = false).
Proof.
  split; [|split].
  - apply geb_true.
  - intros H1 H2. split; [apply geb_false | apply leb_true]; assumption.
  - intros H1 H2. split; [apply geb_false | apply leb_false]; assumption.
Qed.

(** C3 (amended): the simulation resolves a candle that crosses both levels
    to SL, and records the trade so.  The live exit checks do not look at a
    candle's range: they compare one price (the kline's close in the engine,
    the last ticker price in the live trader) with the two levels, the
    target first: TP when the price is at or above [tp_price], SL when it is
    below [tp_price] and at or below [sl_price], no exit otherwise. *)
Theorem C3_exit_priority :
  (forall row pos,
      Backtester.low row <= Backtester.sl_price pos ->
      Backtester.tp_price pos <= Backtester.high row ->
      Backtester.exit_trigger row pos
      = Some (Backtester.sl_price pos, Backtester.SL))
  /\ (forall params row s pos,
         In pos (Backtester.positions s) ->
         Backtester.low row <= Backtester.sl_price pos ->
         Backtester.tp_price pos <= Backtester.high row ->
         In (Backtester.make_trade params row pos
               (Backtester.sl_price pos * (1 - Backtester.slippage params))
               Backtester.SL)
            (Backtester.trades (Backtester._check_exits params row s)))
  /\ (forall params row s t,
         In t (Backtester.trades (Backtester._check_exits params row s)) ->
         In t (Backtester.trades s)
         \/ exists pos,
             In pos (Backtester.positions s)
             /\ Backtester.t_entry_time t = Backtester.entry_time pos
             /\ (Backtester.t_side t = Backtester.SL
                 <-> Backtester.low row <= Backtester.sl_price pos)
             /\ (Backtester.t_side t = Backtester.TP
                 <-> Backtester.sl_price pos < Backtester.low row
                     /\ Backtester.tp_price pos <= Backtester.high row))
  /\ (forall price pos,
         (LiveTrader.tp_price pos <= price ->
          LiveTrader.tp_sl_reason price pos = Some LiveTrader.TP)
         /\ (price < LiveTrader.tp_price pos ->
             price <= LiveTrader.sl_price pos ->
             LiveTrader.tp_sl_reason price pos = Some LiveTrader.SL)
         /\ (price < LiveTrader.tp_price pos ->
             LiveTrader.sl_price pos < price ->
             LiveTrader.tp_sl_reason price pos = None))
  /\ (forall price pos,
         (OrderManager.tp_price pos <= price ->
          OrderManager.close_reason price pos = Some OrderManager.TP)
         /\ (price < OrderManager.tp_price pos ->
             price <= OrderManager.sl_price pos ->
             OrderManager.close_reason price pos = Some OrderManager.SL)
         /\ (price < OrderManager.tp_price pos ->
             OrderManager.sl_price pos < price ->
             OrderManager.close_reason price pos = None))
  /\ (forall v now now_ts signal kline e,
         Engine.is_closed kline = false ->
         Engine.order_manager (Engine._on_kline v now now_ts signal kline e)
         = OrderManager.check_tp_sl v (Engine.symbol e) (Engine.close kline)
                                    (Engine.order_manager e)).
Proof.
  split; [|split; [|split; [|split; [|split]]]].
  - intros row pos Hsl _. unfold Backtester.exit_trigger.
    apply leb_true in Hsl. rewrite Hsl. reflexivity.
  - intros params row s pos Hin Hsl _.
    rewrite check_exits_trades. apply in_or_app. right.
    unfold exit_trades. apply in_flat_map. exists pos. split; [exact Hin|].
    unfold Backtester.exit_trigger. apply leb_true in Hsl. rewrite Hsl.
    left. reflexivity.
  - intros params row s t Hin.
    rewrite check_exits_trades in Hin. apply in_app_or in Hin.
    destruct Hin as [Hin|Hin]; [left; exact Hin|right].
    unfold exit_trades in Hin. apply in_flat_map in Hin.
    destruct Hin as [pos [Hpos Ht]]. exists pos. split; [exact Hpos|].
    unfold Backtester.exit_trigger in Ht.
    destruct (Py.leb (Backtester.low row) (Backtester.sl_price pos)) eqn:Esl.
    + destruct Ht as [<-|[]]. simpl. apply leb_true in Esl.
      split; [reflexivity|]. split.
      * split; intro; [exact Esl | reflexivity].
      * split; [discriminate|].
        intros [Hlt _]. exfalso. apply (Qlt_not_le _ _ Hlt Esl).
    + destruct (Py.geb (Backtester.high row) (Backtester.tp_price pos)) eqn:Etp.
      * destruct Ht as [<-|[]]. simpl. apply leb_false in Esl.
        apply geb_true in Etp.
        split; [reflexivity|]. split.
        -- split; [discriminate|].
           intro Hle. exfalso. apply (Qlt_not_le _ _ Esl Hle).
        -- split; intro; [split; assumption | reflexivity].
      * destruct Ht.
  - intros price pos. unfold LiveTrader.tp_sl_reason.
    destruct (live_reason_cases price (LiveTrader.tp_price pos)
                                (LiveTrader.sl_price pos)) as [H1 [H2 H3]].
    split; [|split].
    + intro H. rewrite (H1 H). reflexivity.
    + intros Ha Hb. destruct (H2 Ha Hb) as [-> ->]. reflexivity.
    + intros Ha Hb. destruct (H3 Ha Hb) as [-> ->]. reflexivity.
  - intros price pos. unfold OrderManager.close_reason.
    destruct (live_reason_cases price (OrderManager.tp_price pos)
                                (OrderManager.sl_price pos)) as [H1 [H2 H3]].
    split; [|split].
    + intro H. rewrite (H1 H). reflexivity.
    + intros Ha Hb. destruct (H2 Ha Hb) as [-> ->]. reflexivity.
    + intros Ha Hb. destruct (H3 Ha Hb) as [-> ->]. reflexivity.
  - intros v now now_ts signal kline e H. unfold Engine._on_kline.
    rewrite H. reflexivity.
Qed.

Lemma C3_exit_priority_witness :
  Backtester.exit_trigger
    (Backtester.mkRow 0 100 102 98 100 0)
    (Backtester.mkPosition 0 100 1 101 99 (1 # 10))
  = Some (99, Backtester.SL)
  /\ OrderManager.close_reason (Engine.close crossing_kline) held_position
     = Some OrderManager.TP.
Proof.
  destruct C3_exit_priority as [Hsim [_ [_ [_ [Hlive _]]]]].
  split.
  - apply (Hsim (Backtester.mkRow 0 100 102 98 100 0)
                (Backtester.mkPosition 0 100 1 101 99 (1 # 10)));
      simpl; lra.
  - apply (Hlive (Engine.close crossing_kline) held_position).
    vm_compute. discriminate.
Defined.

(** ** The positions an exit check leaves *)

Lemma insert_desc_below (a : nat) (l : list nat) :
  (forall y, In y l -> (a < y)%nat) -> Py.insert_desc a l = l ++ [a].
Proof.
  induction l as [|y t IH]; intro H; [reflexivity|].
  cbn [Py.insert_desc app].
  destruct (Nat.leb_spec y a) as [Hle|Hlt].
  - specialize (H y (or_introl eq_refl)). lia.
  - f_equal. apply IH. intros z Hz. apply H. right. exact Hz.
Qed.

Lemma dropped_above {A : Type} (keep : A -> bool) n l y :
  In y (dropped keep n l) -> (n <= y)%nat.
Proof.
  revert n. induction l as [|x t IH]; intros n H; [destruct H|].
  cbn [dropped] in H. destruct (keep x).
  - apply IH in H. lia.
  - destruct H as [<-|H]; [lia|]. apply IH in H. lia.
Qed.

Lemma sorted_reverse_dropped {A : Type} (keep : A -> bool) n l :
  Py.sorted_reverse (dropped keep n l) = rev (dropped keep n l).
Proof.
  revert n. induction l as [|x t IH]; intro n; [reflexivity|].
  cbn [dropped]. destruct (keep x); [apply IH|].
  cbn [Py.sorted_reverse fold_right rev].
  fold (Py.sorted_reverse (dropped keep (S n) t)). rewrite IH.
  apply insert_desc_below. intros y Hy. apply in_rev in Hy.
  apply dropped_above in Hy. lia.
Qed.

Lemma dropped_shift {A : Type} (keep : A -> bool) n l :
  dropped keep (S n) l = map S (dropped keep n l).
Proof.
  revert n. induction l as [|x t IH]; intro n; [reflexivity|].
  cbn [dropped]. destruct (keep x); cbn [map]; rewrite IH; reflexivity.
Qed.

Lemma pops_shift {A : Type} (idxs : list nat) (x : A) (l : list A) :
  fold_left (fun l idx => Py.pop idx l) (map S idxs) (x :: l)
  = x :: fold_left (fun l idx => Py.pop idx l) idxs l.
Proof.
  revert l. induction idxs as [|i idxs IH]; intro l; [reflexivity|].
  cbn [map fold_left Py.pop]. apply IH.
Qed.

Lemma pops_dropped {A : Type} (keep : A -> bool) (l : list A) :
  fold_left (fun l idx => Py.pop idx l) (rev (dropped keep 0 l)) l
  = filter keep l.
Proof.
  induction l as [|x t IH]; [reflexivity|].
  cbn [dropped filter]. rewrite dropped_shift.
  destruct (keep x).
  - rewrite <- map_rev, pops_shift, IH. reflexivity.
  - cbn [rev]. rewrite fold_left_app, <- map_rev, pops_shift, IH. reflexivity.
Qed.

Lemma exits_loop_closed params row idx ps s closed :
  snd (Backtester.exits_loop params row idx ps s closed)
  = closed ++ dropped (stays row) idx ps.
Proof.
  revert idx s closed. induction ps as [|pos rest IH]; intros idx s closed.
  - cbn. rewrite app_nil_r. reflexivity.
  - cbn [Backtester.exits_loop dropped]. unfold stays at 1.
    destruct (Backtester.exit_trigger row pos) as [[trigger side]|].
    + rewrite IH, <- app_assoc. reflexivity.
    + apply IH.
Qed.

(** [_check_exits] removes exactly the positions an exit triggers on, and
    keeps the others in order. *)
Lemma check_exits_positions params row s :
  Backtester.positions (Backtester._check_exits params row s)
  = filter (stays row) (Backtester.positions s).
Proof.
  unfold Backtester._check_exits.
  pose proof (exits_loop_positions params row 0 (Backtester.positions s) s [])
    as Hp.
  pose proof (exits_loop_closed params row 0 (Backtester.positions s) s [])
    as Hc.
  destruct (Backtester.exits_loop params row 0 (Backtester.positions s) s [])
    as [s1 closed].
  cbn [fst snd app] in Hp, Hc. subst closed.
  cbn [Backtester.with_positions Backtester.positions].
  unfold Backtester.pop_closed.
  rewrite Hp, sorted_reverse_dropped. apply pops_dropped.
Qed.

(** ** Constructor defaults (C10) *)

Lemma or_float_zero (v d : Q) : v == 0 -> Py.or_float (Some v) d = d.
Proof.
  intro H. unfold Py.or_float. apply Qeq_bool_iff in H. rewrite H. reflexivity.
Qed.

Lemma or_float_nonzero (v d : Q) : ~ v == 0 -> Py.or_float (Some v) d = v.
Proof.
  intro H. unfold Py.or_float. destruct (Qeq_bool v 0) eqn:E; [|reflexivity].
  apply Qeq_bool_iff in E. contradiction.
Qed.

Lemma or_float_never_zero (x : option Q) (d : Q) :
  ~ d == 0 -> ~ Py.or_float x d == 0.
Proof.
  intros Hd. unfold Py.or_float. destruct x as [v|]; [|exact Hd].
  destruct (Qeq_bool v 0) eqn:E; [exact Hd|].
  apply Qeq_bool_neq in E. exact E.
Qed.

Lemma or_float_cases (x : option Q) (d : Q) :
  Py.or_float x d = d
  \/ exists v, x = Some v /\ ~ v == 0 /\ Py.or_float x d = v.
Proof.
  destruct x as [v|]; [|left; reflexivity].
  unfold Py.or_float. destruct (Qeq_bool v 0) eqn:E; [left; reflexivity|].
  right. exists v. apply Qeq_bool_neq in E. auto.
Qed.

Lemma or_int_never_zero (x : option Z) (d : Z) :
  d <> 0%Z -> Py.or_int x d <> 0%Z.
Proof.
  intros Hd. unfold Py.or_int. destruct x as [v|]; [|exact Hd].
  destruct (Z.eqb_spec v 0); [exact Hd | assumption].
Qed.

Lemma or_int_cases (x : option Z) (d : Z) :
  Py.or_int x d = d
  \/ exists v, x = Some v /\ v <> 0%Z /\ Py.or_int x d = v.
Proof.
  destruct x as [v|]; [|left; reflexivity].
  unfold Py.or_int. destruct (Z.eqb_spec v 0); [left; reflexivity|].
  right. exists v. auto.
Qed.

Lemma load_state_keeps_settings f s :
  LiveTrader.tp_pct (LiveTrader._load_state f s) = LiveTrader.tp_pct s
  /\ LiveTrader.sl_pct (LiveTrader._load_state f s) = LiveTrader.sl_pct s
  /\ LiveTrader.ema_fast (LiveTrader._load_state f s) = LiveTrader.ema_fast s
  /\ LiveTrader.ema_slow (LiveTrader._load_state f s) = LiveTrader.ema_slow s.
Proof.
  unfold LiveTrader._load_state.
  destruct f as [| |[| | | | | |kv]]; auto.
  destruct (LiveTrader.get_positions kv); auto.
  destruct (LiveTrader.get_num "initial_equity" kv); auto.
  destruct (LiveTrader.get_num "peak_equity" kv); auto.
  destruct (LiveTrader.get_num "daily_pnl" kv); auto.
  destruct (LiveTrader.get_date kv); auto.
  destruct (LiveTrader.get_flag kv); auto.
Qed.

(** C10: the constructors of the live risk manager and of the live trader
    combine each argument with its configuration default by [or]: an
    argument that is zero (or absent) gives the default, so the configured
    [max_open_trades], [risk_per_trade] and [tp_pct] are never zero, and a
    value that differs from the default is a non-zero explicit argument. *)
Theorem C10_zero_argument_replaced_by_default :
  (* a zero argument gives the configuration default *)
  (forall ic rpt mdl cbd,
      RiskManager.max_open_trades
        (RiskManager.__init__ ic rpt mdl (Some 0%Z) cbd)
      = Config.MAX_OPEN_TRADES)
  /\ (forall z ic rpt mdl mot cbd,
         z == 0 ->
         RiskManager.risk_per_trade
           (RiskManager.__init__ ic (Some z) mdl mot cbd)
         = Config.RISK_PER_TRADE
         /\ RiskManager.initial_capital
              (RiskManager.__init__ (Some z) rpt mdl mot cbd)
            = Config.INITIAL_CAPITAL
         /\ RiskManager.max_daily_loss
              (RiskManager.__init__ ic rpt (Some z) mot cbd)
            = Config.MAX_DAILY_LOSS
         /\ RiskManager.circuit_breaker_dd
              (RiskManager.__init__ ic rpt mdl mot (Some z))
            = Config.CIRCUIT_BREAKER_DD)
  /\ (forall z sy ef es tp sl f,
         z == 0 ->
         LiveTrader.tp_pct (LiveTrader.__init__ sy ef es (Some z) sl f)
         = Config.TP_PCT
         /\ LiveTrader.sl_pct (LiveTrader.__init__ sy ef es tp (Some z) f)
            = Config.SL_PCT)
  /\ (forall sy ef es tp sl f,
         LiveTrader.ema_fast (LiveTrader.__init__ sy (Some 0%Z) es tp sl f)
         = Config.EMA_FAST
         /\ LiveTrader.ema_slow (LiveTrader.__init__ sy ef (Some 0%Z) tp sl f)
            = Config.EMA_SLOW)
  (* zero cannot be configured *)
  /\ (forall ic rpt mdl mot cbd,
         RiskManager.max_open_trades (RiskManager.__init__ ic rpt mdl mot cbd)
         <> 0%Z
         /\ ~ RiskManager.risk_per_trade
              (RiskManager.__init__ ic rpt mdl mot cbd) == 0)
  /\ (forall sy ef es tp sl f,
         ~ LiveTrader.tp_pct (LiveTrader.__init__ sy ef es tp sl f) == 0)
  (* only a non-zero explicit argument overrides the default *)
  /\ (forall ic rpt mdl mot cbd,
         RiskManager.max_open_trades (RiskManager.__init__ ic rpt mdl mot cbd)
         <> Config.MAX_OPEN_TRADES ->
         exists v, mot = Some v /\ v <> 0%Z
                   /\ RiskManager.max_open_trades
                        (RiskManager.__init__ ic rpt mdl mot cbd) = v)
  /\ (forall ic rpt mdl mot cbd,
         RiskManager.risk_per_trade (RiskManager.__init__ ic rpt mdl mot cbd)
         <> Config.RISK_PER_TRADE ->
         exists v, rpt = Some v /\ ~ v == 0
                   /\ RiskManager.risk_per_trade
                        (RiskManager.__init__ ic rpt mdl mot cbd) = v)
  /\ (forall sy ef es tp sl f,
         LiveTrader.tp_pct (LiveTrader.__init__ sy ef es tp sl f)
         <> Config.TP_PCT ->
         exists v, tp = Some v /\ ~ v == 0
                   /\ LiveTrader.tp_pct (LiveTrader.__init__ sy ef es tp sl f)
                      = v).
Proof.
  split; [|split; [|split; [|split; [|split; [|split; [|split; [|split]]]]]]].
  - intros. reflexivity.
  - intros z ic rpt mdl mot cbd Hz. unfold RiskManager.__init__.
    cbn [RiskManager.risk_per_trade RiskManager.initial_capital
         RiskManager.max_daily_loss RiskManager.circuit_breaker_dd].
    rewrite !(or_float_zero z) by exact Hz. auto.
  - intros z sy ef es tp sl f Hz. unfold LiveTrader.__init__.
    split.
    + rewrite (proj1 (load_state_keeps_settings f _)).
      cbn [LiveTrader.tp_pct]. apply or_float_zero. exact Hz.
    + rewrite (proj1 (proj2 (load_state_keeps_settings f _))).
      cbn [LiveTrader.sl_pct]. apply or_float_zero. exact Hz.
  - intros sy ef es tp sl f. unfold LiveTrader.__init__. split.
    + rewrite (proj1 (proj2 (proj2 (load_state_keeps_settings f _)))).
      reflexivity.
    + rewrite (proj2 (proj2 (proj2 (load_state_keeps_settings f _)))).
      reflexivity.
  - intros ic rpt mdl mot cbd. unfold RiskManager.__init__.
    cbn [RiskManager.max_open_trades RiskManager.risk_per_trade]. split.
    + apply or_int_never_zero. discriminate.
    + apply or_float_never_zero. intro H. discriminate H.
  - intros sy ef es tp sl f. unfold LiveTrader.__init__.
    rewrite (proj1 (load_state_keeps_settings f _)). cbn [LiveTrader.tp_pct].
    apply or_float_never_zero. intro H. discriminate H.
  - intros ic rpt mdl mot cbd. unfold RiskManager.__init__.
    cbn [RiskManager.max_open_trades]. intro H.
    destruct (or_int_cases mot Config.MAX_OPEN_TRADES) as [E|E];
      [contradiction | exact E].
  - intros ic rpt mdl mot cbd. unfold RiskManager.__init__.
    cbn [RiskManager.risk_per_trade]. intro H.
    destruct (or_float_cases rpt Config.RISK_PER_TRADE) as [E|E];
      [contradiction | exact E].
  - intros sy ef es tp sl f. unfold LiveTrader.__init__.
    rewrite (proj1 (load_state_keeps_settings f _)). cbn [LiveTrader.tp_pct].
    intro H.
    destruct (or_float_cases tp Config.TP_PCT) as [E|E];
      [contradiction | exact E].
Qed.

Lemma C10_zero_argument_replaced_by_default_witness :
  RiskManager.risk_per_trade
    (RiskManager.__init__ None (Some 0) None (Some 0%Z) None)
  = Config.RISK_PER_TRADE
  /\ (exists v, Some (5 # 100) = Some v /\ ~ v == 0
                /\ RiskManager.risk_per_trade
                     (RiskManager.__init__ None (Some (5 # 100)) None None None)
                   = v).
Proof.
  destruct C10_zero_argument_replaced_by_default
    as [_ [Hzero [_ [_ [_ [_ [_ [Hover _]]]]]]]].
  split.
  - apply (Hzero 0 None None None (Some 0%Z) None). reflexivity.
  - apply (Hover None (Some (5 # 100)) None None None).
    simpl. intro H. discriminate H.
Defined.

(** ** Persisted state (C9) *)

Lemma position_json_roundtrip (p : LiveTrader.Position) :
  LiveTrader.position_of_json (LiveTrader.position_to_json p) = Some p.
Proof. destruct p. reflexivity. Qed.

Lemma positions_json_roundtrip (ps : list LiveTrader.Position) :
  LiveTrader.positions_of_json (map LiveTrader.position_to_json ps) = Some ps.
Proof.
  induction ps as [|p ps IH].
  - reflexivity.
  - cbn [map LiveTrader.positions_of_json].
    rewrite position_json_roundtrip, IH. reflexivity.
Qed.

Lemma load_saved_document (s s0 : LiveTrader.State) :
  LiveTrader._load_state (LiveTrader.Document (LiveTrader.state_document s)) s0
  = LiveTrader.with_loaded
      (LiveTrader.positions s) (LiveTrader.initial_equity s)
      (LiveTrader.peak_equity s) (LiveTrader.daily_pnl s)
      (LiveTrader.daily_date s) (LiveTrader.circuit_breaker s) s0.
Proof.
  unfold LiveTrader._load_state, LiveTrader.state_document.
  unfold LiveTrader.get_positions, LiveTrader.get_num, LiveTrader.get_date,
    LiveTrader.get_flag.
  cbn [Json.get Execution.lookup String.eqb Ascii.eqb Bool.eqb
       LiveTrader.as_num].
  rewrite positions_json_roundtrip.
  destruct (LiveTrader.daily_date s); reflexivity.
Qed.

(** C9: a completed write of the state document followed by a read, into
    the trader a restarted process constructs or into any other trader,
    reproduces the open positions, [peak_equity], [daily_pnl],
    [daily_date] and the circuit-breaker flag (and [initial_equity]) of
    the trader that wrote it. *)
Theorem C9_state_roundtrip :
  forall (s s0 : LiveTrader.State) (f : LiveTrader.File)
         (sy : string) (ef es : option Z) (tp sl : option Q),
    let f' := LiveTrader._save_state LiveTrader.WriteOk s f in
    let same (r : LiveTrader.State) :=
      LiveTrader.positions r = LiveTrader.positions s
      /\ LiveTrader.peak_equity r = LiveTrader.peak_equity s
      /\ LiveTrader.daily_pnl r = LiveTrader.daily_pnl s
      /\ LiveTrader.daily_date r = LiveTrader.daily_date s
      /\ LiveTrader.circuit_breaker r = LiveTrader.circuit_breaker s
      /\ LiveTrader.initial_equity r = LiveTrader.initial_equity s in
    same (LiveTrader._load_state f' s0)
    /\ same (LiveTrader.__init__ sy ef es tp sl f').
Proof.
  intros s s0 f sy ef es tp sl f' same. subst f' same.
  unfold LiveTrader.__init__.
  cbn [LiveTrader._save_state]. rewrite !load_saved_document.
  repeat split.
Qed.

(** ** Retry policy of the connector (C8) *)

Lemma order_loop_transient v attempt rest c :
  transient (Execution.create_order v (Execution.calls c)) ->
  Execution.order_loop v (attempt :: rest) c
  = if (attempt <? Execution.MAX_RETRIES)%Z
    then Execution.order_loop v rest
           (Execution.sleep (Execution.RETRY_DELAY_BASE ^ attempt)%Z
                            (Execution.sent c))
    else (Execution.Raised
            (match raised_by (Execution.create_order v (Execution.calls c)) with
             | Some e => e
             | None => Execution.OtherError
             end),
          Execution.sent c).
Proof.
  intros [H|[code [H Hp]]]; cbn [Execution.order_loop]; rewrite H.
  - reflexivity.
  - rewrite Hp. reflexivity.
Qed.

Lemma order_loop_permanent v attempt rest c code :
  Execution.create_order v (Execution.calls c)
  = Execution.Fails (Execution.BinanceAPIException code) ->
  Execution.permanent code = true ->
  Execution.order_loop v (attempt :: rest) c
  = (Execution.Raised (Execution.BinanceAPIException code), Execution.sent c).
Proof.
  intros H Hp. cbn [Execution.order_loop]. rewrite H, Hp. reflexivity.
Qed.

Lemma order_loop_filled v attempt rest c r :
  Execution.create_order v (Execution.calls c) = Execution.Filled r ->
  Execution.fills r <> Some [] ->
  Execution.order_loop v (attempt :: rest) c
  = (Execution.Returned (Some r), Execution.sent c).
Proof.
  intros H Hf. cbn [Execution.order_loop]. rewrite H.
  destruct (Execution.fills r) as [[|x l]|]; try reflexivity.
  contradiction.
Qed.

Lemma place_market_order_loop v symbol side quantity c p c0 :
  Execution.get_symbol_info v symbol c = (Execution.Returned p, c0) ->
  0 < Execution._adjust_quantity symbol quantity c0 ->
  Execution.place_market_order v symbol side quantity c
  = Execution.order_loop v [1; 2; 3]%Z c0.
Proof.
  intros Hinfo Hq. unfold Execution.place_market_order. rewrite Hinfo.
  apply leb_false in Hq. rewrite Hq. reflexivity.
Qed.

(** C8: once the order passes the connector's own checks, a permanent
    rejection at any attempt is raised at once, with no sleep after it and
    no further [create_order] call; transient failures are retried after
    delays 2, 4 (seconds), and only when the third attempt fails as well
    is its error raised; an attempt that is filled ends the call. *)
Theorem C8_retry_policy :
  forall v symbol side quantity c p c0,
    Execution.get_symbol_info v symbol c = (Execution.Returned p, c0) ->
    0 < Execution._adjust_quantity symbol quantity c0 ->
    let reply (j : nat) := Execution.create_order v (Execution.calls c0 + j)%nat in
    let after (k : nat) :=
      Execution.mkConn (Execution.symbol_info c0)
                       (Execution.calls c0 + k)%nat
                       (Execution.sleeps c0 ++ backoff (k - 1)%nat) in
    (* permanent rejection at attempt k + 1, after k transient failures *)
    (forall k code,
        (k < 3)%nat ->
        (forall j, (j < k)%nat -> transient (reply j)) ->
        reply k = Execution.Fails (Execution.BinanceAPIException code) ->
        Execution.permanent code = true ->
        Execution.place_market_order v symbol side quantity c
        = (Execution.Raised (Execution.BinanceAPIException code),
           after (S k)))
    (* transient failures up to the cap *)
    /\ ((forall j, (j < 3)%nat -> transient (reply j)) ->
        exists e,
          raised_by (reply 2%nat) = Some e
          /\ Execution.place_market_order v symbol side quantity c
             = (Execution.Raised e, after 3%nat))
    (* success at attempt k + 1, after k transient failures *)
    /\ (forall k r,
           (k < 3)%nat ->
           (forall j, (j < k)%nat -> transient (reply j)) ->
           reply k = Execution.Filled r ->
           Execution.fills r <> Some [] ->
           Execution.place_market_order v symbol side quantity c
           = (Execution.Returned (Some r), after (S k))).
Proof.
  intros v symbol side quantity c p c0 Hinfo Hq reply after.
  rewrite (place_market_order_loop v symbol side quantity c p c0 Hinfo Hq).
  assert (R0 : reply 0%nat = Execution.create_order v (Execution.calls c0))
    by (unfold reply; f_equal; lia).
  assert (R1 : reply 1%nat
               = Execution.create_order v (S (Execution.calls c0)))
    by (unfold reply; f_equal; lia).
  assert (R2 : reply 2%nat
               = Execution.create_order v (S (S (Execution.calls c0))))
    by (unfold reply; f_equal; lia).
  assert (A1 : after 1%nat = Execution.sent c0).
  { unfold after, Execution.sent, backoff. cbn [Nat.sub seq map].
    rewrite app_nil_r. f_equal. lia. }
  assert (A2 : after 2%nat
               = Execution.sent (Execution.sleep 2%Z (Execution.sent c0))).
  { unfold after, Execution.sent, Execution.sleep, backoff.
    cbn [Nat.sub seq map Execution.calls Execution.sleeps
         Execution.symbol_info].
    f_equal. lia. }
  assert (A3 : after 3%nat
               = Execution.sent
                   (Execution.sleep 4%Z
                      (Execution.sent
                         (Execution.sleep 2%Z (Execution.sent c0))))).
  { unfold after, Execution.sent, Execution.sleep, backoff.
    cbn [Nat.sub seq map Execution.calls Execution.sleeps
         Execution.symbol_info].
    rewrite <- app_assoc. f_equal. lia. }
  split; [|split].
  - intros k code Hk Htr Hrep Hperm.
    destruct k as [|[|[|k]]]; [| | |lia].
    + rewrite A1. apply order_loop_permanent; [rewrite <- R0|]; assumption.
    + rewrite order_loop_transient by (rewrite <- R0; apply Htr; lia).
      cbn [Z.ltb Z.compare Execution.MAX_RETRIES Pos.compare Pos.compare_cont].
      rewrite A2. apply order_loop_permanent; [|assumption].
      cbn [Execution.sent Execution.sleep Execution.calls].
      rewrite <- R1. assumption.
    + rewrite order_loop_transient by (rewrite <- R0; apply Htr; lia).
      cbn [Z.ltb Z.compare Execution.MAX_RETRIES Pos.compare Pos.compare_cont].
      rewrite order_loop_transient
        by (cbn [Execution.sent Execution.sleep Execution.calls];
            rewrite <- R1; apply Htr; lia).
      cbn [Z.ltb Z.compare Execution.MAX_RETRIES Pos.compare Pos.compare_cont].
      rewrite A3. apply order_loop_permanent; [|assumption].
      cbn [Execution.sent Execution.sleep Execution.calls].
      rewrite <- R2. assumption.
  - intros Htr.
    assert (exists e, reply 2%nat = Execution.Fails e) as [e He].
    { destruct (Htr 2%nat ltac:(lia)) as [H|[code [H _]]]; eauto. }
    exists e. split; [rewrite He; reflexivity|].
    rewrite order_loop_transient by (rewrite <- R0; apply Htr; lia).
    cbn [Z.ltb Z.compare Execution.MAX_RETRIES Pos.compare Pos.compare_cont].
    rewrite order_loop_transient
      by (cbn [Execution.sent Execution.sleep Execution.calls];
          rewrite <- R1; apply Htr; lia).
    cbn [Z.ltb Z.compare Execution.MAX_RETRIES Pos.compare Pos.compare_cont].
    rewrite order_loop_transient
      by (cbn [Execution.sent Execution.sleep Execution.calls];
          rewrite <- R2; apply Htr; lia).
    cbn [Z.ltb Z.compare Execution.MAX_RETRIES Pos.compare Pos.compare_cont].
    rewrite A3.
    cbn [Execution.sent Execution.sleep Execution.calls].
    rewrite <- R2, He. reflexivity.
  - intros k r Hk Htr Hrep Hfill.
    destruct k as [|[|[|k]]]; [| | |lia].
    + rewrite A1. apply order_loop_filled; [rewrite <- R0|]; assumption.
    + rewrite order_loop_transient by (rewrite <- R0; apply Htr; lia).
      cbn [Z.ltb Z.compare Execution.MAX_RETRIES Pos.compare Pos.compare_cont].
      rewrite A2. apply order_loop_filled; [|assumption].
      cbn [Execution.sent Execution.sleep Execution.calls].
      rewrite <- R1. assumption.
    + rewrite order_loop_transient by (rewrite <- R0; apply Htr; lia).
      cbn [Z.ltb Z.compare Execution.MAX_RETRIES Pos.compare Pos.compare_cont].
      rewrite order_loop_transient
        by (cbn [Execution.sent Execution.sleep Execution.calls];
            rewrite <- R1; apply Htr; lia).
      cbn [Z.ltb Z.compare Execution.MAX_RETRIES Pos.compare Pos.compare_cont].
      rewrite A3. apply order_loop_filled; [|assumption].
      cbn [Execution.sent Execution.sleep Execution.calls].
      rewrite <- R2. assumption.
Qed.

Lemma C8_retry_policy_witness :
  Execution.place_market_order flaky_then_rejecting "BTCUSDT" Execution.BUY
                               (1 # 2) Execution.connector
  = (Execution.Raised (Execution.BinanceAPIException (-2010)),
     Execution.mkConn [("BTCUSDT"%string, 3%nat)] 2 [2%Z]).
Proof.
  pose proof (C8_retry_policy flaky_then_rejecting "BTCUSDT" Execution.BUY
                (1 # 2) Execution.connector 3%nat
                (Execution.mkConn [("BTCUSDT"%string, 3%nat)] 0 [])
                eq_refl eq_refl) as H.
  cbv zeta in H. destruct H as [Hperm _].
  apply (Hperm 1%nat (-2010)%Z).
  - lia.
  - intros j Hj. assert (j = 0%nat) as -> by lia. left. reflexivity.
  - reflexivity.
  - reflexivity.
Defined.

(** ** Position sizing (C4) *)

Lemma abs_le_zero (d : Q) : Qabs d <= 0 <-> d == 0.
Proof.
  split; intro H.
  - revert H. apply Qabs_case; intros; lra.
  - rewrite H. apply Qle_refl.
Qed.

(** C4, as stated, fails on the live sizing: with the stop above the entry
    (entry - sl <= 0) it returns a positive quantity, not 0, and at the
    numbers of Scenario A it returns 95, not 100. *)
Lemma C4_live_sizing_differs :
  10 - 20 <= 0
  /\ RiskManager.calculate_position_size 10 20 configured_risk_manager == 10
  /\ ~ RiskManager.calculate_position_size 10 20 configured_risk_manager == 0
  /\ RiskManager.calculate_position_size 100 99 configured_risk_manager == 95
  /\ ~ RiskManager.calculate_position_size 100 99 configured_risk_manager
       == 100.
Proof.
  repeat split; try (intro H; vm_compute in H; discriminate H).
Qed.

(** C4 (amended): the backtest sizes a position at
    (equity * risk_per_trade) / (entry - sl) when entry - sl > 0, before
    its clamp to the cash at hand, and opens nothing when entry - sl <= 0;
    the live [calculate_position_size] works on |entry - sl|: it returns 0
    only when entry = sl, otherwise (equity * risk_per_trade) / |entry - sl|,
    capped at 95% of equity divided by the entry price.  At equity 10000,
    risk 0.01, entry 100, sl 99 the size before either clamp is 100 in
    both; the live function returns 95 there. *)
Theorem C4_position_sizing :
  (* backtest *)
  (forall params row s,
      let entry := Backtester.close row * (1 + Backtester.slippage params) in
      let sl := entry * (1 - Backtester.sl_pct params) in
      let tp := entry * (1 + Backtester.tp_pct params) in
      let qty := (Backtester.equity s * Backtester.risk_per_trade params)
                 / (entry - sl) in
      Backtester._can_open_trade params s = true ->
      (entry - sl <= 0 -> Backtester._try_open_position params row s = s)
      /\ (0 < entry - sl ->
          entry * qty + entry * qty * Backtester.trading_fee params
          <= Backtester.cash s ->
          exists pos,
            Backtester.positions (Backtester._try_open_position params row s)
            = Backtester.positions s ++ [pos]
            /\ Backtester.quantity pos = qty
            /\ Backtester.entry_price pos = entry
            /\ Backtester.sl_price pos = sl))
  (* live *)
  /\ (forall s entry sl,
         let qty := (RiskManager.current_equity s
                     * RiskManager.risk_per_trade s) / Qabs (entry - sl) in
         (entry == sl ->
          RiskManager.calculate_position_size entry sl s = 0)
         /\ (~ entry == sl ->
             qty * entry <= RiskManager.current_equity s * (95 # 100) ->
             RiskManager.calculate_position_size entry sl s = qty)
         /\ (~ entry == sl ->
             RiskManager.current_equity s * (95 # 100) < qty * entry ->
             RiskManager.calculate_position_size entry sl s
             = (RiskManager.current_equity s * (95 # 100)) / entry))
  (* Scenario A *)
  /\ Backtester.risk_quantity scenario_A_params 10000 100 99 == 100
  /\ (exists pos,
         Backtester.positions
           (Backtester._try_open_position
              scenario_A_params (Backtester.mkRow 0 100 100 100 100 1)
              (Backtester._reset scenario_A_params)) = [pos]
         /\ Backtester.entry_price pos == 100
         /\ Backtester.sl_price pos == 99
         /\ Backtester.quantity pos == 100)
  /\ RiskManager.risk_quantity 100 99 configured_risk_manager == 100
  /\ RiskManager.calculate_position_size 100 99 configured_risk_manager == 95.
Proof.
  split; [|split; [|split; [|split; [|split]]]].
  - intros params row s entry sl tp qty Hcan. split.
    + intro Hd. unfold Backtester._try_open_position. rewrite Hcan.
      cbn [negb]. fold entry. fold sl.
      apply leb_true in Hd. rewrite Hd. reflexivity.
    + intros Hd Hcost. unfold Backtester._try_open_position. rewrite Hcan.
      cbn [negb]. fold entry. fold sl. fold tp.
      apply leb_false in Hd. rewrite Hd.
      unfold Backtester.risk_quantity.
      apply gtb_false in Hcost. unfold qty, sl, entry in Hcost |- *.
      rewrite Hcost.
      eexists. split; [reflexivity|]. repeat split.
  - intros s entry sl qty. unfold RiskManager.calculate_position_size.
    unfold RiskManager.risk_quantity. fold qty. unfold Py.abs.
    split; [|split].
    + intro He. assert (Hz : Qabs (entry - sl) <= 0)
        by (apply abs_le_zero; lra).
      apply leb_true in Hz. rewrite Hz. reflexivity.
    + intros Hne Hcost.
      assert (Hz : 0 < Qabs (entry - sl)).
      { apply Qnot_le_lt. intro Hle. apply abs_le_zero in Hle.
        apply Hne. lra. }
      apply leb_false in Hz. rewrite Hz.
      apply gtb_false in Hcost. unfold qty in Hcost |- *.
      rewrite Hcost. reflexivity.
    + intros Hne Hcost.
      assert (Hz : 0 < Qabs (entry - sl)).
      { apply Qnot_le_lt. intro Hle. apply abs_le_zero in Hle.
        apply Hne. lra. }
      apply leb_false in Hz. rewrite Hz.
      apply gtb_true in Hcost. unfold qty in Hcost |- *.
      rewrite Hcost. reflexivity.
  - reflexivity.
  - eexists. split; [vm_compute; reflexivity|]. repeat split.
  - reflexivity.
  - reflexivity.
Qed.

Lemma C4_position_sizing_witness :
  Backtester._try_open_position
    scenario_A_params (Backtester.mkRow 0 0 0 0 0 1)
    (Backtester._reset scenario_A_params)
  = Backtester._reset scenario_A_params
  /\ RiskManager.calculate_position_size 100 100 configured_risk_manager = 0
  /\ RiskManager.calculate_position_size 1 2 configured_risk_manager
     = (RiskManager.current_equity configured_risk_manager
        * RiskManager.risk_per_trade configured_risk_manager) / Qabs (1 - 2).
Proof.
  destruct C4_position_sizing as [Hback [Hlive _]].
  split; [|split].
  - apply (Hback scenario_A_params (Backtester.mkRow 0 0 0 0 0 1)
                 (Backtester._reset scenario_A_params)).
    + reflexivity.
    + vm_compute. discriminate.
  - apply (Hlive configured_risk_manager 100 100). reflexivity.
  - apply (Hlive configured_risk_manager 1 2).
    + intro H. vm_compute in H. discriminate H.
    + vm_compute. discriminate.
Defined.

(** ** Admission check (C5) *)

Lemma min_zero_zero : Py.min 0 0 = 0.
Proof. reflexivity. Qed.

Lemma zero_ratio_below (e m : Q) : 0 < m -> Py.geb (Py.abs (Py.min 0 0) / e) m = false.
Proof.
  intro Hm. apply geb_false. rewrite min_zero_zero. unfold Py.abs.
  change (Qabs 0) with 0. unfold Qdiv. rewrite Qmult_0_l. exact Hm.
Qed.

Lemma loss_ratio (pnl e frac : Q) :
  0 < e -> 0 <= frac -> pnl == - (frac * e) ->
  Py.abs (Py.min 0 pnl) / e == frac.
Proof.
  intros He Hf Hp.
  assert (Hmin : Py.min 0 pnl == pnl).
  { unfold Py.min. destruct (Py.ltb pnl 0) eqn:E; [reflexivity|].
    unfold Py.ltb in E. apply negb_false_iff in E. apply Qle_bool_iff in E.
    assert (0 <= frac * e) by (apply Qmult_le_0_compat; lra). lra. }
  unfold Py.abs. rewrite Hmin, Hp.
  assert (0 <= frac * e) by (apply Qmult_le_0_compat; lra).
  rewrite Qabs_opp, Qabs_pos by assumption.
  field. lra.
Qed.

(** C5, as stated, fails on the live risk manager: the day's loss is
    measured against the equity at the start of the day, not the current
    equity.  After a loss of 295 on 10000 the loss is above 3% of the
    current equity (9705), no breaker is active and no trade is open, and
    the same-day check still admits. *)
Lemma C5_live_uses_day_start_equity :
  RiskManager.circuit_breaker_active after_losing_trade = false
  /\ (RiskManager.open_trade_count after_losing_trade
      < RiskManager.max_open_trades after_losing_trade)%Z
  /\ RiskManager.current_equity after_losing_trade == 9705
  /\ RiskManager.max_daily_loss after_losing_trade
     <= Py.abs (Py.min 0 (RiskManager.daily_pnl after_losing_trade))
        / RiskManager.current_equity after_losing_trade
  /\ fst (RiskManager.can_trade 0 after_losing_trade) = true.
Proof.
  repeat split; try (intro H; vm_compute in H; discriminate H).
Qed.

(** C5 (amended): each admission check rejects exactly when the breaker is
    active, or the open count has reached the limit, or its denominator is
    positive and the day's loss over that denominator has reached the
    limit.  The denominator is the current equity in the backtest and in
    [LiveTrader._can_trade], and the equity at the start of the day in
    [RiskManager.can_trade] (which first rolls the daily window).  A
    same-day loss of 3.5% of the denominator with a 3% limit is rejected;
    after the date rolls over the check admits when no breaker is active
    and a slot is free. *)
Theorem C5_admission_check :
  (forall params s,
      Backtester._can_open_trade params s = false
      <-> (Backtester.circuit_breaker_active s = true
           \/ (Backtester.max_open_trades params
               <= Z.of_nat (List.length (Backtester.positions s)))%Z
           \/ (0 < Backtester.equity s
               /\ Backtester.max_daily_loss params
                  <= Py.abs (Py.min 0 (Backtester.daily_pnl s))
                     / Backtester.equity s)))
  /\ (forall s,
         LiveTrader._can_trade s = false
         <-> (LiveTrader.circuit_breaker s = true
              \/ (Config.MAX_OPEN_TRADES
                  <= Z.of_nat (List.length (LiveTrader.positions s)))%Z
              \/ (0 < LiveTrader.current_equity s
                  /\ Config.MAX_DAILY_LOSS
                     <= Py.abs (Py.min 0 (LiveTrader.daily_pnl s))
                        / LiveTrader.current_equity s)))
  /\ (forall now s,
         let s1 := RiskManager._update_daily_tracking now s in
         snd (RiskManager.can_trade now s) = s1
         /\ (fst (RiskManager.can_trade now s) = false
             <-> (RiskManager.circuit_breaker_active s1 = true
                  \/ (RiskManager.max_open_trades s1
                      <= RiskManager.open_trade_count s1)%Z
                  \/ (0 < RiskManager.daily_start_equity s1
                      /\ RiskManager.max_daily_loss s1
                         <= Py.abs (Py.min 0 (RiskManager.daily_pnl s1))
                            / RiskManager.daily_start_equity s1))))
  (* Scenario E, backtest *)
  /\ (forall params s ts,
         Backtester.max_daily_loss params == 3 # 100 ->
         0 < Backtester.equity s ->
         Backtester.daily_pnl s == - ((35 # 1000) * Backtester.equity s) ->
         Backtester._can_open_trade params s = false
         /\ (Backtester.current_date s <> Some (Backtester.date_of ts) ->
             Backtester.circuit_breaker_active s = false ->
             (Z.of_nat (List.length (Backtester.positions s))
              < Backtester.max_open_trades params)%Z ->
             Backtester._can_open_trade
               params (Backtester._update_daily_tracking ts s) = true))
  (* Scenario E, live risk manager *)
  /\ (forall s today tomorrow,
         RiskManager.max_daily_loss s == 3 # 100 ->
         RiskManager.current_date s = Some today ->
         0 < RiskManager.daily_start_equity s ->
         RiskManager.daily_pnl s
         == - ((35 # 1000) * RiskManager.daily_start_equity s) ->
         fst (RiskManager.can_trade today s) = false
         /\ (tomorrow <> today ->
             RiskManager.circuit_breaker_active s = false ->
             (RiskManager.open_trade_count s
              < RiskManager.max_open_trades s)%Z ->
             fst (RiskManager.can_trade tomorrow s) = true)).
Proof.
  split; [|split; [|split; [|split]]].
  - intros params s. unfold Backtester._can_open_trade.
    destruct (Backtester.circuit_breaker_active s);
      [split; auto|].
    destruct (Z.geb_spec (Z.of_nat (List.length (Backtester.positions s)))
                         (Backtester.max_open_trades params)) as [Hn|Hn];
      [split; auto|].
    destruct (Py.gtb (Backtester.equity s) 0) eqn:He.
    + apply gtb_true in He.
      destruct (Py.geb _ (Backtester.max_daily_loss params)) eqn:Hl.
      * apply geb_true in Hl. split; auto.
      * apply geb_false in Hl. split; [discriminate|].
        intros [H|[H|[_ H]]]; [discriminate | lia |].
        exfalso. apply (Qlt_not_le _ _ Hl H).
    + apply gtb_false in He. split; [discriminate|].
      intros [H|[H|[H _]]]; [discriminate | lia |].
      exfalso. apply (Qlt_not_le _ _ H He).
  - intros s. unfold LiveTrader._can_trade.
    destruct (LiveTrader.circuit_breaker s);
      [split; auto|].
    destruct (Z.geb_spec (Z.of_nat (List.length (LiveTrader.positions s)))
                         Config.MAX_OPEN_TRADES) as [Hn|Hn];
      [split; auto|].
    destruct (Py.gtb (LiveTrader.current_equity s) 0) eqn:He.
    + apply gtb_true in He.
      destruct (Py.geb _ Config.MAX_DAILY_LOSS) eqn:Hl.
      * apply geb_true in Hl. split; auto.
      * apply geb_false in Hl. split; [discriminate|].
        intros [H|[H|[_ H]]]; [discriminate | lia |].
        exfalso. apply (Qlt_not_le _ _ Hl H).
    + apply gtb_false in He. split; [discriminate|].
      intros [H|[H|[H _]]]; [discriminate | lia |].
      exfalso. apply (Qlt_not_le _ _ H He).
  - intros now s s1. unfold RiskManager.can_trade. fold s1.
    destruct (RiskManager.circuit_breaker_active s1);
      [split; [reflexivity | split; auto]|].
    destruct (Z.geb_spec (RiskManager.open_trade_count s1)
                         (RiskManager.max_open_trades s1)) as [Hn|Hn];
      [split; [reflexivity | split; auto]|].
    destruct (Py.gtb (RiskManager.daily_start_equity s1) 0) eqn:He.
    + apply gtb_true in He.
      destruct (Py.geb _ (RiskManager.max_daily_loss s1)) eqn:Hl.
      * apply geb_true in Hl. split; [reflexivity | split; auto].
      * apply geb_false in Hl. split; [reflexivity|].
        split; [discriminate|].
        intros [H|[H|[_ H]]]; [discriminate | lia |].
        exfalso. apply (Qlt_not_le _ _ Hl H).
    + apply gtb_false in He. split; [reflexivity|].
      split; [discriminate|].
      intros [H|[H|[H _]]]; [discriminate | lia |].
      exfalso. apply (Qlt_not_le _ _ H He).
  - intros params s ts Hm He Hp. split.
    + unfold Backtester._can_open_trade.
      destruct (Backtester.circuit_breaker_active s); [reflexivity|].
      destruct (Z.of_nat (List.length (Backtester.positions s))
                >=? Backtester.max_open_trades params)%Z; [reflexivity|].
      assert (Hg : Py.gtb (Backtester.equity s) 0 = true)
        by (apply gtb_true; exact He).
      rewrite Hg.
      assert (Hl : Py.geb (Py.abs (Py.min 0 (Backtester.daily_pnl s))
                           / Backtester.equity s)
                          (Backtester.max_daily_loss params) = true).
      { apply geb_true. rewrite (loss_ratio _ _ (35 # 1000)); lra. }
      rewrite Hl. reflexivity.
    + intros Hdate Hcb Hn.
      assert (Hroll : Backtester._update_daily_tracking ts s
                      = Backtester.mkState
                          (Backtester.cash s) (Backtester.equity s)
                          (Backtester.peak_equity s) (Backtester.positions s)
                          (Backtester.trades s) (Backtester.equity_curve s)
                          (Backtester.circuit_breaker_active s)
                          (Some (Backtester.date_of ts)) 0).
      { unfold Backtester._update_daily_tracking.
        destruct (Backtester.current_date s) as [d0|]; [|reflexivity].
        destruct (Z.eqb_spec (Backtester.date_of ts) d0) as [E|E];
          [|reflexivity].
        exfalso. apply Hdate. rewrite E. reflexivity. }
      rewrite Hroll. unfold Backtester._can_open_trade.
      cbn [Backtester.circuit_breaker_active Backtester.positions
           Backtester.equity Backtester.daily_pnl].
      rewrite Hcb.
      destruct (Z.geb_spec (Z.of_nat (List.length (Backtester.positions s)))
                           (Backtester.max_open_trades params)); [lia|].
      destruct (Py.gtb (Backtester.equity s) 0); [|reflexivity].
      rewrite zero_ratio_below by lra. reflexivity.
  - intros s today tomorrow Hm Hd He Hp. split.
    + unfold RiskManager.can_trade, RiskManager._update_daily_tracking.
      rewrite Hd, Z.eqb_refl. cbn [negb].
      destruct (RiskManager.circuit_breaker_active s); [reflexivity|].
      destruct (RiskManager.open_trade_count s
                >=? RiskManager.max_open_trades s)%Z; [reflexivity|].
      assert (Hg : Py.gtb (RiskManager.daily_start_equity s) 0 = true)
        by (apply gtb_true; exact He).
      rewrite Hg.
      assert (Hl : Py.geb (Py.abs (Py.min 0 (RiskManager.daily_pnl s))
                           / RiskManager.daily_start_equity s)
                          (RiskManager.max_daily_loss s) = true).
      { apply geb_true. rewrite (loss_ratio _ _ (35 # 1000)); lra. }
      rewrite Hl. reflexivity.
    + intros Hne Hcb Hn.
      unfold RiskManager.can_trade, RiskManager._update_daily_tracking.
      rewrite Hd.
      destruct (Z.eqb_spec tomorrow today) as [E|E]; [contradiction|].
      cbn [negb RiskManager.with_daily RiskManager.circuit_breaker_active
           RiskManager.open_trade_count RiskManager.max_open_trades
           RiskManager.daily_start_equity RiskManager.daily_pnl
           RiskManager.max_daily_loss].
      rewrite Hcb.
      destruct (Z.geb_spec (RiskManager.open_trade_count s)
                           (RiskManager.max_open_trades s)); [lia|].
      destruct (Py.gtb (RiskManager.current_equity s) 0); [|reflexivity].
      rewrite zero_ratio_below by lra. reflexivity.
Qed.

Lemma C5_admission_check_witness :
  Backtester._can_open_trade Backtester.default_params scenario_E_state
  = false
  /\ Backtester._can_open_trade
       Backtester.default_params
       (Backtester._update_daily_tracking 86400 scenario_E_state) = true.
Proof.
  destruct C5_admission_check as [_ [_ [_ [Hsim _]]]].
  destruct (Hsim Backtester.default_params scenario_E_state 86400%Z)
    as [Hrej Hadm].
  - reflexivity.
  - reflexivity.
  - reflexivity.
  - split; [exact Hrej|]. apply Hadm.
    + discriminate.
    + reflexivity.
    + reflexivity.
Defined.

(** ** What each step of a candle leaves unchanged *)

Lemma udt_frame ts s :
  let s' := Backtester._update_daily_tracking ts s in
  Backtester.cash s' = Backtester.cash s
  /\ Backtester.equity s' = Backtester.equity s
  /\ Backtester.peak_equity s' = Backtester.peak_equity s
  /\ Backtester.positions s' = Backtester.positions s
  /\ Backtester.circuit_breaker_active s'
     = Backtester.circuit_breaker_active s.
Proof.
  unfold Backtester._update_daily_tracking.
  destruct (Backtester.current_date s) as [d0|]; cbn zeta.
  - destruct (negb (Backtester.date_of ts =? d0)%Z); repeat split.
  - repeat split.
Qed.

Lemma exits_loop_frame params row idx ps s closed :
  let s' := fst (Backtester.exits_loop params row idx ps s closed) in
  Backtester.equity s' = Backtester.equity s
  /\ Backtester.peak_equity s' = Backtester.peak_equity s
  /\ Backtester.circuit_breaker_active s'
     = Backtester.circuit_breaker_active s.
Proof.
  revert idx s closed. induction ps as [|pos rest IH]; intros idx s closed.
  - repeat split.
  - cbn [Backtester.exits_loop].
    destruct (Backtester.exit_trigger row pos) as [[trigger side]|].
    + destruct (IH (S idx) (Backtester.close_on_exit params row pos trigger
                                                    side s)
                   (closed ++ [idx])) as [H1 [H2 H3]].
      cbn zeta. rewrite H1, H2, H3. repeat split.
    + apply IH.
Qed.

Lemma check_exits_frame params row s :
  let s' := Backtester._check_exits params row s in
  Backtester.equity s' = Backtester.equity s
  /\ Backtester.peak_equity s' = Backtester.peak_equity s
  /\ Backtester.circuit_breaker_active s'
     = Backtester.circuit_breaker_active s.
Proof.
  unfold Backtester._check_exits.
  pose proof (exits_loop_frame params row 0 (Backtester.positions s) s [])
    as H.
  destruct (Backtester.exits_loop params row 0 (Backtester.positions s) s [])
    as [s1 closed].
  exact H.
Qed.

Lemma check_breaker_frame params s :
  let s' := Backtester._check_circuit_breaker params s in
  Backtester.cash s' = Backtester.cash s
  /\ Backtester.equity s' = Backtester.equity s
  /\ Backtester.peak_equity s' = Backtester.peak_equity s
  /\ Backtester.positions s' = Backtester.positions s
  /\ Backtester.trades s' = Backtester.trades s
  /\ Backtester.daily_pnl s' = Backtester.daily_pnl s.
Proof.
  unfold Backtester._check_circuit_breaker.
  destruct (Py.gtb (Backtester.peak_equity s) 0); [|repeat split].
  destruct (Py.geb _ _); [|repeat split].
  destruct (negb (Backtester.circuit_breaker_active s)); repeat split.
Qed.

(** [_try_open_position] either leaves the state as it is, or is one
    [open_with]. *)
Lemma try_open_cases params row s :
  Backtester._try_open_position params row s = s
  \/ (Backtester._can_open_trade params s = true
      /\ exists entry tp sl qty,
          Backtester._try_open_position params row s
          = Backtester.open_with params row entry tp sl qty s).
Proof.
  unfold Backtester._try_open_position.
  destruct (Backtester._can_open_trade params s); [|left; reflexivity].
  cbn [negb].
  destruct (Py.leb _ 0); [left; reflexivity|].
  destruct (Py.gtb _ (Backtester.cash s)).
  - destruct (Py.leb _ 0); [left; reflexivity|].
    right. split; [reflexivity|]. eauto.
  - right. split; [reflexivity|]. eauto.
Qed.

Lemma try_open_frame params row s :
  let s' := Backtester._try_open_position params row s in
  Backtester.equity s' = Backtester.equity s
  /\ Backtester.peak_equity s' = Backtester.peak_equity s
  /\ Backtester.circuit_breaker_active s'
     = Backtester.circuit_breaker_active s.
Proof.
  destruct (try_open_cases params row s) as [E|[_ [entry [tp [sl [qty E]]]]]];
    cbn zeta; rewrite E; repeat split.
Qed.

Lemma check_breaker_flag params s :
  Backtester.circuit_breaker_active (Backtester._check_circuit_breaker params s)
  = Backtester.circuit_breaker_active s || drawdown_reached params s.
Proof.
  unfold Backtester._check_circuit_breaker, drawdown_reached.
  destruct (Py.gtb (Backtester.peak_equity s) 0); cbn [andb].
  - destruct (Py.geb _ _).
    + destruct (Backtester.circuit_breaker_active s) eqn:E; cbn [negb];
        [exact E | reflexivity].
    + rewrite orb_false_r. reflexivity.
  - rewrite orb_false_r. reflexivity.
Qed.

Lemma process_row_flag params s row :
  Backtester.circuit_breaker_active (Backtester.process_row params s row)
  = Backtester.circuit_breaker_active s || drawdown_reached params s.
Proof.
  unfold Backtester.process_row.
  cbn [Backtester.record_equity Backtester._update_equity
       Backtester.circuit_breaker_active].
  assert (H3 : Backtester.circuit_breaker_active
                 (Backtester._check_circuit_breaker
                    params
                    (Backtester._check_exits
                       params row
                       (Backtester._update_daily_tracking
                          (Backtester.timestamp row) s)))
               = Backtester.circuit_breaker_active s
                 || drawdown_reached params s).
  { rewrite check_breaker_flag. unfold drawdown_reached.
    destruct (check_exits_frame
                params row
                (Backtester._update_daily_tracking (Backtester.timestamp row)
                                                   s)) as [E1 [E2 E3]].
    destruct (udt_frame (Backtester.timestamp row) s)
      as [_ [F1 [F2 [_ F3]]]].
    rewrite E1, E2, E3, F1, F2, F3. reflexivity. }
  destruct (Backtester.signal row =? 1)%Z; [|exact H3].
  rewrite (proj2 (proj2 (try_open_frame params row _))). exact H3.
Qed.

Lemma run_loop_app params s df1 df2 :
  Backtester.run_loop params s (df1 ++ df2)
  = Backtester.run_loop params (Backtester.run_loop params s df1) df2.
Proof. unfold Backtester.run_loop. apply fold_left_app. Qed.

(** ** The breaker's timing (C7) *)

(** C7, as stated, fails: on the candle whose mark-to-market first brings
    the equity to 9000 or less (the third, at 8900 from a peak of 10000)
    the breaker is still off, also when the run ends there; it is set on
    the candle after it. *)
Lemma C7_breaker_trips_one_candle_later :
  Backtester.peak_equity (scenario_B_after 3) == 10000
  /\ Backtester.equity (scenario_B_after 2) == 9500
  /\ Backtester.equity (scenario_B_after 3) == 8900
  /\ Backtester.circuit_breaker_active (scenario_B_after 3) = false
  /\ Backtester.circuit_breaker_active
       (Backtester.run scenario_B_params (firstn 3 scenario_B_rows)) = false
  /\ Backtester.circuit_breaker_active (scenario_B_after 4) = true.
Proof.
  repeat split.
Qed.

(** C7 (amended): the breaker is evaluated before the candle's
    mark-to-market, on the equity and peak recorded at the end of the
    previous candle: after a candle it is active exactly when it was active
    before or that recorded drawdown had reached the threshold.  In
    Scenario B (threshold 0.10, peak 10000) it becomes true on the candle
    after the one whose mark-to-market first brings equity to 9000 or
    less. *)
Theorem C7_breaker_timing :
  (forall params s row,
      Backtester.circuit_breaker_active (Backtester.process_row params s row)
      = Backtester.circuit_breaker_active s || drawdown_reached params s)
  /\ (forall params df row,
         let before :=
           Backtester.run_loop params (Backtester._reset params) df in
         Backtester.circuit_breaker_active
           (Backtester.run_loop params (Backtester._reset params)
                                (df ++ [row]))
         = Backtester.circuit_breaker_active before
           || drawdown_reached params before)
  /\ (9000 < Backtester.equity (scenario_B_after 2)
      /\ Backtester.equity (scenario_B_after 3) <= 9000
      /\ Backtester.circuit_breaker_active (scenario_B_after 3) = false
      /\ Backtester.circuit_breaker_active (scenario_B_after 4) = true).
Proof.
  split; [|split].
  - apply process_row_flag.
  - intros params df row before. rewrite run_loop_app.
    unfold Backtester.run_loop at 1. cbn [fold_left].
    apply process_row_flag.
  - repeat split; intro H; vm_compute in H; discriminate H.
Qed.

(** ** The breaker as a latch (C2) *)

Lemma force_close_fold_frame params row ps s :
  let s' := fold_left (Backtester.force_close params row) ps s in
  Backtester.equity s' = Backtester.equity s
  /\ Backtester.peak_equity s' = Backtester.peak_equity s
  /\ Backtester.circuit_breaker_active s'
     = Backtester.circuit_breaker_active s.
Proof.
  revert s. induction ps as [|pos rest IH]; intro s.
  - repeat split.
  - cbn [fold_left]. destruct (IH (Backtester.force_close params row s pos))
      as [H1 [H2 H3]].
    cbn zeta. rewrite H1, H2, H3. repeat split.
Qed.

Lemma can_open_blocked params s :
  Backtester.circuit_breaker_active s = true ->
  Backtester._can_open_trade params s = false.
Proof.
  intro H. unfold Backtester._can_open_trade. rewrite H. reflexivity.
Qed.

Lemma try_open_blocked params row s :
  Backtester.circuit_breaker_active s = true ->
  Backtester._try_open_position params row s = s.
Proof.
  intro H. unfold Backtester._try_open_position.
  rewrite (can_open_blocked params s H). reflexivity.
Qed.

Lemma process_row_blocked params s row :
  Backtester.circuit_breaker_active s = true ->
  Backtester.process_row params s row
  = process_row_without_entry params s row.
Proof.
  intro H. unfold Backtester.process_row, process_row_without_entry.
  destruct (Backtester.signal row =? 1)%Z; [|reflexivity].
  rewrite try_open_blocked; [reflexivity|].
  rewrite check_breaker_flag.
  rewrite (proj2 (proj2 (check_exits_frame params row _))).
  rewrite (proj2 (proj2 (proj2 (proj2 (udt_frame _ s))))).
  rewrite H. reflexivity.
Qed.

Lemma process_row_latched params s row :
  Backtester.circuit_breaker_active s = true ->
  Backtester.circuit_breaker_active (Backtester.process_row params s row)
  = true.
Proof. intro H. rewrite process_row_flag, H. reflexivity. Qed.

Lemma run_loop_latched params s df :
  Backtester.circuit_breaker_active s = true ->
  Backtester.circuit_breaker_active (Backtester.run_loop params s df) = true
  /\ Backtester.run_loop params s df
     = fold_left (process_row_without_entry params) df s.
Proof.
  revert s. induction df as [|row df IH]; intros s H.
  - split; [exact H | reflexivity].
  - unfold Backtester.run_loop in *. cbn [fold_left].
    destruct (IH (Backtester.process_row params s row)
                 (process_row_latched params s row H)) as [H1 H2].
    split; [exact H1|]. rewrite H2, (process_row_blocked params s row H).
    reflexivity.
Qed.

Lemma close_all_flag params row s :
  Backtester.circuit_breaker_active (Backtester._close_all_positions params row s)
  = Backtester.circuit_breaker_active s.
Proof.
  unfold Backtester._close_all_positions.
  cbn [Backtester.circuit_breaker_active].
  apply (force_close_fold_frame params row (Backtester.positions s) s).
Qed.

Lemma run_flag params df :
  Backtester.circuit_breaker_active (Backtester.run params df)
  = Backtester.circuit_breaker_active
      (Backtester.run_loop params (Backtester._reset params) df).
Proof.
  unfold Backtester.run. destruct df as [|r rest]; [reflexivity|].
  apply close_all_flag.
Qed.

(** C2: [_check_circuit_breaker] sets the flag when the drawdown from a
    positive peak has reached the threshold (and otherwise leaves it);
    every operation of a run keeps a set flag set; with the flag set the
    admission check is false and the entry step does nothing, so from the
    candle that trips it to the end of the run no position is opened. *)
Theorem C2_breaker_latch :
  (* set at the threshold *)
  (forall params s,
      0 < Backtester.peak_equity s ->
      Backtester.circuit_breaker_dd params
      <= (Backtester.peak_equity s - Backtester.equity s)
         / Backtester.peak_equity s ->
      Backtester.circuit_breaker_active
        (Backtester._check_circuit_breaker params s) = true)
  /\ (forall params s,
         Backtester.circuit_breaker_active
           (Backtester._check_circuit_breaker params s)
         = Backtester.circuit_breaker_active s || drawdown_reached params s)
  (* never cleared by an operation of the run *)
  /\ (forall params s row,
         Backtester.circuit_breaker_active s = true ->
         Backtester.circuit_breaker_active
           (Backtester._update_daily_tracking (Backtester.timestamp row) s)
         = true
         /\ Backtester.circuit_breaker_active
              (Backtester._check_exits params row s) = true
         /\ Backtester.circuit_breaker_active
              (Backtester._check_circuit_breaker params s) = true
         /\ Backtester.circuit_breaker_active
              (Backtester._try_open_position params row s) = true
         /\ Backtester.circuit_breaker_active
              (Backtester._update_equity row s) = true
         /\ Backtester.circuit_breaker_active
              (Backtester.process_row params s row) = true
         /\ Backtester.circuit_breaker_active
              (Backtester._close_all_positions params row s) = true)
  (* no admission while set *)
  /\ (forall params s row,
         Backtester.circuit_breaker_active s = true ->
         Backtester._can_open_trade params s = false
         /\ Backtester._try_open_position params row s = s
         /\ Backtester.process_row params s row
            = process_row_without_entry params s row)
  (* for the remainder of the run *)
  /\ (forall params df1 df2,
         let tripped :=
           Backtester.run_loop params (Backtester._reset params) df1 in
         let later :=
           Backtester.run_loop params (Backtester._reset params)
                               (df1 ++ df2) in
         Backtester.circuit_breaker_active tripped = true ->
         Backtester.circuit_breaker_active later = true
         /\ Backtester._can_open_trade params later = false
         /\ later = fold_left (process_row_without_entry params) df2 tripped
         /\ Backtester.circuit_breaker_active
              (Backtester.run params (df1 ++ df2)) = true)
  (* the live risk manager latches in the same way *)
  /\ (forall rm now e pnl,
         RiskManager.circuit_breaker_active rm = true ->
         fst (RiskManager.can_trade now rm) = false
         /\ RiskManager.circuit_breaker_active
              (snd (RiskManager.can_trade now rm)) = true
         /\ RiskManager.circuit_breaker_active
              (RiskManager.update_equity e rm) = true
         /\ RiskManager.circuit_breaker_active
              (RiskManager.record_trade_pnl pnl rm) = true
         /\ RiskManager.circuit_breaker_active
              (RiskManager.trade_opened rm) = true
         /\ RiskManager.circuit_breaker_active
              (RiskManager.trade_closed rm) = true)
  (* what clears it: the reset that starts a run, the operator's reset *)
  /\ (forall params s f,
         Backtester.circuit_breaker_active (Backtester._reset params) = false
         /\ LiveTrader.circuit_breaker (fst (LiveTrader.reset_state s f))
            = false).
Proof.
  split; [|split; [|split; [|split; [|split; [|split]]]]].
  - intros params s Hp Hd. rewrite check_breaker_flag.
    unfold drawdown_reached.
    apply gtb_true in Hp. apply geb_true in Hd. rewrite Hp, Hd.
    apply orb_true_r.
  - apply check_breaker_flag.
  - intros params s row H. repeat split.
    + rewrite (proj2 (proj2 (proj2 (proj2 (udt_frame _ s))))). exact H.
    + rewrite (proj2 (proj2 (check_exits_frame params row s))). exact H.
    + rewrite check_breaker_flag, H. reflexivity.
    + rewrite (proj2 (proj2 (try_open_frame params row s))). exact H.
    + exact H.
    + apply process_row_latched. exact H.
    + rewrite close_all_flag. exact H.
  - intros params s row H. repeat split.
    + apply can_open_blocked. exact H.
    + apply try_open_blocked. exact H.
    + apply process_row_blocked. exact H.
  - intros params df1 df2 tripped later H.
    assert (E : later = Backtester.run_loop params tripped df2)
      by (unfold later, tripped; apply run_loop_app).
    destruct (run_loop_latched params tripped df2 H) as [H1 H2].
    rewrite <- E in H1, H2.
    repeat split.
    + exact H1.
    + apply can_open_blocked. exact H1.
    + exact H2.
    + rewrite run_flag. exact H1.
  - intros rm now e pnl H.
    assert (Hd : RiskManager.circuit_breaker_active
                   (RiskManager._update_daily_tracking now rm) = true).
    { unfold RiskManager._update_daily_tracking.
      destruct (RiskManager.current_date rm) as [d0|];
        [destruct (negb (now =? d0)%Z)|]; exact H. }
    assert (Hb : forall r, RiskManager.circuit_breaker_active r = true ->
                           RiskManager.circuit_breaker_active
                             (RiskManager._check_circuit_breaker r) = true).
    { intros r Hr. unfold RiskManager._check_circuit_breaker.
      destruct (Py.leb (RiskManager.peak_equity r) 0); [exact Hr|].
      rewrite Hr, andb_false_r. exact Hr. }
    unfold RiskManager.can_trade. rewrite Hd. cbn [fst snd].
    repeat split; try exact Hd; try exact H.
    apply Hb. exact H.
  - intros params s f. split; reflexivity.
Qed.

Lemma C2_breaker_latch_witness :
  Backtester.circuit_breaker_active
    (Backtester._check_circuit_breaker scenario_B_params (scenario_B_after 3))
  = true
  /\ Backtester._can_open_trade scenario_B_params (scenario_B_after 4) = false.
Proof.
  destruct C2_breaker_latch as [Hset [_ [_ [Hblock _]]]].
  split.
  - apply (Hset scenario_B_params (scenario_B_after 3)).
    + reflexivity.
    + vm_compute. discriminate.
  - apply (Hblock scenario_B_params (scenario_B_after 4)
                  (Backtester.mkRow 240 89 89 89 89 1)).
    reflexivity.
Defined.

(** ** The limit on open positions (C1): backtest *)

Lemma pops_length {A : Type} (idxs : list nat) (l : list A) :
  (List.length (fold_left (fun l idx => Py.pop idx l) idxs l)
   <= List.length l)%nat.
Proof.
  revert l. induction idxs as [|i idxs IH]; intro l; cbn [fold_left].
  - lia.
  - specialize (IH (Py.pop i l)). pose proof (pop_length i l). lia.
Qed.

Lemma check_exits_length params row s :
  (List.length (Backtester.positions (Backtester._check_exits params row s))
   <= List.length (Backtester.positions s))%nat.
Proof.
  unfold Backtester._check_exits.
  pose proof (exits_loop_positions params row 0 (Backtester.positions s) s [])
    as H.
  destruct (Backtester.exits_loop params row 0 (Backtester.positions s) s [])
    as [s1 closed].
  cbn [fst] in H. cbn [Backtester.with_positions Backtester.positions].
  unfold Backtester.pop_closed. rewrite H. apply pops_length.
Qed.

Lemma can_open_has_slot params s :
  Backtester._can_open_trade params s = true ->
  (Z.of_nat (List.length (Backtester.positions s))
   < Backtester.max_open_trades params)%Z.
Proof.
  unfold Backtester._can_open_trade.
  destruct (Backtester.circuit_breaker_active s); [discriminate|].
  destruct (Z.geb_spec (Z.of_nat (List.length (Backtester.positions s)))
                       (Backtester.max_open_trades params));
    [discriminate | lia].
Qed.

(** The entry step opens nothing, or it had a free slot and appends exactly
    one position. *)
Lemma try_open_positions params row s :
  Backtester.positions (Backtester._try_open_position params row s)
  = Backtester.positions s
  \/ ((Z.of_nat (List.length (Backtester.positions s))
       < Backtester.max_open_trades params)%Z
      /\ exists pos,
          Backtester.positions (Backtester._try_open_position params row s)
          = Backtester.positions s ++ [pos]).
Proof.
  destruct (try_open_cases params row s)
    as [E|[Hcan [entry [tp [sl [qty E]]]]]]; rewrite E.
  - left. reflexivity.
  - right. split; [apply can_open_has_slot; exact Hcan|].
    eexists. reflexivity.
Qed.

Lemma try_open_within_limit params row s :
  within_limit params s ->
  within_limit params (Backtester._try_open_position params row s).
Proof.
  unfold within_limit. intro H.
  destruct (try_open_positions params row s) as [E|[Hslot [pos E]]];
    rewrite E; [exact H|].
  rewrite length_app. cbn [List.length]. lia.
Qed.

Lemma process_row_within_limit params s row :
  within_limit params s ->
  within_limit params (Backtester.process_row params s row).
Proof.
  unfold within_limit. intro H. unfold Backtester.process_row.
  cbn [Backtester.record_equity Backtester._update_equity
       Backtester.positions].
  assert (H3 : within_limit
                 params
                 (Backtester._check_circuit_breaker
                    params
                    (Backtester._check_exits
                       params row
                       (Backtester._update_daily_tracking
                          (Backtester.timestamp row) s)))).
  { unfold within_limit.
    rewrite (proj1 (proj2 (proj2 (proj2 (check_breaker_frame params _))))).
    pose proof (check_exits_length
                  params row
                  (Backtester._update_daily_tracking
                     (Backtester.timestamp row) s)) as Hx.
    rewrite (proj1 (proj2 (proj2 (proj2 (udt_frame _ s))))) in Hx.
    lia. }
  destruct (Backtester.signal row =? 1)%Z; [|exact H3].
  apply try_open_within_limit. exact H3.
Qed.

Lemma run_loop_within_limit params s df :
  within_limit params s ->
  within_limit params (Backtester.run_loop params s df).
Proof.
  revert s. induction df as [|row df IH]; intros s H.
  - exact H.
  - unfold Backtester.run_loop in *. cbn [fold_left].
    apply IH. apply process_row_within_limit. exact H.
Qed.

(** ** The limit on open positions (C1): live order manager *)

Lemma mark_closed_ids pid ps : ids (OrderManager.mark_closed pid ps) = ids ps.
Proof.
  unfold ids, OrderManager.mark_closed. rewrite map_map.
  apply map_ext. intro p.
  destruct (OrderManager.position_id p =? pid)%Z; reflexivity.
Qed.

Lemma mark_closed_absent pid ps :
  ~ In pid (ids ps) -> OrderManager.mark_closed pid ps = ps.
Proof.
  induction ps as [|q ps IH]; intro H; [reflexivity|].
  cbn [OrderManager.mark_closed map].
  destruct (Z.eqb_spec (OrderManager.position_id q) pid) as [E|E].
  - exfalso. apply H. left. exact E.
  - f_equal. apply IH. intro Hin. apply H. right. exact Hin.
Qed.

Lemma mark_closed_other pid ps q :
  In q ps -> OrderManager.position_id q <> pid ->
  In q (OrderManager.mark_closed pid ps).
Proof.
  intros Hin Hne. unfold OrderManager.mark_closed. apply in_map_iff.
  exists q. split; [|exact Hin].
  destruct (Z.eqb_spec (OrderManager.position_id q) pid);
    [contradiction | reflexivity].
Qed.

Lemma mark_closed_count p ps :
  NoDup (ids ps) -> In p ps -> OrderManager.status p = OrderManager.OPEN ->
  (open_count (OrderManager.mark_closed (OrderManager.position_id p) ps) + 1
   = open_count ps)%nat.
Proof.
  induction ps as [|q ps IH]; intros Hnd Hin Hop; [destruct Hin|].
  cbn [ids map] in Hnd. apply NoDup_cons_iff in Hnd. destruct Hnd as [Hq Hnd].
  unfold open_count in *.
  cbn [OrderManager.mark_closed map filter].
  fold (OrderManager.mark_closed (OrderManager.position_id p) ps).
  destruct (Z.eqb_spec (OrderManager.position_id q)
                       (OrderManager.position_id p)) as [E|E].
  - assert (p = q) as <-.
    { destruct Hin as [Hin|Hin]; [symmetry; exact Hin|].
      exfalso. apply Hq. rewrite E. apply in_map. exact Hin. }
    cbn [OrderManager.status OrderManager.is_open]. rewrite Hop.
    cbn [OrderManager.is_open List.length].
    rewrite mark_closed_absent by exact Hq. lia.
  - destruct Hin as [Hin|Hin]; [exfalso; apply E; rewrite Hin; reflexivity|].
    specialize (IH Hnd Hin Hop).
    destruct (OrderManager.is_open (OrderManager.status q));
      cbn [List.length]; lia.
Qed.

Lemma nodup_ids_filter (g : OrderManager.LivePosition -> bool) ps :
  NoDup (ids ps) -> NoDup (ids (filter g ps)).
Proof.
  induction ps as [|q ps IH]; intro H; [constructor|].
  cbn [ids map] in H. apply NoDup_cons_iff in H. destruct H as [Hq Hnd].
  cbn [filter]. destruct (g q); [|apply IH; exact Hnd].
  cbn [ids map]. constructor; [|apply IH; exact Hnd].
  intro Hin. apply Hq. unfold ids in *. apply in_map_iff in Hin.
  destruct Hin as [x [Hx Hin]]. apply filter_In in Hin.
  apply in_map_iff. exists x. tauto.
Qed.

Lemma rm_check_breaker_frame s :
  RiskManager.open_trade_count (RiskManager._check_circuit_breaker s)
  = RiskManager.open_trade_count s
  /\ RiskManager.max_open_trades (RiskManager._check_circuit_breaker s)
     = RiskManager.max_open_trades s.
Proof.
  unfold RiskManager._check_circuit_breaker.
  destruct (Py.leb (RiskManager.peak_equity s) 0); [split; reflexivity|].
  destruct (_ && _); split; reflexivity.
Qed.

Lemma rm_update_equity_frame e s :
  RiskManager.open_trade_count (RiskManager.update_equity e s)
  = RiskManager.open_trade_count s
  /\ RiskManager.max_open_trades (RiskManager.update_equity e s)
     = RiskManager.max_open_trades s.
Proof.
  unfold RiskManager.update_equity.
  destruct (rm_check_breaker_frame
              (RiskManager.with_equity
                 e (Py.max (RiskManager.peak_equity s) e) s)) as [H1 H2].
  rewrite H1, H2. split; reflexivity.
Qed.

Lemma rm_daily_frame now s :
  RiskManager.open_trade_count (RiskManager._update_daily_tracking now s)
  = RiskManager.open_trade_count s
  /\ RiskManager.max_open_trades (RiskManager._update_daily_tracking now s)
     = RiskManager.max_open_trades s.
Proof.
  unfold RiskManager._update_daily_tracking.
  destruct (RiskManager.current_date s) as [d0|].
  - destruct (negb (now =? d0)%Z); split; reflexivity.
  - split; reflexivity.
Qed.

Lemma rm_can_trade_frame now s :
  snd (RiskManager.can_trade now s) = RiskManager._update_daily_tracking now s
  /\ (fst (RiskManager.can_trade now s) = true ->
      (RiskManager.open_trade_count s < RiskManager.max_open_trades s)%Z).
Proof.
  unfold RiskManager.can_trade.
  destruct (rm_daily_frame now s) as [H1 H2].
  destruct (RiskManager.circuit_breaker_active _);
    [split; [reflexivity | discriminate]|].
  rewrite H1, H2.
  destruct (Z.geb_spec (RiskManager.open_trade_count s)
                       (RiskManager.max_open_trades s));
    [split; [reflexivity | discriminate]|].
  destruct (Py.gtb _ 0).
  - destruct (Py.geb _ _); split; try reflexivity; try discriminate.
    intros _. lia.
  - split; [reflexivity | intros _; lia].
Qed.

Lemma close_position_inv v limit p reason price rest s :
  live_inv limit s -> closable (p :: rest) s ->
  live_inv limit (OrderManager._close_position v p reason price s)
  /\ closable rest (OrderManager._close_position v p reason price s).
Proof.
  intros Hinv [Hnd Hall].
  cbn [ids map] in Hnd. apply NoDup_cons_iff in Hnd.
  destruct Hnd as [Hp Hnd].
  destruct (Hall p (or_introl eq_refl)) as [Hin Hopen].
  unfold OrderManager._close_position.
  destruct (Execution.place_market_order
              v (OrderManager.symbol p) Execution.SELL
              (OrderManager.quantity p) (OrderManager.connector s))
    as [[[r|]|e] c1].
  - (* the sell order is filled *)
    destruct Hinv as [Hlim Hnodup Hfresh Hcount Hbound].
    pose proof (mark_closed_count p _ Hnodup Hin Hopen) as Hmc.
    split.
    + constructor; cbn [OrderManager.risk_manager OrderManager.positions
                        OrderManager._position_counter].
      * rewrite (proj2 (rm_update_equity_frame _ _)). exact Hlim.
      * rewrite mark_closed_ids. exact Hnodup.
      * intros q Hq. unfold OrderManager.mark_closed in Hq.
        apply in_map_iff in Hq. destruct Hq as [x [Hx Hxin]].
        specialize (Hfresh x Hxin).
        destruct (OrderManager.position_id x =? OrderManager.position_id p)%Z;
          subst q; exact Hfresh.
      * rewrite (proj1 (rm_update_equity_frame _ _)).
        cbn [RiskManager.record_trade_pnl RiskManager.with_daily
             RiskManager.trade_closed RiskManager.with_count
             RiskManager.open_trade_count].
        lia.
      * rewrite (proj1 (rm_update_equity_frame _ _)).
        cbn [RiskManager.record_trade_pnl RiskManager.with_daily
             RiskManager.trade_closed RiskManager.with_count
             RiskManager.open_trade_count].
        lia.
    + split; [exact Hnd|]. intros q Hq.
      destruct (Hall q (or_intror Hq)) as [Hqin Hqopen].
      split; [|exact Hqopen].
      cbn [OrderManager.positions]. apply mark_closed_other; [exact Hqin|].
      intro E. apply Hp. rewrite <- E. apply in_map. exact Hq.
  - (* no order document *)
    split.
    + destruct Hinv. constructor; assumption.
    + split; [exact Hnd|]. intros q Hq. apply Hall. right. exact Hq.
  - (* the sell order raised *)
    split.
    + destruct Hinv. constructor; assumption.
    + split; [exact Hnd|]. intros q Hq. apply Hall. right. exact Hq.
Qed.

Lemma closable_tail p rest s : closable (p :: rest) s -> closable rest s.
Proof.
  intros [Hnd Hall]. cbn [ids map] in Hnd. apply NoDup_cons_iff in Hnd.
  split; [apply Hnd|]. intros q Hq. apply Hall. right. exact Hq.
Qed.

Lemma check_loop_inv v limit symbol price todo s :
  live_inv limit s -> closable todo s ->
  live_inv limit (OrderManager.check_loop v symbol price todo s).
Proof.
  revert s. induction todo as [|p rest IH]; intros s Hinv Hcl.
  - exact Hinv.
  - cbn [OrderManager.check_loop].
    destruct (negb (String.eqb (OrderManager.symbol p) symbol)).
    + apply IH; [exact Hinv | apply (closable_tail p); exact Hcl].
    + destruct (OrderManager.close_reason price p) as [reason|].
      * destruct (close_position_inv v limit p reason price rest s Hinv Hcl)
          as [H1 H2].
        apply IH; assumption.
      * apply IH; [exact Hinv | apply (closable_tail p); exact Hcl].
Qed.

Lemma close_fold_inv v limit reason price todo s :
  live_inv limit s -> closable todo s ->
  live_inv limit
    (fold_left (fun st p => OrderManager._close_position v p reason price st)
               todo s).
Proof.
  revert s. induction todo as [|p rest IH]; intros s Hinv Hcl.
  - exact Hinv.
  - cbn [fold_left].
    destruct (close_position_inv v limit p reason price rest s Hinv Hcl)
      as [H1 H2].
    apply IH; assumption.
Qed.

Lemma open_positions_closable g s :
  live_inv (RiskManager.max_open_trades (OrderManager.risk_manager s)) s ->
  closable (filter g (OrderManager.open_positions s)) s.
Proof.
  intros Hinv. split.
  - apply nodup_ids_filter. unfold OrderManager.open_positions.
    apply nodup_ids_filter. apply (inv_nodup _ _ Hinv).
  - intros p Hp. apply filter_In in Hp. destruct Hp as [Hp _].
    unfold OrderManager.open_positions in Hp. apply filter_In in Hp.
    destruct Hp as [Hin Hop]. split; [exact Hin|].
    destruct (OrderManager.status p); [reflexivity | discriminate].
Qed.

Lemma filter_all {A : Type} (l : list A) : filter (fun _ => true) l = l.
Proof. induction l as [|x l IH]; [reflexivity|]. cbn [filter]. f_equal. exact IH. Qed.

Lemma open_count_snoc ps p :
  OrderManager.status p = OrderManager.OPEN ->
  open_count (ps ++ [p]) = S (open_count ps).
Proof.
  intro H. unfold open_count. rewrite filter_app, length_app.
  cbn [filter]. rewrite H. cbn [OrderManager.is_open List.length]. lia.
Qed.

Lemma open_position_inv v limit now now_ts symbol price s :
  live_inv limit s ->
  live_inv limit (snd (OrderManager.open_position v now now_ts symbol price s)).
Proof.
  intros [Hlim Hnodup Hfresh Hcount Hbound].
  unfold OrderManager.open_position.
  destruct (rm_can_trade_frame now (OrderManager.risk_manager s))
    as [Hsnd Hslot].
  destruct (RiskManager.can_trade now (OrderManager.risk_manager s))
    as [ok rm1].
  cbn [fst snd] in Hsnd, Hslot. subst rm1.
  destruct (rm_daily_frame now (OrderManager.risk_manager s)) as [D1 D2].
  assert (Hbase : live_inv limit
                    (OrderManager.with_risk
                       (RiskManager._update_daily_tracking
                          now (OrderManager.risk_manager s)) s)).
  { constructor; cbn [OrderManager.with_risk OrderManager.risk_manager
                      OrderManager.positions OrderManager._position_counter];
      try assumption; try (rewrite D2; assumption);
      rewrite D1; assumption. }
  destruct ok; cbn [negb]; [|exact Hbase].
  specialize (Hslot eq_refl).
  destruct (Py.leb _ 0); [exact Hbase|].
  cbn [OrderManager.with_risk OrderManager.connector].
  destruct (Execution.place_market_order _ _ _ _ _) as [[[r|]|e] c1];
    cbn [snd].
  - constructor;
      cbn [OrderManager.risk_manager OrderManager.positions
           OrderManager._position_counter OrderManager.with_risk
           RiskManager.trade_opened RiskManager.with_count
           RiskManager.max_open_trades RiskManager.open_trade_count].
    + rewrite D2. exact Hlim.
    + unfold ids. rewrite map_app. cbn [map OrderManager.position_id].
      apply NoDup_app.
      * exact Hnodup.
      * constructor; [intros []|constructor].
      * intros x Hx [Hx'|[]]. subst x.
        apply in_map_iff in Hx. destruct Hx as [q [Hq Hqin]].
        specialize (Hfresh q Hqin). lia.
    + intros q Hq. apply in_app_or in Hq. destruct Hq as [Hq|[Hq|[]]].
      * specialize (Hfresh q Hq). lia.
      * subst q. cbn [OrderManager.position_id]. lia.
    + rewrite open_count_snoc by reflexivity. rewrite D1. lia.
    + rewrite D1. lia.
  - destruct Hbase. constructor; assumption.
  - destruct Hbase. constructor; assumption.
Qed.

(** What one call of [open_position] does to the book. *)
Lemma open_position_result v now now_ts symbol price s :
  match OrderManager.open_position v now now_ts symbol price s with
  | (Some p, s') =>
      OrderManager.positions s' = OrderManager.positions s ++ [p]
      /\ OrderManager.status p = OrderManager.OPEN
      /\ RiskManager.open_trade_count (OrderManager.risk_manager s')
         = (RiskManager.open_trade_count (OrderManager.risk_manager s) + 1)%Z
      /\ (RiskManager.open_trade_count (OrderManager.risk_manager s)
          < RiskManager.max_open_trades (OrderManager.risk_manager s))%Z
  | (None, s') =>
      OrderManager.positions s' = OrderManager.positions s
      /\ RiskManager.open_trade_count (OrderManager.risk_manager s')
         = RiskManager.open_trade_count (OrderManager.risk_manager s)
  end.
Proof.
  unfold OrderManager.open_position.
  destruct (rm_can_trade_frame now (OrderManager.risk_manager s))
    as [Hsnd Hslot].
  destruct (RiskManager.can_trade now (OrderManager.risk_manager s))
    as [ok rm1].
  cbn [fst snd] in Hsnd, Hslot. subst rm1.
  destruct (rm_daily_frame now (OrderManager.risk_manager s)) as [D1 D2].
  destruct ok; cbn [negb];
    [|cbn [OrderManager.with_risk OrderManager.positions
           OrderManager.risk_manager]; split; [reflexivity | exact D1]].
  specialize (Hslot eq_refl).
  destruct (Py.leb _ 0);
    [cbn [OrderManager.with_risk OrderManager.positions
          OrderManager.risk_manager]; split; [reflexivity | exact D1]|].
  cbn [OrderManager.with_risk OrderManager.connector].
  destruct (Execution.place_market_order _ _ _ _ _) as [[[r|]|e] c1];
    cbn [OrderManager.with_connector OrderManager.with_risk
         OrderManager.positions OrderManager.risk_manager
         OrderManager.status RiskManager.trade_opened RiskManager.with_count
         RiskManager.open_trade_count];
    try (split; [reflexivity | exact D1]).
  repeat split; [rewrite D1; reflexivity | exact Hslot].
Qed.

Lemma call_inv v limit s c :
  live_inv limit s -> live_inv limit (OrderManager.call v s c).
Proof.
  intro Hinv. destruct c as [sy p|now now_ts sy p|sy p];
    cbn [OrderManager.call].
  - unfold OrderManager.check_tp_sl. apply check_loop_inv; [exact Hinv|].
    rewrite <- (filter_all (OrderManager.open_positions s)).
    apply open_positions_closable.
    rewrite (inv_limit _ _ Hinv). exact Hinv.
  - apply open_position_inv. exact Hinv.
  - unfold OrderManager.close_all_positions.
    apply close_fold_inv; [exact Hinv|].
    apply open_positions_closable.
    rewrite (inv_limit _ _ Hinv). exact Hinv.
Qed.

Lemma calls_inv v limit s cs :
  live_inv limit s -> live_inv limit (OrderManager.calls v s cs).
Proof.
  revert s. induction cs as [|c cs IH]; intros s Hinv.
  - exact Hinv.
  - unfold OrderManager.calls in *. cbn [fold_left].
    apply IH. apply call_inv. exact Hinv.
Qed.

Lemma open_positions_count s :
  List.length (OrderManager.open_positions s)
  = open_count (OrderManager.positions s).
Proof. reflexivity. Qed.

(** C1: with a non-negative [max_open_trades], the number of open
    positions never exceeds it.  In the backtest this holds after every
    candle of every run, after every step within a candle, and after the
    forced close; the entry step opens a position only when the count is
    strictly below the limit, and then exactly one.  In the live path the
    risk manager's counter equals the number of open positions of the order
    manager after any sequence of calls, [can_trade] admits only while the
    counter is strictly below the limit, an admitted [open_position] adds
    exactly one open position, and the count stays within the limit. *)
Theorem C1_open_positions_within_limit :
  (forall params df,
      (0 <= Backtester.max_open_trades params)%Z ->
      (forall df1 df2,
          df = df1 ++ df2 ->
          (Z.of_nat (List.length
                       (Backtester.positions
                          (Backtester.run_loop params (Backtester._reset params)
                                               df1)))
           <= Backtester.max_open_trades params)%Z)
      /\ (Z.of_nat (List.length (Backtester.positions
                                   (Backtester.run params df)))
          <= Backtester.max_open_trades params)%Z)
  /\ (forall params s row,
         (Z.of_nat (List.length (Backtester.positions s))
          <= Backtester.max_open_trades params)%Z ->
         (Z.of_nat (List.length
                      (Backtester.positions
                         (Backtester._check_exits params row s)))
          <= Backtester.max_open_trades params)%Z
         /\ (Z.of_nat (List.length
                         (Backtester.positions
                            (Backtester._try_open_position params row s)))
             <= Backtester.max_open_trades params)%Z
         /\ (Z.of_nat (List.length
                         (Backtester.positions
                            (Backtester.process_row params s row)))
             <= Backtester.max_open_trades params)%Z)
  /\ (forall params s row,
         Backtester.positions (Backtester._try_open_position params row s)
         = Backtester.positions s
         \/ ((Z.of_nat (List.length (Backtester.positions s))
              < Backtester.max_open_trades params)%Z
             /\ exists pos,
                 Backtester.positions
                   (Backtester._try_open_position params row s)
                 = Backtester.positions s ++ [pos]))
  /\ (forall v conn ic rpt mdl mot cbd tp sl cs,
         let rm := RiskManager.__init__ ic rpt mdl mot cbd in
         let s := OrderManager.calls
                    v (OrderManager.__init__ conn rm tp sl) cs in
         (0 <= RiskManager.max_open_trades rm)%Z ->
         RiskManager.max_open_trades (OrderManager.risk_manager s)
         = RiskManager.max_open_trades rm
         /\ RiskManager.open_trade_count (OrderManager.risk_manager s)
            = Z.of_nat (List.length (OrderManager.open_positions s))
         /\ (Z.of_nat (List.length (OrderManager.open_positions s))
             <= RiskManager.max_open_trades rm)%Z)
  /\ (forall now rm,
         fst (RiskManager.can_trade now rm) = true ->
         (RiskManager.open_trade_count rm < RiskManager.max_open_trades rm)%Z)
  /\ (forall v now now_ts symbol price s,
         match OrderManager.open_position v now now_ts symbol price s with
         | (Some p, s') =>
             OrderManager.positions s' = OrderManager.positions s ++ [p]
             /\ OrderManager.status p = OrderManager.OPEN
             /\ RiskManager.open_trade_count (OrderManager.risk_manager s')
                = (RiskManager.open_trade_count (OrderManager.risk_manager s)
                   + 1)%Z
             /\ (RiskManager.open_trade_count (OrderManager.risk_manager s)
                 < RiskManager.max_open_trades (OrderManager.risk_manager s))%Z
         | (None, s') =>
             OrderManager.positions s' = OrderManager.positions s
             /\ RiskManager.open_trade_count (OrderManager.risk_manager s')
                = RiskManager.open_trade_count (OrderManager.risk_manager s)
         end).
Proof.
  split; [|split; [|split; [|split; [|split]]]].
  - intros params df Hmax.
    assert (H0 : within_limit params (Backtester._reset params))
      by (unfold within_limit; cbn; exact Hmax).
    split.
    + intros df1 df2 _. apply (run_loop_within_limit params _ df1 H0).
    + unfold Backtester.run. destruct df as [|r rest].
      * apply (run_loop_within_limit params _ [] H0).
      * cbn [Backtester._close_all_positions Backtester.positions
             List.length]. exact Hmax.
  - intros params s row H. split; [|split].
    + pose proof (check_exits_length params row s). lia.
    + apply (try_open_within_limit params row s H).
    + apply (process_row_within_limit params s row H).
  - intros params s row. apply try_open_positions.
  - intros v conn ic rpt mdl mot cbd tp sl cs rm s Hmax.
    assert (H0 : live_inv (RiskManager.max_open_trades rm)
                          (OrderManager.__init__ conn rm tp sl)).
    { constructor; cbn [OrderManager.__init__ OrderManager.risk_manager
                        OrderManager.positions OrderManager._position_counter].
      - reflexivity.
      - constructor.
      - intros p [].
      - reflexivity.
      - exact Hmax. }
    pose proof (calls_inv v _ _ cs H0) as [Hlim _ _ Hcount Hbound].
    fold s in Hlim, Hcount, Hbound.
    rewrite open_positions_count. split; [exact Hlim|].
    split; [exact Hcount|]. rewrite <- Hcount. exact Hbound.
  - intros now rm H. apply (proj2 (rm_can_trade_frame now rm) H).
  - apply open_position_result.
Qed.

Lemma C1_open_positions_within_limit_witness :
  (Z.of_nat (List.length
               (Backtester.positions
                  (Backtester.run_loop scenario_B_params
                                       (Backtester._reset scenario_B_params)
                                       (firstn 2 scenario_B_rows))))
   <= Backtester.max_open_trades scenario_B_params)%Z
  /\ (RiskManager.open_trade_count configured_risk_manager
      < RiskManager.max_open_trades configured_risk_manager)%Z.
Proof.
  destruct C1_open_positions_within_limit as [Hsim [_ [_ [_ [Hgate _]]]]].
  split.
  - destruct (Hsim scenario_B_params scenario_B_rows) as [Hrun _].
    + vm_compute. discriminate.
    + apply (Hrun (firstn 2 scenario_B_rows) (skipn 2 scenario_B_rows)).
      reflexivity.
  - apply (Hgate 0%Z configured_risk_manager). reflexivity.
Defined.

(** ** Peak equity (C6) *)

Lemma proceeds_nonneg (a q fee : Q) :
  0 <= a -> 0 <= q -> fee <= 1 -> 0 <= a * q - a * q * fee.
Proof.
  intros. assert (0 <= a * q) by (apply Qmult_le_0_compat; assumption).
  assert (0 <= (a * q) * (1 - fee)) by (apply Qmult_le_0_compat; lra).
  lra.
Qed.

Lemma quotient_nonneg (e r d : Q) : 0 <= e -> 0 <= r -> 0 < d -> 0 <= e * r / d.
Proof.
  intros. apply Qle_shift_div_l; [assumption|].
  assert (0 <= e * r) by (apply Qmult_le_0_compat; assumption). lra.
Qed.

Lemma quotient_cancel (c d : Q) : 0 < c / d -> (c / d) * d == c.
Proof.
  intros H. assert (~ d == 0).
  { intro E. unfold Qdiv in H. rewrite E in H. change (/ 0) with 0 in H. lra. }
  field. assumption.
Qed.

Lemma exits_loop_cash params row idx ps s closed :
  0 <= Backtester.slippage params <= 1 ->
  Backtester.trading_fee params <= 1 ->
  (forall pos, In pos ps -> sound_position pos) ->
  0 <= Backtester.cash s ->
  0 <= Backtester.cash (fst (Backtester.exits_loop params row idx ps s closed)).
Proof.
  intros Hslip Hfee. revert idx s closed.
  induction ps as [|pos rest IH]; intros idx s closed Hps Hcash.
  - exact Hcash.
  - cbn [Backtester.exits_loop].
    assert (Hrest : forall p, In p rest -> sound_position p)
      by (intros p Hp; apply Hps; right; exact Hp).
    destruct (Hps pos (or_introl eq_refl)) as [Hq [Htp Hsl]].
    unfold Backtester.exit_trigger.
    destruct (Py.leb (Backtester.low row) (Backtester.sl_price pos)).
    + apply IH; [exact Hrest|].
      cbn [Backtester.close_on_exit Backtester.cash Backtester.slipped].
      assert (0 <= Backtester.sl_price pos * (1 - Backtester.slippage params))
        by (apply Qmult_le_0_compat; lra).
      pose proof (proceeds_nonneg _ (Backtester.quantity pos)
                                  (Backtester.trading_fee params) H Hq Hfee).
      lra.
    + destruct (Py.geb (Backtester.high row) (Backtester.tp_price pos)).
      * apply IH; [exact Hrest|].
        cbn [Backtester.close_on_exit Backtester.cash Backtester.slipped].
        assert (0 <= Backtester.tp_price pos
                     * (1 - Backtester.slippage params))
          by (apply Qmult_le_0_compat; lra).
        pose proof (proceeds_nonneg _ (Backtester.quantity pos)
                                    (Backtester.trading_fee params) H Hq Hfee).
        lra.
      * apply IH; assumption.
Qed.

Lemma pops_incl {A : Type} (idxs : list nat) (l : list A) :
  incl (fold_left (fun l idx => Py.pop idx l) idxs l) l.
Proof.
  revert l. induction idxs as [|i idxs IH]; intro l; cbn [fold_left].
  - apply incl_refl.
  - eapply incl_tran; [apply IH | apply pop_incl].
Qed.

Lemma check_exits_inv params row s :
  sane params -> ledger_inv s ->
  ledger_inv (Backtester._check_exits params row s).
Proof.
  intros [_ [[_ Hfee] [Hslip _]]] [Hcash Hpos Heq Hpk].
  destruct (check_exits_frame params row s) as [E1 [E2 _]].
  constructor.
  - unfold Backtester._check_exits.
    pose proof (exits_loop_cash params row 0 (Backtester.positions s) s []
                                Hslip Hfee Hpos Hcash) as H.
    destruct (Backtester.exits_loop params row 0 (Backtester.positions s) s [])
      as [s1 closed].
    exact H.
  - intros pos Hin. apply Hpos. unfold Backtester._check_exits in Hin.
    pose proof (exits_loop_positions params row 0 (Backtester.positions s) s [])
      as H.
    destruct (Backtester.exits_loop params row 0 (Backtester.positions s) s [])
      as [s1 closed].
    cbn [fst] in H.
    cbn [Backtester.with_positions Backtester.positions] in Hin.
    unfold Backtester.pop_closed in Hin. rewrite H in Hin.
    apply (pops_incl (Py.sorted_reverse closed) _ pos Hin).
  - rewrite E1. exact Heq.
  - rewrite E1, E2. exact Hpk.
Qed.

Lemma udt_inv ts s :
  ledger_inv s -> ledger_inv (Backtester._update_daily_tracking ts s).
Proof.
  intros [Hcash Hpos Heq Hpk].
  destruct (udt_frame ts s) as [E1 [E2 [E3 [E4 _]]]].
  constructor; rewrite ?E1, ?E2, ?E3, ?E4; assumption.
Qed.

Lemma check_breaker_inv params s :
  ledger_inv s -> ledger_inv (Backtester._check_circuit_breaker params s).
Proof.
  intros [Hcash Hpos Heq Hpk].
  destruct (check_breaker_frame params s) as [E1 [E2 [E3 [E4 _]]]].
  constructor; rewrite ?E1, ?E2, ?E3, ?E4; assumption.
Qed.

Lemma open_with_inv params row entry tp sl qty s :
  ledger_inv s -> 0 <= qty -> 0 <= tp -> 0 <= sl ->
  entry * qty + entry * qty * Backtester.trading_fee params
  <= Backtester.cash s ->
  ledger_inv (Backtester.open_with params row entry tp sl qty s).
Proof.
  intros [Hcash Hpos Heq Hpk] Hq Htp Hsl Hcost.
  constructor; cbn [Backtester.open_with Backtester.cash Backtester.positions
                    Backtester.equity Backtester.peak_equity].
  - lra.
  - intros pos Hin. apply in_app_or in Hin. destruct Hin as [Hin|[<-|[]]].
    + apply Hpos. exact Hin.
    + repeat split; assumption.
  - exact Heq.
  - exact Hpk.
Qed.

Lemma try_open_inv params row s :
  sane params -> 0 <= Backtester.close row -> ledger_inv s ->
  ledger_inv (Backtester._try_open_position params row s).
Proof.
  intros [_ [[Hfee0 Hfee] [[Hslip0 Hslip] [Hrisk [Htp [Hsl0 Hsl]]]]]] Hclose Hinv.
  unfold Backtester._try_open_position.
  destruct (negb (Backtester._can_open_trade params s)); [exact Hinv|].
  set (entry := Backtester.close row * (1 + Backtester.slippage params)).
  set (tp := entry * (1 + Backtester.tp_pct params)).
  set (sl := entry * (1 - Backtester.sl_pct params)).
  assert (Hentry : 0 <= entry)
    by (unfold entry; apply Qmult_le_0_compat; lra).
  assert (Htp' : 0 <= tp) by (unfold tp; apply Qmult_le_0_compat; lra).
  assert (Hsl' : 0 <= sl) by (unfold sl; apply Qmult_le_0_compat; lra).
  destruct (Py.leb (entry - sl) 0) eqn:Hd; [exact Hinv|].
  apply leb_false in Hd.
  unfold Backtester.risk_quantity.
  destruct (Py.gtb _ (Backtester.cash s)) eqn:Hc.
  - destruct (Py.leb _ 0) eqn:Hq; [exact Hinv|].
    apply leb_false in Hq.
    apply open_with_inv; try assumption.
    + apply Qlt_le_weak. exact Hq.
    + pose proof (quotient_cancel _ _ Hq) as Hx.
      apply Qle_lteq. right. rewrite <- Hx at 3. ring.
  - apply gtb_false in Hc.
    apply open_with_inv; try assumption.
    apply quotient_nonneg; [apply (inv_equity _ Hinv) | exact Hrisk | exact Hd].
Qed.

Lemma position_value_nonneg row ps :
  0 <= Backtester.close row ->
  (forall pos, In pos ps -> sound_position pos) ->
  0 <= Backtester.position_value row ps.
Proof.
  intros Hclose. unfold Backtester.position_value.
  induction ps as [|pos rest IH]; intro Hps.
  - apply Qle_refl.
  - cbn [map]. rewrite sum_cons.
    destruct (Hps pos (or_introl eq_refl)) as [Hq _].
    assert (0 <= Backtester.quantity pos * Backtester.close row)
      by (apply Qmult_le_0_compat; assumption).
    assert (0 <= Py.sum (map (fun p => Backtester.quantity p
                                       * Backtester.close row) rest))
      by (apply IH; intros p Hp; apply Hps; right; exact Hp).
    lra.
Qed.

Lemma update_equity_inv row s :
  0 <= Backtester.close row -> ledger_inv s ->
  ledger_inv (Backtester._update_equity row s).
Proof.
  intros Hclose [Hcash Hpos Heq Hpk].
  pose proof (position_value_nonneg row _ Hclose Hpos) as Hv.
  constructor; cbn [Backtester._update_equity Backtester.cash
                    Backtester.positions Backtester.equity
                    Backtester.peak_equity].
  - exact Hcash.
  - exact Hpos.
  - lra.
  - apply max_ge_r.
Qed.

Lemma process_row_inv params s row :
  sane params -> 0 <= Backtester.close row -> ledger_inv s ->
  ledger_inv (Backtester.process_row params s row)
  /\ marked row (Backtester.process_row params s row).
Proof.
  intros Hsane Hclose Hinv. unfold Backtester.process_row.
  pose proof (check_breaker_inv
                params _
                (check_exits_inv params row _ Hsane
                                 (udt_inv (Backtester.timestamp row) s Hinv)))
    as H3.
  split.
  - assert (H5 : forall st, ledger_inv st ->
                            ledger_inv (Backtester.record_equity
                                          row
                                          (Backtester._update_equity row st))).
    { intros st Hst. pose proof (update_equity_inv row st Hclose Hst) as H.
      destruct H. constructor; assumption. }
    apply H5.
    destruct (Backtester.signal row =? 1)%Z; [|exact H3].
    apply try_open_inv; assumption.
  - reflexivity.
Qed.

Lemma run_loop_inv params s df :
  sane params -> nonneg_closes df -> ledger_inv s ->
  ledger_inv (Backtester.run_loop params s df).
Proof.
  intros Hsane. revert s. induction df as [|row df IH]; intros s Hdf Hinv.
  - exact Hinv.
  - unfold Backtester.run_loop in *. cbn [fold_left]. apply IH.
    + intros r Hr. apply Hdf. right. exact Hr.
    + apply process_row_inv; [exact Hsane | apply Hdf; left; reflexivity
                              | exact Hinv].
Qed.

Lemma reset_inv params : sane params -> ledger_inv (Backtester._reset params).
Proof.
  intros [Hcap _]. constructor; cbn.
  - exact Hcap.
  - intros pos [].
  - exact Hcap.
  - apply Qle_refl.
Qed.

Lemma process_row_peak params s row :
  Backtester.peak_equity (Backtester.process_row params s row)
  = Py.max (Backtester.peak_equity s)
           (Backtester.equity (Backtester.process_row params s row)).
Proof.
  unfold Backtester.process_row.
  cbn [Backtester.record_equity Backtester._update_equity
       Backtester.peak_equity Backtester.equity].
  assert (H3 : Backtester.peak_equity
                 (Backtester._check_circuit_breaker
                    params
                    (Backtester._check_exits
                       params row
                       (Backtester._update_daily_tracking
                          (Backtester.timestamp row) s)))
               = Backtester.peak_equity s).
  { rewrite (proj1 (proj2 (proj2 (check_breaker_frame params _)))).
    rewrite (proj1 (proj2 (check_exits_frame params row _))).
    apply (udt_frame (Backtester.timestamp row) s). }
  destruct (Backtester.signal row =? 1)%Z.
  - rewrite (proj1 (proj2 (try_open_frame params row _))), H3. reflexivity.
  - rewrite H3. reflexivity.
Qed.

Lemma run_loop_peak_mono params s df :
  Backtester.peak_equity s
  <= Backtester.peak_equity (Backtester.run_loop params s df).
Proof.
  revert s. induction df as [|row df IH]; intro s.
  - apply Qle_refl.
  - unfold Backtester.run_loop in *. cbn [fold_left].
    eapply Qle_trans; [|apply IH].
    rewrite process_row_peak. apply max_ge_l.
Qed.

Lemma close_all_peak params row s :
  Backtester.peak_equity (Backtester._close_all_positions params row s)
  = Backtester.peak_equity s.
Proof.
  unfold Backtester._close_all_positions. cbn [Backtester.peak_equity].
  apply (force_close_fold_frame params row (Backtester.positions s) s).
Qed.

Lemma run_loop_snoc params s df row :
  Backtester.run_loop params s (df ++ [row])
  = Backtester.process_row params (Backtester.run_loop params s df) row.
Proof. rewrite run_loop_app. reflexivity. Qed.

Lemma list_snoc_cases {A : Type} (l : list A) :
  l = [] \/ exists l' x, l = l' ++ [x].
Proof.
  induction l as [|a l IH]; [left; reflexivity|right].
  destruct IH as [->|[l' [x ->]]].
  - exists [], a. reflexivity.
  - exists (a :: l'), x. reflexivity.
Qed.

(** C6, as stated, fails on the forced close.  [_close_all_positions] sets
    the equity to the cash left after selling the positions one at a time
    and leaves the peak as it is, while the last mark-to-market added the
    sum of the positions' values to the cash.  In binary64 the two orders
    of addition differ: on the run of [Module Rounding] the last snapshot
    has equity and peak 10020.958083832335, and the state [run] leaves has
    the same peak and the equity 10020.958083832336, above it. *)
Lemma C6_forced_close_exceeds_peak :
  PrimFloat.leb (Backtester64.equity Rounding.last_snapshot)
                (Backtester64.peak_equity Rounding.last_snapshot) = true
  /\ Backtester64.peak_equity Rounding.last_snapshot = Rounding.peak_recorded
  /\ Backtester64.peak_equity Rounding.final = Rounding.peak_recorded
  /\ Backtester64.equity Rounding.final = Rounding.equity_left
  /\ PrimFloat.ltb (Backtester64.peak_equity Rounding.final)
                   (Backtester64.equity Rounding.final) = true
  /\ PrimFloat.leb (Backtester64.equity Rounding.final)
                   (Backtester64.peak_equity Rounding.final) = false.
Proof. vm_compute. repeat split. Qed.

(** C6: [peak_equity] is the running maximum of the recorded equity.  Each
    candle's mark-to-market sets it to the larger of its old value and the
    new equity, so after every candle it is not below the equity; the
    daily roll, the exit check, the breaker check and the entry step leave
    the peak and the recorded equity as they are; over the snapshots of a
    run the peak never decreases and is never below the equity; and the
    forced close at the end of a run leaves the peak as it is and sets the
    equity to the cash, without comparing the two. *)
Theorem C6_peak_equity_running_max :
  (forall params s row,
      Backtester.peak_equity (Backtester.process_row params s row)
      = Py.max (Backtester.peak_equity s)
               (Backtester.equity (Backtester.process_row params s row))
      /\ Backtester.peak_equity s
         <= Backtester.peak_equity (Backtester.process_row params s row)
      /\ Backtester.equity (Backtester.process_row params s row)
         <= Backtester.peak_equity (Backtester.process_row params s row))
  /\ (forall params s row,
         Backtester.equity s <= Backtester.peak_equity s ->
         let ok (s' : Backtester.State) :=
           Backtester.peak_equity s' = Backtester.peak_equity s
           /\ Backtester.equity s' <= Backtester.peak_equity s' in
         ok (Backtester._update_daily_tracking (Backtester.timestamp row) s)
         /\ ok (Backtester._check_exits params row s)
         /\ ok (Backtester._check_circuit_breaker params s)
         /\ ok (Backtester._try_open_position params row s))
  /\ (forall params df1 df2,
         let snapshot :=
           Backtester.run_loop params (Backtester._reset params) df1 in
         let final :=
           Backtester.run_loop params (Backtester._reset params)
                               (df1 ++ df2) in
         Backtester.equity snapshot <= Backtester.peak_equity snapshot
         /\ Backtester.peak_equity snapshot <= Backtester.peak_equity final
         /\ Backtester.peak_equity (Backtester.run params (df1 ++ df2))
            = Backtester.peak_equity final)
  /\ (forall params row s,
         Backtester.peak_equity (Backtester._close_all_positions params row s)
         = Backtester.peak_equity s
         /\ Backtester.equity (Backtester._close_all_positions params row s)
            = Backtester.cash (Backtester._close_all_positions params row s)).
Proof.
  split; [|split; [|split]].
  - intros params s row. rewrite process_row_peak.
    split; [reflexivity|]. split; [apply max_ge_l | apply max_ge_r].
  - intros params s row H ok. subst ok. cbv beta.
    destruct (udt_frame (Backtester.timestamp row) s) as [_ [A1 [A2 _]]].
    destruct (check_exits_frame params row s) as [B1 [B2 _]].
    destruct (check_breaker_frame params s) as [_ [C1 [C2 _]]].
    destruct (try_open_frame params row s) as [D1 [D2 _]].
    rewrite A1, A2, B1, B2, C1, C2, D1, D2. tauto.
  - intros params df1 df2 snapshot final. split; [|split].
    + unfold snapshot. destruct (list_snoc_cases df1) as [->|[l [row ->]]].
      * cbn. apply Qle_refl.
      * rewrite run_loop_snoc, process_row_peak. apply max_ge_r.
    + unfold final, snapshot. rewrite run_loop_app. apply run_loop_peak_mono.
    + unfold Backtester.run. fold final.
      destruct (df1 ++ df2); [reflexivity | apply close_all_peak].
  - intros params row s. split; [apply close_all_peak | reflexivity].
Qed.

Lemma C6_peak_equity_running_max_witness :
  Backtester.peak_equity
    (Backtester._check_exits scenario_B_params
                             (Backtester.mkRow 120 95 95 89 89 0)
                             (scenario_B_after 2))
  = Backtester.peak_equity (scenario_B_after 2)
  /\ Backtester.equity
       (Backtester._check_exits scenario_B_params
                                (Backtester.mkRow 120 95 95 89 89 0)
                                (scenario_B_after 2))
     <= Backtester.peak_equity
          (Backtester._check_exits scenario_B_params
                                   (Backtester.mkRow 120 95 95 89 89 0)
                                   (scenario_B_after 2)).
Proof.
  destruct C6_peak_equity_running_max as [_ [Hops _]].
  destruct (Hops scenario_B_params (scenario_B_after 2)
                 (Backtester.mkRow 120 95 95 89 89 0)) as [_ [Hexits _]].
  - vm_compute. discriminate.
  - exact Hexits.
Defined.

(** * Further properties of the code *)

(** ** What the steps of a candle leave unchanged, continued *)

Lemma udt_frame_log ts s :
  let s' := Backtester._update_daily_tracking ts s in
  Backtester.trades s' = Backtester.trades s
  /\ Backtester.equity_curve s' = Backtester.equity_curve s.
Proof.
  unfold Backtester._update_daily_tracking.
  destruct (Backtester.current_date s) as [d0|]; cbn zeta.
  - destruct (negb (Backtester.date_of ts =? d0)%Z); split; reflexivity.
  - split; reflexivity.
Qed.

Lemma exits_loop_frame_log params row idx ps s closed :
  let s' := fst (Backtester.exits_loop params row idx ps s closed) in
  Backtester.equity_curve s' = Backtester.equity_curve s
  /\ Backtester.current_date s' = Backtester.current_date s.
Proof.
  revert idx s closed. induction ps as [|pos rest IH]; intros idx s closed.
  - split; reflexivity.
  - cbn [Backtester.exits_loop].
    destruct (Backtester.exit_trigger row pos) as [[trigger side]|].
    + destruct (IH (S idx) (Backtester.close_on_exit params row pos trigger
                                                    side s)
                   (closed ++ [idx])) as [H1 H2].
      cbn zeta. rewrite H1, H2. split; reflexivity.
    + apply IH.
Qed.

Lemma check_exits_frame_log params row s :
  let s' := Backtester._check_exits params row s in
  Backtester.equity_curve s' = Backtester.equity_curve s
  /\ Backtester.current_date s' = Backtester.current_date s.
Proof.
  unfold Backtester._check_exits.
  pose proof (exits_loop_frame_log params row 0 (Backtester.positions s) s [])
    as H.
  destruct (Backtester.exits_loop params row 0 (Backtester.positions s) s [])
    as [s1 closed].
  exact H.
Qed.

Lemma check_breaker_frame_log params s :
  let s' := Backtester._check_circuit_breaker params s in
  Backtester.equity_curve s' = Backtester.equity_curve s
  /\ Backtester.current_date s' = Backtester.current_date s.
Proof.
  unfold Backtester._check_circuit_breaker.
  destruct (Py.gtb (Backtester.peak_equity s) 0); [|split; reflexivity].
  destruct (Py.geb _ _); [|split; reflexivity].
  destruct (negb (Backtester.circuit_breaker_active s)); split; reflexivity.
Qed.

Lemma try_open_frame_log params row s :
  let s' := Backtester._try_open_position params row s in
  Backtester.trades s' = Backtester.trades s
  /\ Backtester.equity_curve s' = Backtester.equity_curve s
  /\ Backtester.daily_pnl s' = Backtester.daily_pnl s
  /\ Backtester.current_date s' = Backtester.current_date s.
Proof.
  destruct (try_open_cases params row s) as [E|[_ [entry [tp [sl [qty E]]]]]];
    cbn zeta; rewrite E; repeat split.
Qed.

(** The state the entry step works on. *)
Lemma process_row_shape params s row :
  Backtester.process_row params s row
  = Backtester.record_equity
      row
      (Backtester._update_equity
         row
         (if (Backtester.signal row =? 1)%Z
          then Backtester._try_open_position
                 params row
                 (Backtester._check_circuit_breaker
                    params
                    (Backtester._check_exits
                       params row
                       (Backtester._update_daily_tracking
                          (Backtester.timestamp row) s)))
          else Backtester._check_circuit_breaker
                 params
                 (Backtester._check_exits
                    params row
                    (Backtester._update_daily_tracking
                       (Backtester.timestamp row) s)))).
Proof. reflexivity. Qed.

(** ** Exits: positions removed, trades appended *)

Lemma exit_split_length params row ps :
  (List.length (filter (stays row) ps)
   + List.length (exit_trades params row ps) = List.length ps)%nat.
Proof.
  induction ps as [|pos rest IH]; [reflexivity|].
  unfold exit_trades in *. cbn [filter flat_map]. unfold stays at 1.
  destruct (Backtester.exit_trigger row pos) as [[trigger side]|];
    cbn [List.length app]; lia.
Qed.

(** X1: an exit check removes from the book exactly the positions a trigger
    fires on, keeps the others in their order, and appends one trade for
    each position removed, in the order of the positions: nothing is lost
    and nothing is closed twice. *)
Theorem exits_move_positions_to_trades :
  forall params row s,
    Backtester.positions (Backtester._check_exits params row s)
    = filter (stays row) (Backtester.positions s)
    /\ Backtester.trades (Backtester._check_exits params row s)
       = Backtester.trades s
         ++ exit_trades params row (Backtester.positions s)
    /\ (List.length (Backtester.positions
                       (Backtester._check_exits params row s))
        + List.length (Backtester.trades
                         (Backtester._check_exits params row s))
        = List.length (Backtester.positions s)
          + List.length (Backtester.trades s))%nat.
Proof.
  intros params row s.
  rewrite check_exits_positions, check_exits_trades, length_app.
  split; [reflexivity|]. split; [reflexivity|].
  pose proof (exit_split_length params row (Backtester.positions s)). lia.
Qed.

(** ** The equity curve *)

Lemma process_row_curve params s row :
  Backtester.equity_curve (Backtester.process_row params s row)
  = Backtester.equity_curve s
    ++ [(Backtester.timestamp row,
         Backtester.equity (Backtester.process_row params s row))].
Proof.
  rewrite process_row_shape.
  cbn [Backtester.record_equity Backtester._update_equity
       Backtester.equity_curve Backtester.equity].
  assert (H3 : Backtester.equity_curve
                 (Backtester._check_circuit_breaker
                    params
                    (Backtester._check_exits
                       params row
                       (Backtester._update_daily_tracking
                          (Backtester.timestamp row) s)))
               = Backtester.equity_curve s).
  { rewrite (proj1 (check_breaker_frame_log params _)).
    rewrite (proj1 (check_exits_frame_log params row _)).
    apply (udt_frame_log (Backtester.timestamp row) s). }
  destruct (Backtester.signal row =? 1)%Z.
  - rewrite (proj1 (proj2 (try_open_frame_log params row _))), H3.
    reflexivity.
  - rewrite H3. reflexivity.
Qed.

Lemma run_loop_curve_times params s df :
  map fst (Backtester.equity_curve (Backtester.run_loop params s df))
  = map fst (Backtester.equity_curve s) ++ map Backtester.timestamp df.
Proof.
  revert s. induction df as [|row df IH]; intro s.
  - cbn. rewrite app_nil_r. reflexivity.
  - unfold Backtester.run_loop in *. cbn [fold_left map].
    rewrite IH, process_row_curve, map_app, <- app_assoc. reflexivity.
Qed.

Lemma force_close_fold_curve params row ps s :
  Backtester.equity_curve (fold_left (Backtester.force_close params row) ps s)
  = Backtester.equity_curve s.
Proof.
  revert s. induction ps as [|pos rest IH]; intro s; [reflexivity|].
  cbn [fold_left]. rewrite IH. reflexivity.
Qed.

Lemma run_curve params df :
  Backtester.equity_curve (Backtester.run params df)
  = Backtester.equity_curve
      (Backtester.run_loop params (Backtester._reset params) df).
Proof.
  unfold Backtester.run. destruct df as [|r rest]; [reflexivity|].
  unfold Backtester._close_all_positions. cbn [Backtester.equity_curve].
  apply force_close_fold_curve.
Qed.

(** X2: a run returns one equity snapshot per candle, in the order and with
    the time stamps of the candles; the snapshot of a candle is the equity
    marked at its close, and the forced close at the end of the run adds no
    snapshot, so the last one is the mark-to-market before that close. *)
Theorem equity_curve_one_snapshot_per_candle :
  forall params df,
    map fst (Backtester.equity_curve (Backtester.run params df))
    = map Backtester.timestamp df
    /\ Backtester.equity_curve (Backtester.run params df)
       = Backtester.equity_curve
           (Backtester.run_loop params (Backtester._reset params) df)
    /\ (forall df1 row df2,
           df = df1 ++ row :: df2 ->
           nth_error (Backtester.equity_curve (Backtester.run params df))
                     (List.length df1)
           = Some (Backtester.timestamp row,
                   Backtester.equity
                     (Backtester.run_loop params (Backtester._reset params)
                                          (df1 ++ [row])))).
Proof.
  intros params df. rewrite run_curve. split; [|split].
  - rewrite run_loop_curve_times. reflexivity.
  - reflexivity.
  - intros df1 row df2 ->.
    replace (df1 ++ row :: df2) with ((df1 ++ [row]) ++ df2)
      by (rewrite <- app_assoc; reflexivity).
    rewrite run_loop_app.
    set (s1 := Backtester.run_loop params (Backtester._reset params)
                                   (df1 ++ [row])).
    assert (Hpre : exists tail,
               Backtester.equity_curve (Backtester.run_loop params s1 df2)
               = Backtester.equity_curve s1 ++ tail).
    { generalize s1. induction df2 as [|r df2 IH]; intro st.
      - exists []. cbn. rewrite app_nil_r. reflexivity.
      - unfold Backtester.run_loop in *. cbn [fold_left].
        destruct (IH (Backtester.process_row params st r)) as [tail Ht].
        rewrite Ht, process_row_curve, <- app_assoc. eexists. reflexivity. }
    destruct Hpre as [tail ->].
    unfold s1. rewrite run_loop_snoc, process_row_curve.
    rewrite <- run_loop_snoc. fold s1.
    assert (Hlen : List.length
                     (Backtester.equity_curve
                        (Backtester.run_loop params (Backtester._reset params)
                                             df1))
                   = List.length df1).
    { rewrite <- (length_map fst), run_loop_curve_times. cbn.
      apply length_map. }
    rewrite <- app_assoc, nth_error_app2 by lia.
    rewrite Hlen, Nat.sub_diag. reflexivity.
Qed.

Lemma equity_curve_one_snapshot_per_candle_witness :
  nth_error (Backtester.equity_curve
               (Backtester.run scenario_B_params scenario_B_rows)) 1
  = Some (60%Z, Backtester.equity (scenario_B_after 2)).
Proof.
  destruct (equity_curve_one_snapshot_per_candle
              scenario_B_params scenario_B_rows) as [_ [_ H]].
  exact (H [Backtester.mkRow 0 100 100 100 100 1]
           (Backtester.mkRow 60 100 100 95 95 0)
           [Backtester.mkRow 120 95 95 89 89 0;
            Backtester.mkRow 180 89 89 89 89 0]
           eq_refl).
Defined.

(** ** A run without buy signals *)

Lemma check_exits_empty_book params row s :
  Backtester.positions s = [] ->
  Backtester._check_exits params row s = Backtester.with_positions [] s.
Proof.
  intro H. unfold Backtester._check_exits. rewrite H.
  cbn [Backtester.exits_loop]. unfold Backtester.pop_closed.
  cbn [Py.sorted_reverse fold_right fold_left]. rewrite H. reflexivity.
Qed.

Lemma process_row_marked params s row :
  marked row (Backtester.process_row params s row).
Proof. reflexivity. Qed.

Lemma process_row_idle params s row :
  Backtester.signal row <> 1%Z -> idle params s ->
  idle params (Backtester.process_row params s row).
Proof.
  intros Hsig [Hp Ht Hc He Hcurve].
  assert (Hz : (Backtester.signal row =? 1)%Z = false)
    by (apply Z.eqb_neq; exact Hsig).
  destruct (udt_frame (Backtester.timestamp row) s) as [U1 [_ [_ [U4 _]]]].
  destruct (udt_frame_log (Backtester.timestamp row) s) as [U5 U6].
  set (s1 := Backtester._update_daily_tracking (Backtester.timestamp row) s)
    in *.
  assert (Hp1 : Backtester.positions s1 = []) by (rewrite U4; exact Hp).
  pose proof (check_exits_empty_book params row s1 Hp1) as Hx.
  destruct (check_breaker_frame
              params (Backtester._check_exits params row s1))
    as [B1 [_ [_ [B4 [B5 _]]]]].
  destruct (check_breaker_frame_log
              params (Backtester._check_exits params row s1)) as [B6 _].
  rewrite Hx in B1, B4, B5, B6.
  cbn [Backtester.with_positions Backtester.cash Backtester.positions
       Backtester.trades Backtester.equity_curve] in B1, B4, B5, B6.
  assert (Hcash : Backtester.cash (Backtester.process_row params s row)
                  = Backtester.initial_capital params).
  { rewrite process_row_shape, Hz. fold s1. rewrite Hx.
    cbn [Backtester.record_equity Backtester._update_equity Backtester.cash].
    rewrite B1, U1. exact Hc. }
  assert (Hpos : Backtester.positions (Backtester.process_row params s row)
                 = []).
  { rewrite process_row_shape, Hz. fold s1. rewrite Hx.
    cbn [Backtester.record_equity Backtester._update_equity
         Backtester.positions].
    exact B4. }
  assert (Heq : Backtester.equity (Backtester.process_row params s row)
                == Backtester.initial_capital params).
  { pose proof (process_row_marked params s row) as Hm.
    unfold marked in Hm. rewrite Hm, Hcash, Hpos. cbn. lra. }
  constructor.
  - exact Hpos.
  - rewrite process_row_shape, Hz. fold s1. rewrite Hx.
    cbn [Backtester.record_equity Backtester._update_equity
         Backtester.trades].
    rewrite B5, U5. exact Ht.
  - exact Hcash.
  - exact Heq.
  - intros snap Hin. rewrite process_row_curve in Hin.
    apply in_app_or in Hin. destruct Hin as [Hin|[<-|[]]].
    + apply Hcurve. exact Hin.
    + exact Heq.
Qed.

Lemma run_loop_idle params s df :
  no_signal df -> idle params s ->
  idle params (Backtester.run_loop params s df).
Proof.
  revert s. induction df as [|row df IH]; intros s Hdf Hs; [exact Hs|].
  unfold Backtester.run_loop in *. cbn [fold_left]. apply IH.
  - intros r Hr. apply Hdf. right. exact Hr.
  - apply process_row_idle; [apply Hdf; left; reflexivity | exact Hs].
Qed.

Lemma reset_idle params : idle params (Backtester._reset params).
Proof.
  constructor; try reflexivity. intros snap [].
Qed.

(** X3: a run over a frame that carries no buy signal makes no trade and
    holds no position; the cash stays the initial capital, and every
    equity snapshot and the final equity equal the initial capital. *)
Theorem run_without_signal_is_flat :
  forall params df,
    no_signal df ->
    Backtester.trades (Backtester.run params df) = []
    /\ Backtester.positions (Backtester.run params df) = []
    /\ Backtester.cash (Backtester.run params df)
       = Backtester.initial_capital params
    /\ Backtester.equity (Backtester.run params df)
       == Backtester.initial_capital params
    /\ (forall snap,
           In snap (Backtester.equity_curve (Backtester.run params df)) ->
           snd snap == Backtester.initial_capital params).
Proof.
  intros params df Hdf.
  pose proof (run_loop_idle params _ df Hdf (reset_idle params))
    as [Hp Ht Hc He Hcurve].
  rewrite run_curve. unfold Backtester.run.
  destruct df as [|r rest].
  - repeat split; try assumption.
  - unfold Backtester._close_all_positions. rewrite Hp.
    cbn [fold_left Backtester.trades Backtester.positions Backtester.cash
         Backtester.equity].
    repeat split; try assumption. rewrite Hc. reflexivity.
Qed.

Lemma run_without_signal_is_flat_witness :
  Backtester.trades (Backtester.run scenario_B_params quiet_rows) = []
  /\ Backtester.equity (Backtester.run scenario_B_params quiet_rows)
     == Backtester.initial_capital scenario_B_params.
Proof.
  destruct (run_without_signal_is_flat scenario_B_params quiet_rows)
    as [Ht [_ [_ [He _]]]].
  - intros row Hin. cbn in Hin.
    destruct Hin as [<-|[<-|[]]]; cbn; discriminate.
  - split; [exact Ht | exact He].
Defined.

(** ** Prefixes of a frame *)

Lemma nonneg_closes_prefix df1 df2 :
  nonneg_closes (df1 ++ df2) -> nonneg_closes df1.
Proof.
  intros H row Hin. apply H. apply in_or_app. left. exact Hin.
Qed.

(** ** The entry step *)

(** The entry step leaves the state as it is, or it was admitted, the stop
    is below the entry price, and it is one [open_with] at the levels
    computed from the close. *)
Lemma try_open_spec params row s :
  let entry := Backtester.close row * (1 + Backtester.slippage params) in
  let tp := entry * (1 + Backtester.tp_pct params) in
  let sl := entry * (1 - Backtester.sl_pct params) in
  Backtester._try_open_position params row s = s
  \/ (Backtester._can_open_trade params s = true
      /\ 0 < entry - sl
      /\ exists qty,
          Backtester._try_open_position params row s
          = Backtester.open_with params row entry tp sl qty s).
Proof.
  intros entry tp sl. unfold Backtester._try_open_position.
  destruct (Backtester._can_open_trade params s); [|left; reflexivity].
  cbn [negb]. fold entry. fold sl. fold tp.
  destruct (Py.leb (entry - sl) 0) eqn:Hd; [left; reflexivity|].
  apply leb_false in Hd.
  destruct (Py.gtb _ (Backtester.cash s)).
  - destruct (Py.leb _ 0); [left; reflexivity|].
    right. split; [reflexivity|]. split; [exact Hd|]. eauto.
  - right. split; [reflexivity|]. split; [exact Hd|]. eauto.
Qed.

(** ** What a candle does to the book and to the trade log *)

Lemma process_row_trades params s row :
  Backtester.trades (Backtester.process_row params s row)
  = Backtester.trades s ++ exit_trades params row (Backtester.positions s).
Proof.
  rewrite process_row_shape.
  cbn [Backtester.record_equity Backtester._update_equity Backtester.trades].
  assert (H3 : Backtester.trades
                 (Backtester._check_circuit_breaker
                    params
                    (Backtester._check_exits
                       params row
                       (Backtester._update_daily_tracking
                          (Backtester.timestamp row) s)))
               = Backtester.trades s
                 ++ exit_trades params row (Backtester.positions s)).
  { rewrite (proj1 (proj2 (proj2 (proj2 (proj2
                (check_breaker_frame params _)))))).
    rewrite check_exits_trades.
    rewrite (proj1 (udt_frame_log (Backtester.timestamp row) s)).
    rewrite (proj1 (proj2 (proj2 (proj2
                (udt_frame (Backtester.timestamp row) s))))).
    reflexivity. }
  destruct (Backtester.signal row =? 1)%Z; [|exact H3].
  rewrite (proj1 (try_open_frame_log params row _)). exact H3.
Qed.

Lemma before_entry_positions params s row :
  Backtester.positions
    (Backtester._check_circuit_breaker
       params
       (Backtester._check_exits
          params row
          (Backtester._update_daily_tracking (Backtester.timestamp row) s)))
  = filter (stays row) (Backtester.positions s).
Proof.
  rewrite (proj1 (proj2 (proj2 (proj2 (check_breaker_frame params _))))).
  rewrite check_exits_positions.
  rewrite (proj1 (proj2 (proj2 (proj2
              (udt_frame (Backtester.timestamp row) s))))).
  reflexivity.
Qed.

(** After a candle the book holds the positions no exit fired on, and at
    most one new position, levelled at the candle's close. *)
Lemma process_row_positions params s row :
  Backtester.positions (Backtester.process_row params s row)
  = filter (stays row) (Backtester.positions s)
  \/ exists pos,
      Backtester.positions (Backtester.process_row params s row)
      = filter (stays row) (Backtester.positions s) ++ [pos]
      /\ levelled params pos
      /\ Backtester.entry_time pos = Backtester.timestamp row
      /\ Backtester.signal row = 1%Z.
Proof.
  rewrite process_row_shape.
  cbn [Backtester.record_equity Backtester._update_equity
       Backtester.positions].
  pose proof (before_entry_positions params s row) as H3.
  destruct (Z.eqb_spec (Backtester.signal row) 1) as [Hsig|Hsig];
    [|left; exact H3].
  destruct (try_open_spec params row
              (Backtester._check_circuit_breaker
                 params
                 (Backtester._check_exits
                    params row
                    (Backtester._update_daily_tracking
                       (Backtester.timestamp row) s))))
    as [E|[_ [Hd [qty E]]]]; rewrite E.
  - left. exact H3.
  - right. cbn [Backtester.open_with Backtester.positions]. rewrite H3.
    eexists. split; [reflexivity|].
    unfold levelled.
    cbn [Backtester.sl_price Backtester.entry_price Backtester.tp_price
         Backtester.entry_fee Backtester.quantity Backtester.entry_time].
    repeat split; try reflexivity; try exact Hsig. lra.
Qed.

Lemma run_loop_levelled params df :
  forall s,
    (forall p, In p (Backtester.positions s) -> levelled params p) ->
    forall p, In p (Backtester.positions (Backtester.run_loop params s df)) ->
              levelled params p.
Proof.
  induction df as [|row df IH]; intros s Hs p Hp; [apply Hs; exact Hp|].
  unfold Backtester.run_loop in *. cbn [fold_left] in Hp.
  apply (IH (Backtester.process_row params s row)); [|exact Hp].
  intros q Hq.
  destruct (process_row_positions params s row)
    as [E|[new [E [Hnew _]]]]; rewrite E in Hq.
  - apply filter_In in Hq. apply Hs. apply Hq.
  - apply in_app_or in Hq. destruct Hq as [Hq|[<-|[]]].
    + apply filter_In in Hq. apply Hs. apply Hq.
    + exact Hnew.
Qed.

Lemma run_levelled params df p :
  In p (Backtester.positions
          (Backtester.run_loop params (Backtester._reset params) df)) ->
  levelled params p.
Proof. apply run_loop_levelled. intros q []. Qed.

(** X6: every position a run holds has its stop below its entry price, and
    its levels and entry fee are those set when it was opened:
    sl = entry * (1 - sl_pct), tp = entry * (1 + tp_pct),
    fee = entry * quantity * trading_fee; with positive tp and sl
    fractions this gives sl < entry < tp. *)
Theorem positions_keep_their_levels :
  forall params df pos,
    In pos (Backtester.positions
              (Backtester.run_loop params (Backtester._reset params) df)) ->
    levelled params pos
    /\ (0 < Backtester.sl_pct params -> 0 < Backtester.tp_pct params ->
        Backtester.sl_price pos < Backtester.entry_price pos
        /\ Backtester.entry_price pos < Backtester.tp_price pos).
Proof.
  intros params df pos Hin.
  pose proof (run_levelled params df pos Hin) as Hlev.
  split; [exact Hlev|].
  intros Hsl Htp. destruct Hlev as [Hlt [Esl [Etp _]]].
  split; [exact Hlt|].
  rewrite Esl in Hlt. rewrite Etp.
  assert (He : 0 < Backtester.entry_price pos).
  { apply Qnot_le_lt. intro Hle.
    assert (0 <= (- Backtester.entry_price pos) * Backtester.sl_pct params)
      by (apply Qmult_le_0_compat; lra).
    lra. }
  assert (0 < Backtester.entry_price pos * Backtester.tp_pct params)
    by (apply Qmult_lt_0_compat; assumption).
  lra.
Qed.

Lemma positions_keep_their_levels_witness :
  exists pos,
    In pos (Backtester.positions (scenario_B_after 2))
    /\ Backtester.sl_price pos < Backtester.entry_price pos
    /\ Backtester.entry_price pos < Backtester.tp_price pos.
Proof.
  eexists. split.
  - vm_compute. left. reflexivity.
  - apply (positions_keep_their_levels scenario_B_params
                                       (firstn 2 scenario_B_rows)).
    + vm_compute. left. reflexivity.
    + reflexivity.
    + reflexivity.
Defined.

(** ** What an exit adds to the daily P&L *)






(** ** Where the trades of a run come from *)

(** Every trade the loop logs closes a position that was open before the
    candle of its exit, on that candle's trigger. *)
Lemma trade_origin params df :
  forall s t,
    In t (Backtester.trades (Backtester.run_loop params s df)) ->
    In t (Backtester.trades s)
    \/ exists df1 row df2 pos trigger side,
        df = df1 ++ row :: df2
        /\ In pos (Backtester.positions (Backtester.run_loop params s df1))
        /\ Backtester.exit_trigger row pos = Some (trigger, side)
        /\ t = Backtester.make_trade params row pos
                 (Backtester.slipped params side trigger) side.
Proof.
  induction df as [|row df IH]; intros s t Hin.
  - left. exact Hin.
  - unfold Backtester.run_loop in Hin. cbn [fold_left] in Hin.
    destruct (IH (Backtester.process_row params s row) t Hin)
      as [Hnow|[df1 [row' [df2 [pos [trigger [side [E [Hp [Ht Et]]]]]]]]]].
    + rewrite process_row_trades in Hnow. apply in_app_or in Hnow.
      destruct Hnow as [Hold|Hnew]; [left; exact Hold|].
      right. unfold exit_trades in Hnew. apply in_flat_map in Hnew.
      destruct Hnew as [pos [Hpos Hmk]].
      destruct (Backtester.exit_trigger row pos) as [[trigger side]|] eqn:Ht;
        [|destruct Hmk].
      destruct Hmk as [<-|[]].
      exists [], row, df, pos, trigger, side.
      repeat split; [exact Hpos | exact Ht].
    + right. exists (row :: df1), row', df2, pos, trigger, side.
      rewrite E. repeat split; [exact Hp | exact Ht | exact Et].
Qed.

Lemma force_close_fold_trades params row ps :
  forall s,
    Backtester.trades (fold_left (Backtester.force_close params row) ps s)
    = Backtester.trades s
      ++ map (fun pos =>
                Backtester.make_trade
                  params row pos
                  (Backtester.close row * (1 - Backtester.slippage params))
                  Backtester.DONG) ps.
Proof.
  induction ps as [|pos rest IH]; intro s; cbn [fold_left map].
  - rewrite app_nil_r. reflexivity.
  - rewrite IH. cbn [Backtester.force_close Backtester.trades].
    rewrite <- app_assoc. reflexivity.
Qed.

(** The trades of a run: those of the loop, or a forced close of a position
    left open, on the last candle. *)
Lemma run_trades params df t :
  In t (Backtester.trades (Backtester.run params df)) ->
  In t (Backtester.trades
          (Backtester.run_loop params (Backtester._reset params) df))
  \/ exists r rest pos,
      df = r :: rest
      /\ In pos (Backtester.positions
                   (Backtester.run_loop params (Backtester._reset params) df))
      /\ t = Backtester.make_trade
               params (last rest r) pos
               (Backtester.close (last rest r)
                * (1 - Backtester.slippage params))
               Backtester.DONG.
Proof.
  unfold Backtester.run. destruct df as [|r rest]; [left; assumption|].
  unfold Backtester._close_all_positions. cbn [Backtester.trades].
  rewrite force_close_fold_trades. intro Hin. apply in_app_or in Hin.
  destruct Hin as [Hin|Hin]; [left; exact Hin|].
  right. apply in_map_iff in Hin. destruct Hin as [pos [<- Hpos]].
  exists r, rest, pos. repeat split. exact Hpos.
Qed.

Lemma exit_trigger_side row pos trigger side :
  Backtester.exit_trigger row pos = Some (trigger, side) ->
  (side = Backtester.SL /\ trigger = Backtester.sl_price pos)
  \/ (side = Backtester.TP /\ trigger = Backtester.tp_price pos).
Proof.
  unfold Backtester.exit_trigger.
  destruct (Py.leb _ _); [intros [= <- <-]; left; split; reflexivity|].
  destruct (Py.geb _ _); [intros [= <- <-]; right; split; reflexivity|].
  discriminate.
Qed.

(** X7: the trades of a run fill at the levels, not at the candle's prices.
    A trade logged as SL exits at entry * (1 - sl_pct) * (1 - slippage)
    whatever the candle's low, one logged as TP at
    entry * (1 + tp_pct) * (1 - slippage) whatever its high, and the others
    are the forced closes at the last candle's close * (1 - slippage) and
    its time stamp; the fee of a trade is its bought value times
    trading_fee plus its sold value times trading_fee, and its P&L is the
    price difference times the quantity, minus the first of these fees,
    minus the second, each computed as the source computes it. *)
Theorem trades_fill_at_their_levels :
  forall params df t,
    In t (Backtester.trades (Backtester.run params df)) ->
    match Backtester.t_side t with
    | Backtester.SL =>
        Backtester.t_exit_price t
        = Backtester.t_entry_price t * (1 - Backtester.sl_pct params)
          * (1 - Backtester.slippage params)
    | Backtester.TP =>
        Backtester.t_exit_price t
        = Backtester.t_entry_price t * (1 + Backtester.tp_pct params)
          * (1 - Backtester.slippage params)
    | Backtester.DONG =>
        exists r rest,
          df = r :: rest
          /\ Backtester.t_exit_time t = Backtester.timestamp (last rest r)
          /\ Backtester.t_exit_price t
             = Backtester.close (last rest r)
               * (1 - Backtester.slippage params)
    end
    /\ Backtester.t_total_fee t
       = Backtester.t_entry_price t * Backtester.t_quantity t
         * Backtester.trading_fee params
         + Backtester.t_exit_price t * Backtester.t_quantity t
           * Backtester.trading_fee params
    /\ Backtester.t_pnl t
       = (Backtester.t_exit_price t - Backtester.t_entry_price t)
         * Backtester.t_quantity t
         - Backtester.t_entry_price t * Backtester.t_quantity t
           * Backtester.trading_fee params
         - Backtester.t_exit_price t * Backtester.t_quantity t
           * Backtester.trading_fee params.
Proof.
  intros params df t Hin.
  destruct (run_trades params df t Hin) as [Hloop|[r [rest [pos [E [Hp ->]]]]]].
  - destruct (trade_origin params df _ t Hloop)
      as [[]|[df1 [row [df2 [pos [trigger [side [E [Hp [Ht ->]]]]]]]]]].
    destruct (run_levelled params df1 pos Hp) as [_ [Esl [Etp Efee]]].
    cbn [Backtester.make_trade Backtester.t_side Backtester.t_exit_price
         Backtester.t_entry_price Backtester.t_total_fee Backtester.t_pnl
         Backtester.t_quantity Backtester.t_exit_time].
    destruct (exit_trigger_side row pos trigger side Ht) as [[-> ->]|[-> ->]];
      cbn [Backtester.slipped]; rewrite Efee.
    + rewrite Esl. repeat split; reflexivity.
    + rewrite Etp. repeat split; reflexivity.
  - destruct (run_levelled params df pos Hp) as [_ [_ [_ Efee]]].
    cbn [Backtester.make_trade Backtester.t_side Backtester.t_exit_price
         Backtester.t_entry_price Backtester.t_total_fee Backtester.t_pnl
         Backtester.t_quantity Backtester.t_exit_time].
    rewrite Efee. split; [|split; reflexivity].
    exists r, rest. repeat split. exact E.
Qed.

Lemma trades_fill_at_their_levels_witness :
  exists t,
    In t (Backtester.trades (Backtester.run scenario_A_params stopped_rows))
    /\ Backtester.t_side t = Backtester.SL
    /\ Backtester.t_exit_price t
       = Backtester.t_entry_price t
         * (1 - Backtester.sl_pct scenario_A_params)
         * (1 - Backtester.slippage scenario_A_params)
    /\ Backtester.t_pnl t == - (100).
Proof.
  eexists. split; [|split; [|split]].
  - vm_compute. left. reflexivity.
  - reflexivity.
  - match goal with
    | |- Backtester.t_exit_price ?t = _ =>
        assert (Hin : In t (Backtester.trades
                              (Backtester.run scenario_A_params stopped_rows)))
          by (vm_compute; left; reflexivity);
        exact (proj1 (trades_fill_at_their_levels
                        scenario_A_params stopped_rows t Hin))
    end.
  - reflexivity.
Defined.

(** X9: with fee and slippage fractions in [0, 1], non-negative risk, tp
    and sl fractions and non-negative closing prices, a stop-loss exit never
    books a profit: every trade a run logs as SL was sold at or under its
    entry price and has a net P&L of at most zero. *)
Theorem stop_loss_never_profits :
  forall params df t,
    sane params -> nonneg_closes df ->
    In t (Backtester.trades (Backtester.run params df)) ->
    Backtester.t_side t = Backtester.SL ->
    Backtester.t_exit_price t <= Backtester.t_entry_price t
    /\ Backtester.t_pnl t <= 0.
Proof.
  intros params df t Hsane Hdf Hin Hside.
  destruct (run_trades params df t Hin) as [Hloop|[r [rest [pos [_ [_ ->]]]]]];
    [|discriminate Hside].
  destruct (trade_origin params df _ t Hloop)
    as [[]|[df1 [row [df2 [pos [trigger [side [E [Hp [Ht ->]]]]]]]]]].
  cbn [Backtester.make_trade Backtester.t_side] in Hside. subst side.
  destruct (exit_trigger_side row pos trigger Backtester.SL Ht)
    as [[_ ->]|[Hno _]]; [|discriminate Hno].
  destruct (run_levelled params df1 pos Hp) as [Hlt [_ [_ Efee]]].
  assert (Hinv : ledger_inv
                   (Backtester.run_loop params (Backtester._reset params) df1)).
  { apply run_loop_inv; [exact Hsane| |apply reset_inv; exact Hsane].
    apply (nonneg_closes_prefix df1 (row :: df2)). rewrite <- E. exact Hdf. }
  destruct (inv_positions _ Hinv pos Hp) as [Hq [_ Hsl]].
  destruct Hsane as [_ [[Hfee _] [[Hslip0 Hslip1] _]]].
  cbn [Backtester.make_trade Backtester.t_exit_price Backtester.t_entry_price
       Backtester.t_pnl Backtester.slipped].
  rewrite Efee.
  set (x := Backtester.sl_price pos * (1 - Backtester.slippage params)).
  assert (Hx0 : 0 <= x) by (apply Qmult_le_0_compat; lra).
  assert (Hxs : x <= Backtester.sl_price pos).
  { assert (0 <= Backtester.sl_price pos * Backtester.slippage params)
      by (apply Qmult_le_0_compat; lra).
    unfold x. lra. }
  split; [lra|].
  assert (H1 : 0 <= (Backtester.entry_price pos - x) * Backtester.quantity pos)
    by (apply Qmult_le_0_compat; lra).
  assert (H2 : 0 <= Backtester.entry_price pos * Backtester.quantity pos
                    * Backtester.trading_fee params).
  { apply Qmult_le_0_compat; [|exact Hfee].
    apply Qmult_le_0_compat; lra. }
  assert (H3 : 0 <= x * Backtester.quantity pos
                    * Backtester.trading_fee params).
  { apply Qmult_le_0_compat; [|exact Hfee].
    apply Qmult_le_0_compat; lra. }
  lra.
Qed.

Lemma stop_loss_never_profits_witness :
  exists t,
    In t (Backtester.trades (Backtester.run scenario_A_params stopped_rows))
    /\ Backtester.t_side t = Backtester.SL
    /\ Backtester.t_pnl t <= 0.
Proof.
  eexists. split; [|split].
  - vm_compute. left. reflexivity.
  - reflexivity.
  - match goal with
    | |- Backtester.t_pnl ?t <= 0 =>
        apply (stop_loss_never_profits scenario_A_params stopped_rows t)
    end.
    + unfold sane. cbn. repeat split; discriminate.
    + intros row Hin. cbn in Hin.
      destruct Hin as [<-|[<-|[]]]; cbn; discriminate.
    + vm_compute. left. reflexivity.
    + reflexivity.
Defined.

(** ** The daily P&L *)










(** ** The live risk manager *)



Lemma rm_daily_same_day now s :
  RiskManager.current_date s = Some now ->
  RiskManager._update_daily_tracking now s = s.
Proof.
  intro E. unfold RiskManager._update_daily_tracking. rewrite E.
  rewrite Z.eqb_refl. reflexivity.
Qed.

Lemma rm_daily_date now s :
  RiskManager.current_date (RiskManager._update_daily_tracking now s)
  = Some now.
Proof.
  unfold RiskManager._update_daily_tracking.
  destruct (RiskManager.current_date s) as [d0|] eqn:E; cbn zeta.
  - destruct (Z.eqb_spec now d0) as [->|Hne]; cbn [negb];
      [exact E | reflexivity].
  - reflexivity.
Qed.

(** X12: asking [can_trade] again on the same date gives the same verdict
    and leaves the risk manager as the first call left it; the first call
    of a date sets the day's start equity to the current equity and the
    daily P&L to zero, and a call touches nothing but the three fields of
    the daily window. *)
Theorem can_trade_is_repeatable :
  forall now s,
    RiskManager.can_trade now (snd (RiskManager.can_trade now s))
    = RiskManager.can_trade now s
    /\ (RiskManager.current_date s <> Some now ->
        RiskManager.daily_pnl (snd (RiskManager.can_trade now s)) = 0
        /\ RiskManager.daily_start_equity (snd (RiskManager.can_trade now s))
           = RiskManager.current_equity s)
    /\ (RiskManager.current_date s = Some now ->
        snd (RiskManager.can_trade now s) = s)
    /\ snd (RiskManager.can_trade now s)
       = RiskManager.with_daily
           (RiskManager.daily_pnl (snd (RiskManager.can_trade now s)))
           (Some now)
           (RiskManager.daily_start_equity
              (snd (RiskManager.can_trade now s)))
           s.
Proof.
  intros now s.
  destruct (rm_can_trade_frame now s) as [Hsnd _].
  split; [|split; [|split]].
  - rewrite Hsnd. unfold RiskManager.can_trade.
    rewrite (rm_daily_same_day now _ (rm_daily_date now s)).
    reflexivity.
  - intro Hne. rewrite Hsnd. unfold RiskManager._update_daily_tracking.
    destruct (RiskManager.current_date s) as [d0|]; cbn zeta.
    + destruct (Z.eqb_spec now d0) as [E|_]; cbn [negb].
      * exfalso. apply Hne. rewrite E. reflexivity.
      * split; reflexivity.
    + split; reflexivity.
  - intro E. rewrite Hsnd. apply rm_daily_same_day. exact E.
  - rewrite Hsnd. unfold RiskManager._update_daily_tracking.
    destruct (RiskManager.current_date s) as [d0|] eqn:E; cbn zeta.
    + destruct (Z.eqb_spec now d0) as [E'|_]; cbn [negb].
      * destruct s. cbn in *. rewrite E, E'. reflexivity.
      * reflexivity.
    + reflexivity.
Qed.

Lemma can_trade_is_repeatable_witness :
  RiskManager.daily_pnl
    (snd (RiskManager.can_trade 1 after_losing_trade)) = 0
  /\ snd (RiskManager.can_trade 0 after_losing_trade) = after_losing_trade.
Proof.
  destruct (can_trade_is_repeatable 1 after_losing_trade) as [_ [Hnew _]].
  destruct (can_trade_is_repeatable 0 after_losing_trade) as [_ [_ [Hsame _]]].
  split.
  - apply Hnew. discriminate.
  - apply Hsame. reflexivity.
Defined.

(** ** The connector *)






Lemma lookup_same {A : Type} (k : string) (x : A) (l : list (string * A)) :
  Execution.lookup k ((k, x) :: l) = Some x.
Proof. cbn [Execution.lookup]. rewrite String.eqb_refl. reflexivity. Qed.

Lemma get_symbol_info_frame v symbol c :
  Execution.calls (snd (Execution.get_symbol_info v symbol c))
  = Execution.calls c
  /\ Execution.sleeps (snd (Execution.get_symbol_info v symbol c))
     = Execution.sleeps c.
Proof.
  unfold Execution.get_symbol_info.
  destruct (Execution.lookup symbol (Execution.symbol_info c)) as [p|];
    [split; reflexivity|].
  destruct (Execution.get_symbol_info_reply v symbol) as [sp| |e];
    split; reflexivity.
Qed.

(** X14: the symbol cache.  A symbol query that returns stores its answer:
    from then on the query returns the same answer without asking the
    venue (whatever the venue would say now), the entries of other symbols
    are kept, and [_adjust_quantity] rounds to that step.  A query that
    raises leaves the connector as it was. *)
Theorem symbol_info_is_cached :
  forall v symbol c,
    (forall p c',
        Execution.get_symbol_info v symbol c = (Execution.Returned p, c') ->
        (forall v', Execution.get_symbol_info v' symbol c'
                    = (Execution.Returned p, c'))
        /\ (forall other, other <> symbol ->
                          Execution.lookup other (Execution.symbol_info c')
                          = Execution.lookup other (Execution.symbol_info c))
        /\ (forall quantity,
               Execution._adjust_quantity symbol quantity c'
               = Execution.quantize_down p quantity))
    /\ (forall e c',
           Execution.get_symbol_info v symbol c = (Execution.Raised e, c') ->
           c' = c
           /\ Execution.lookup symbol (Execution.symbol_info c) = None).
Proof.
  intros v symbol c. split.
  - intros p c' H. unfold Execution.get_symbol_info in H.
    destruct (Execution.lookup symbol (Execution.symbol_info c)) as [p0|] eqn:E.
    + injection H as <- <-. repeat split.
      * intro v'. unfold Execution.get_symbol_info. rewrite E. reflexivity.
      * intro quantity. unfold Execution._adjust_quantity. rewrite E.
        reflexivity.
    + destruct (Execution.get_symbol_info_reply v symbol) as [sp| |e];
        try discriminate H.
      injection H as <- <-. cbn [Execution.symbol_info]. repeat split.
      * intro v'. unfold Execution.get_symbol_info.
        cbn [Execution.symbol_info]. rewrite lookup_same. reflexivity.
      * intros other Hne. cbn [Execution.lookup].
        destruct (String.eqb_spec other symbol) as [->|_];
          [contradiction Hne|]; reflexivity.
      * intro quantity. unfold Execution._adjust_quantity.
        cbn [Execution.symbol_info]. rewrite lookup_same. reflexivity.
  - intros e c' H. unfold Execution.get_symbol_info in H.
    destruct (Execution.lookup symbol (Execution.symbol_info c)) as [p0|];
      [discriminate H|].
    destruct (Execution.get_symbol_info_reply v symbol) as [sp| |e0];
      [discriminate H| |]; injection H as <- <-; split; reflexivity.
Qed.

Lemma symbol_info_is_cached_witness :
  Execution.get_symbol_info
    flaky_then_rejecting "BTCUSDT"
    (snd (Execution.get_symbol_info filling_venue "BTCUSDT"
                                    Execution.connector))
  = (Execution.Returned 3%nat,
     snd (Execution.get_symbol_info filling_venue "BTCUSDT"
                                    Execution.connector)).
Proof.
  destruct (symbol_info_is_cached filling_venue "BTCUSDT" Execution.connector)
    as [H _].
  destruct (H 3%nat
              (snd (Execution.get_symbol_info filling_venue "BTCUSDT"
                                              Execution.connector))
              eq_refl) as [Hagain _].
  apply Hagain.
Defined.

Ltac venue_replies :=
  repeat match goal with
         | |- context [match Execution.create_order ?v ?n with _ => _ end] =>
             let R := fresh "R" in
             destruct (Execution.create_order v n)
               as [?r|[?code| | | | |]] eqn:R
         | |- context [match Execution.fills ?r with _ => _ end] =>
             let F := fresh "F" in
             destruct (Execution.fills r) as [[|? ?]|] eqn:F
         | |- context [if Execution.permanent ?code then _ else _] =>
             let P := fresh "P" in
             destruct (Execution.permanent code) eqn:P
         end.

(** The loop of [place_market_order] over its three attempts, whatever the
    venue replies. *)
Lemma order_loop_three v c :
  fst (Execution.order_loop v [1; 2; 3]%Z c) <> Execution.Returned None
  /\ Execution.symbol_info (snd (Execution.order_loop v [1; 2; 3]%Z c))
     = Execution.symbol_info c
  /\ exists k,
      (k <= 2)%nat
      /\ Execution.sleeps (snd (Execution.order_loop v [1; 2; 3]%Z c))
         = Execution.sleeps c ++ backoff k
      /\ Execution.calls (snd (Execution.order_loop v [1; 2; 3]%Z c))
         = S (k + Execution.calls c)
      /\ forall r,
          fst (Execution.order_loop v [1; 2; 3]%Z c)
          = Execution.Returned (Some r) ->
          Execution.create_order v (k + Execution.calls c)
          = Execution.Filled r.
Proof.
  cbn [Execution.order_loop Execution.sent Execution.sleep Execution.calls
       Execution.sleeps Execution.symbol_info].
  change (1 <? Execution.MAX_RETRIES)%Z with true.
  change (2 <? Execution.MAX_RETRIES)%Z with true.
  change (3 <? Execution.MAX_RETRIES)%Z with false.
  cbn match.
  venue_replies;
    cbn [fst snd Execution.calls Execution.sleeps Execution.symbol_info
         Execution.sent Execution.sleep];
    (split; [discriminate|]); (split; [reflexivity|]);
    first
      [ exists 0%nat; split; [lia|]; split;
        [rewrite app_nil_r; reflexivity|]; split; [reflexivity|];
        intros ? [= <-]; assumption
      | exists 0%nat; split; [lia|]; split;
        [rewrite app_nil_r; reflexivity|]; split; [reflexivity|];
        intros ? [=]
      | exists 1%nat; split; [lia|]; split; [reflexivity|]; split;
        [reflexivity|]; intros ? [= <-]; assumption
      | exists 1%nat; split; [lia|]; split; [reflexivity|]; split;
        [reflexivity|]; intros ? [=]
      | exists 2%nat; split; [lia|]; split;
        [rewrite <- app_assoc; reflexivity|]; split;
        [reflexivity|]; intros ? [= <-]; assumption
      | exists 2%nat; split; [lia|]; split;
        [rewrite <- app_assoc; reflexivity|]; split;
        [reflexivity|]; intros ? [=] ].
Qed.



(** ** The balance query *)






(** ** The order manager *)

(** An order document [place_market_order] returns is a reply of the
    venue. *)
Lemma place_market_order_returns v symbol side quantity c r :
  fst (Execution.place_market_order v symbol side quantity c)
  = Execution.Returned (Some r) ->
  exists n, Execution.create_order v n = Execution.Filled r.
Proof.
  unfold Execution.place_market_order.
  destruct (Execution.get_symbol_info v symbol c) as [[p|e] c0];
    [|discriminate].
  destruct (Py.leb _ 0); [discriminate|].
  change Execution.attempts_range with [1; 2; 3]%Z.
  destruct (order_loop_three v c0) as [_ [_ [k [_ [_ [_ Hr]]]]]].
  intro H. eexists. apply Hr. exact H.
Qed.

Lemma place_market_order_unfilled v symbol side quantity c :
  always_failing v ->
  forall r, fst (Execution.place_market_order v symbol side quantity c)
            <> Execution.Returned (Some r).
Proof.
  intros Hv r H.
  destruct (place_market_order_returns v symbol side quantity c r H)
    as [n Hn].
  destruct (Hv n) as [e He]. rewrite He in Hn. discriminate Hn.
Qed.

Lemma unbooked_refl s : unbooked s s.
Proof. constructor; reflexivity. Qed.

Lemma unbooked_trans s1 s2 s3 :
  unbooked s1 s2 -> unbooked s2 s3 -> unbooked s1 s3.
Proof.
  intros [A1 A2 A3 A4 A5 A6] [B1 B2 B3 B4 B5 B6].
  constructor; etransitivity; eassumption.
Qed.

Lemma close_position_unbooked v p reason price s :
  always_failing v ->
  unbooked s (OrderManager._close_position v p reason price s).
Proof.
  intro Hv. unfold OrderManager._close_position.
  pose proof (place_market_order_unfilled
                v (OrderManager.symbol p) Execution.SELL
                (OrderManager.quantity p) (OrderManager.connector s) Hv)
    as Hno.
  destruct (Execution.place_market_order _ _ _ _ _) as [[[r|]|e] c1];
    try (constructor; reflexivity).
  exfalso. apply (Hno r). reflexivity.
Qed.

Lemma rm_daily_unbooked now rm :
  RiskManager.open_trade_count (RiskManager._update_daily_tracking now rm)
  = RiskManager.open_trade_count rm
  /\ RiskManager.current_equity (RiskManager._update_daily_tracking now rm)
     = RiskManager.current_equity rm
  /\ RiskManager.peak_equity (RiskManager._update_daily_tracking now rm)
     = RiskManager.peak_equity rm
  /\ RiskManager.circuit_breaker_active
       (RiskManager._update_daily_tracking now rm)
     = RiskManager.circuit_breaker_active rm.
Proof.
  unfold RiskManager._update_daily_tracking.
  destruct (RiskManager.current_date rm) as [d0|]; cbn zeta.
  - destruct (negb (now =? d0)%Z); repeat split.
  - repeat split.
Qed.

Lemma open_position_unbooked v now now_ts symbol price s :
  always_failing v ->
  fst (OrderManager.open_position v now now_ts symbol price s) = None
  /\ unbooked s (snd (OrderManager.open_position v now now_ts symbol price s)).
Proof.
  intro Hv. unfold OrderManager.open_position.
  destruct (rm_can_trade_frame now (OrderManager.risk_manager s))
    as [Hsnd _].
  destruct (RiskManager.can_trade now (OrderManager.risk_manager s))
    as [ok rm1].
  cbn [snd] in Hsnd. subst rm1.
  destruct (rm_daily_unbooked now (OrderManager.risk_manager s))
    as [D1 [D2 [D3 D4]]].
  assert (Hbase : unbooked
                    s
                    (OrderManager.with_risk
                       (RiskManager._update_daily_tracking
                          now (OrderManager.risk_manager s)) s))
    by (constructor; cbn; auto).
  destruct ok; cbn [negb]; [|split; [reflexivity | exact Hbase]].
  destruct (Py.leb _ 0); [split; [reflexivity | exact Hbase]|].
  pose proof (place_market_order_unfilled
                v symbol Execution.BUY
                (RiskManager.calculate_position_size
                   (price * (1 + Config.SLIPPAGE))
                   (price * (1 + Config.SLIPPAGE)
                    * (1 - OrderManager.sl_pct
                             (OrderManager.with_risk
                                (RiskManager._update_daily_tracking
                                   now (OrderManager.risk_manager s)) s)))
                   (RiskManager._update_daily_tracking
                      now (OrderManager.risk_manager s)))
                (OrderManager.connector
                   (OrderManager.with_risk
                      (RiskManager._update_daily_tracking
                         now (OrderManager.risk_manager s)) s))
                Hv) as Hno.
  destruct (Execution.place_market_order _ _ _ _ _) as [[[r|]|e] c1].
  - exfalso. apply (Hno r). reflexivity.
  - split; [reflexivity|]. constructor; cbn; auto.
  - split; [reflexivity|]. constructor; cbn; auto.
Qed.

Lemma check_loop_unbooked v symbol price todo :
  always_failing v ->
  forall s, unbooked s (OrderManager.check_loop v symbol price todo s).
Proof.
  intro Hv. induction todo as [|p rest IH]; intro s.
  - apply unbooked_refl.
  - cbn [OrderManager.check_loop].
    destruct (negb (String.eqb (OrderManager.symbol p) symbol)); [apply IH|].
    destruct (OrderManager.close_reason price p) as [reason|]; [|apply IH].
    eapply unbooked_trans; [apply close_position_unbooked; exact Hv|].
    apply IH.
Qed.

Lemma close_fold_unbooked v reason price todo :
  always_failing v ->
  forall s,
    unbooked s
             (fold_left
                (fun st p => OrderManager._close_position v p reason price st)
                todo s).
Proof.
  intro Hv. induction todo as [|p rest IH]; intro s; cbn [fold_left].
  - apply unbooked_refl.
  - eapply unbooked_trans; [apply close_position_unbooked; exact Hv|].
    apply IH.
Qed.

(** X17: nothing is booked without a fill.  With a venue that fills no
    order, whatever the engine calls on the order manager, the positions
    stay as they are (those that should be closed stay open), no position
    is created, and the risk manager's open-trade count, equity, peak and
    breaker do not change; [open_position] returns [None]. *)
Theorem nothing_is_booked_without_a_fill :
  forall v cs s,
    always_failing v ->
    unbooked s (OrderManager.calls v s cs)
    /\ forall now now_ts symbol price,
        fst (OrderManager.open_position v now now_ts symbol price s) = None.
Proof.
  intros v cs s Hv. split.
  - revert s. induction cs as [|c cs IH]; intro s.
    + apply unbooked_refl.
    + unfold OrderManager.calls in *. cbn [fold_left].
      eapply unbooked_trans; [|apply IH].
      destruct c as [sy p|now now_ts sy p|sy p]; cbn [OrderManager.call].
      * apply check_loop_unbooked. exact Hv.
      * apply open_position_unbooked. exact Hv.
      * apply close_fold_unbooked. exact Hv.
  - intros now now_ts symbol price.
    apply open_position_unbooked. exact Hv.
Qed.

Lemma nothing_is_booked_without_a_fill_witness :
  OrderManager.positions
    (OrderManager.calls
       unreachable_venue manager_with_position
       [OrderManager.CheckTpSl "BTCUSDT" 98;
        OrderManager.OpenPosition 0 0 "BTCUSDT" 98;
        OrderManager.CloseAll "BTCUSDT" 98])
  = [held_position].
Proof.
  destruct (nothing_is_booked_without_a_fill
              unreachable_venue
              [OrderManager.CheckTpSl "BTCUSDT" 98;
               OrderManager.OpenPosition 0 0 "BTCUSDT" 98;
               OrderManager.CloseAll "BTCUSDT" 98]
              manager_with_position) as [H _].
  - intro n. eexists. reflexivity.
  - exact (same_positions _ _ H).
Defined.

Lemma same_entry_refl p : same_entry p p.
Proof. unfold same_entry. repeat split; auto. Qed.

Lemma same_entry_trans p1 p2 p3 :
  same_entry p1 p2 -> same_entry p2 p3 -> same_entry p1 p3.
Proof.
  unfold same_entry.
  intros [A1 [A2 [A3 [A4 [A5 [A6 [A7 [A8 A9]]]]]]]]
         [B1 [B2 [B3 [B4 [B5 [B6 [B7 [B8 B9]]]]]]]].
  repeat split; try (etransitivity; eassumption).
  intro H. apply B9. apply A9. exact H.
Qed.

Lemma continues_refl s : continues s s.
Proof.
  split; [exists []; rewrite app_nil_r; reflexivity|].
  split; [lia|].
  intros p Hp. exists p. split; [exact Hp | apply same_entry_refl].
Qed.

Lemma continues_same s s' :
  OrderManager.positions s' = OrderManager.positions s ->
  OrderManager._position_counter s' = OrderManager._position_counter s ->
  continues s s'.
Proof.
  intros Hp Hc. unfold continues. rewrite Hp, Hc.
  apply (continues_refl s).
Qed.

Lemma continues_trans s1 s2 s3 :
  continues s1 s2 -> continues s2 s3 -> continues s1 s3.
Proof.
  intros [[n1 E1] [C1 H1]] [[n2 E2] [C2 H2]].
  split; [|split].
  - exists (n1 ++ n2). rewrite E2, E1, app_assoc. reflexivity.
  - lia.
  - intros p Hp. destruct (H1 p Hp) as [p' [Hp' S1]].
    destruct (H2 p' Hp') as [p'' [Hp'' S2]].
    exists p''. split; [exact Hp''|].
    apply (same_entry_trans p p' p''); assumption.
Qed.

Lemma mark_closed_same_entry pid ps p :
  In p ps ->
  exists p', In p' (OrderManager.mark_closed pid ps) /\ same_entry p p'.
Proof.
  intro Hin. unfold OrderManager.mark_closed.
  eexists. split; [apply in_map; exact Hin|].
  destruct (OrderManager.position_id p =? pid)%Z;
    [|apply same_entry_refl].
  unfold same_entry. cbn. repeat split; auto.
Qed.

Lemma close_position_continues v p reason price s :
  continues s (OrderManager._close_position v p reason price s).
Proof.
  unfold OrderManager._close_position.
  destruct (Execution.place_market_order _ _ _ _ _) as [[[r|]|e] c1];
    try (apply continues_same; reflexivity).
  split; [|split]; cbn [OrderManager.positions OrderManager._position_counter].
  - exists []. rewrite mark_closed_ids, app_nil_r. reflexivity.
  - lia.
  - intros q Hq. apply mark_closed_same_entry. exact Hq.
Qed.

Lemma open_position_continues v now now_ts symbol price s :
  continues s (snd (OrderManager.open_position v now now_ts symbol price s)).
Proof.
  unfold OrderManager.open_position.
  destruct (RiskManager.can_trade now (OrderManager.risk_manager s))
    as [ok rm1].
  destruct ok; cbn [negb]; [|apply continues_same; reflexivity].
  destruct (Py.leb _ 0); [apply continues_same; reflexivity|].
  destruct (Execution.place_market_order _ _ _ _ _) as [[[r|]|e] c1];
    try (apply continues_same; reflexivity).
  cbn [snd]. split; [|split];
    cbn [OrderManager.positions OrderManager._position_counter
         OrderManager.with_risk].
  - eexists. unfold ids. rewrite map_app. reflexivity.
  - lia.
  - intros q Hq. exists q. split; [|apply same_entry_refl].
    apply in_or_app. left. exact Hq.
Qed.

Lemma check_loop_continues v symbol price todo :
  forall s, continues s (OrderManager.check_loop v symbol price todo s).
Proof.
  induction todo as [|p rest IH]; intro s.
  - apply continues_refl.
  - cbn [OrderManager.check_loop].
    destruct (negb (String.eqb (OrderManager.symbol p) symbol)); [apply IH|].
    destruct (OrderManager.close_reason price p) as [reason|]; [|apply IH].
    eapply continues_trans; [apply close_position_continues | apply IH].
Qed.

Lemma close_fold_continues v reason price todo :
  forall s,
    continues s
              (fold_left
                 (fun st p => OrderManager._close_position v p reason price st)
                 todo s).
Proof.
  induction todo as [|p rest IH]; intro s; cbn [fold_left].
  - apply continues_refl.
  - eapply continues_trans; [apply close_position_continues | apply IH].
Qed.

(** X18: the order manager never deletes or rewrites a position.  Whatever
    the venue replies and whatever the engine calls, the identifiers of
    the positions held before are a prefix of those held after, the
    position counter does not go down, and every position is still
    there with the same symbol, entry price, quantity, levels, entry time
    and order id; one that was CLOSED stays CLOSED. *)
Theorem positions_are_never_deleted :
  forall v cs s, continues s (OrderManager.calls v s cs).
Proof.
  intros v cs. induction cs as [|c cs IH]; intro s.
  - apply continues_refl.
  - unfold OrderManager.calls in *. cbn [fold_left].
    eapply continues_trans; [|apply IH].
    destruct c as [sy p|now now_ts sy p|sy p]; cbn [OrderManager.call].
    + apply check_loop_continues.
    + apply open_position_continues.
    + apply close_fold_continues.
Qed.

(** ** The engine's candle buffer *)

Lemma skipn_S_tl {A : Type} (n : nat) (l : list A) :
  skipn (S n) l = tl (skipn n l).
Proof.
  revert l. induction n as [|n IH]; intros [|x l]; try reflexivity.
  cbn [skipn] in *. apply IH.
Qed.

Lemma lastn_length {A : Type} (n : nat) (l : list A) :
  List.length (lastn n l) = Nat.min n (List.length l).
Proof. unfold lastn. rewrite length_skipn. lia. Qed.

Lemma buffer_append_lastn k (l : list Engine.Kline) :
  Engine.buffer_append k (lastn 500 l) = lastn 500 (l ++ [k]).
Proof.
  unfold Engine.buffer_append. cbn zeta.
  pose proof (lastn_length 500 l) as Hlen.
  destruct (Nat.ltb_spec 500 (List.length (lastn 500 l ++ [k]))) as [Hfull|Hroom];
    rewrite length_app in *; cbn [List.length] in *.
  - assert (Hl : (500 <= List.length l)%nat) by lia.
    unfold lastn. rewrite length_app. cbn [List.length].
    replace (List.length l + 1 - 500)%nat
      with (S (List.length l - 500)) by lia.
    rewrite skipn_S_tl, skipn_app.
    replace (List.length l - 500 - List.length l)%nat with 0%nat by lia.
    reflexivity.
  - assert (Hl : (List.length l < 500)%nat) by lia.
    unfold lastn. rewrite length_app. cbn [List.length].
    replace (List.length l - 500)%nat with 0%nat by lia.
    replace (List.length l + 1 - 500)%nat with 0%nat by lia.
    reflexivity.
Qed.

Lemma on_kline_buffer v now now_ts signal k e :
  Engine._candle_buffer (Engine._on_kline v now now_ts signal k e)
  = if Engine.is_closed k
    then Engine.buffer_append k (Engine._candle_buffer e)
    else Engine._candle_buffer e.
Proof.
  unfold Engine._on_kline. cbn zeta.
  destruct (Engine.is_closed k); cbn [negb]; [|reflexivity].
  destruct (_ <? Engine.MIN_CANDLES)%nat; [reflexivity|].
  destruct signal as [z|]; [|reflexivity].
  destruct (z =? 1)%Z; reflexivity.
Qed.

Lemma feed_buffer v evs :
  forall e pre,
    Engine._candle_buffer e = lastn 500 pre ->
    Engine._candle_buffer (feed v e evs)
    = lastn 500 (pre ++ closed_klines evs).
Proof.
  induction evs as [|ev evs IH]; intros e pre He.
  - unfold closed_klines. cbn. rewrite app_nil_r. exact He.
  - unfold feed in *. cbn [fold_left].
    unfold closed_klines. cbn [map filter].
    fold (closed_klines evs).
    destruct (Engine.is_closed (ev_kline ev)) eqn:Hc.
    + replace (pre ++ ev_kline ev :: closed_klines evs)
        with ((pre ++ [ev_kline ev]) ++ closed_klines evs)
        by (rewrite <- app_assoc; reflexivity).
      apply IH. rewrite on_kline_buffer, Hc, He.
      apply buffer_append_lastn.
    + apply IH. rewrite on_kline_buffer, Hc. exact He.
Qed.

(** X20: the candle buffer holds the last 500 closed klines.  After any
    stream of kline updates, from an engine with an empty buffer, the
    buffer is the closed klines of the stream in their order, cut to the
    last 500; updates of a kline that is not closed never enter it, and it
    never holds more than 500 candles. *)
Theorem candle_buffer_keeps_the_last_500 :
  forall v evs e,
    Engine._candle_buffer e = [] ->
    Engine._candle_buffer (feed v e evs) = lastn 500 (closed_klines evs)
    /\ (List.length (Engine._candle_buffer (feed v e evs)) <= 500)%nat
    /\ List.length (Engine._candle_buffer (feed v e evs))
       = Nat.min 500 (List.length (closed_klines evs))
    /\ forall k, In k (Engine._candle_buffer (feed v e evs)) ->
                 Engine.is_closed k = true.
Proof.
  intros v evs e He.
  assert (H : Engine._candle_buffer (feed v e evs)
              = lastn 500 (closed_klines evs)).
  { apply (feed_buffer v evs e []). rewrite He. reflexivity. }
  rewrite H. split; [reflexivity|].
  rewrite lastn_length. split; [lia|]. split; [reflexivity|].
  intros k Hk. unfold lastn in Hk.
  assert (Hin : In k (closed_klines evs)).
  { rewrite <- (firstn_skipn (List.length (closed_klines evs) - 500)
                             (closed_klines evs)).
    apply in_or_app. right. exact Hk. }
  unfold closed_klines in Hin. apply filter_In in Hin. apply Hin.
Qed.

Lemma candle_buffer_keeps_the_last_500_witness :
  Engine._candle_buffer
    (feed filling_venue fresh_engine
          [mkEvent 0 0 (Some 1%Z) crossing_kline;
           mkEvent 0 0 (Some 1%Z) (Engine.mkKline 60 100 102 98 101 5 true)])
  = [Engine.mkKline 60 100 102 98 101 5 true].
Proof.
  destruct (candle_buffer_keeps_the_last_500
              filling_venue
              [mkEvent 0 0 (Some 1%Z) crossing_kline;
               mkEvent 0 0 (Some 1%Z)
                       (Engine.mkKline 60 100 102 98 101 5 true)]
              fresh_engine) as [H _].
  - reflexivity.
  - rewrite H. reflexivity.
Defined.

(** ** When the engine opens a position *)

Lemma close_position_ids v p reason price s :
  ids (OrderManager.positions (OrderManager._close_position v p reason price s))
  = ids (OrderManager.positions s)
  /\ OrderManager._position_counter
       (OrderManager._close_position v p reason price s)
     = OrderManager._position_counter s.
Proof.
  unfold OrderManager._close_position.
  destruct (Execution.place_market_order _ _ _ _ _) as [[[r|]|e] c1];
    cbn [OrderManager.positions OrderManager._position_counter
         OrderManager.with_connector];
    try (split; reflexivity).
  split; [apply mark_closed_ids | reflexivity].
Qed.

Lemma check_loop_ids v symbol price todo :
  forall s,
    ids (OrderManager.positions (OrderManager.check_loop v symbol price todo s))
    = ids (OrderManager.positions s)
    /\ OrderManager._position_counter
         (OrderManager.check_loop v symbol price todo s)
       = OrderManager._position_counter s.
Proof.
  induction todo as [|p rest IH]; intro s.
  - split; reflexivity.
  - cbn [OrderManager.check_loop].
    destruct (negb (String.eqb (OrderManager.symbol p) symbol)); [apply IH|].
    destruct (OrderManager.close_reason price p) as [reason|]; [|apply IH].
    destruct (IH (OrderManager._close_position v p reason price s))
      as [H1 H2].
    destruct (close_position_ids v p reason price s) as [H3 H4].
    split; etransitivity; eassumption.
Qed.

Lemma on_kline_quiet v now now_ts signal k e :
  Engine.is_closed k = false
  \/ (List.length (Engine.buffer_append k (Engine._candle_buffer e))
      < Engine.MIN_CANDLES)%nat
  \/ signal <> Some 1%Z ->
  Engine.order_manager (Engine._on_kline v now now_ts signal k e)
  = OrderManager.check_tp_sl v (Engine.symbol e) (Engine.close k)
                             (Engine.order_manager e).
Proof.
  intro H. unfold Engine._on_kline. cbn zeta.
  destruct (Engine.is_closed k); cbn [negb]; [|reflexivity].
  destruct (Nat.ltb_spec
              (List.length (Engine.buffer_append k (Engine._candle_buffer e)))
              Engine.MIN_CANDLES) as [Hlt|Hge]; [reflexivity|].
  destruct signal as [z|]; [|reflexivity].
  destruct (Z.eqb_spec z 1) as [->|Hne]; [|reflexivity].
  exfalso. destruct H as [H|[H|H]].
  - discriminate H.
  - lia.
  - apply H. reflexivity.
Qed.

Lemma feed_quiet v evs :
  forall e pre,
    Engine._candle_buffer e = lastn 500 pre ->
    (List.length (pre ++ closed_klines evs) < Engine.MIN_CANDLES)%nat ->
    ids (OrderManager.positions (Engine.order_manager (feed v e evs)))
    = ids (OrderManager.positions (Engine.order_manager e))
    /\ OrderManager._position_counter (Engine.order_manager (feed v e evs))
       = OrderManager._position_counter (Engine.order_manager e).
Proof.
  induction evs as [|ev evs IH]; intros e pre He Hlen.
  - split; reflexivity.
  - unfold feed in *. cbn [fold_left].
    set (e1 := Engine._on_kline v (ev_now ev) (ev_now_ts ev) (ev_signal ev)
                                (ev_kline ev) e).
    unfold closed_klines in Hlen. cbn [map filter] in Hlen.
    fold (closed_klines evs) in Hlen.
    assert (Hb : Engine._candle_buffer e1
                 = if Engine.is_closed (ev_kline ev)
                   then lastn 500 (pre ++ [ev_kline ev])
                   else lastn 500 pre).
    { unfold e1. rewrite on_kline_buffer, He.
      destruct (Engine.is_closed (ev_kline ev)); [|reflexivity].
      apply buffer_append_lastn. }
    assert (Hq : Engine.order_manager e1
                 = OrderManager.check_tp_sl
                     v (Engine.symbol e) (Engine.close (ev_kline ev))
                     (Engine.order_manager e)).
    { apply on_kline_quiet.
      destruct (Engine.is_closed (ev_kline ev)) eqn:Hc;
        [right; left | left; reflexivity].
      rewrite He, buffer_append_lastn, lastn_length.
      rewrite !length_app in *. cbn [List.length] in *. lia. }
    destruct (check_loop_ids
                v (Engine.symbol e) (Engine.close (ev_kline ev))
                (OrderManager.open_positions (Engine.order_manager e))
                (Engine.order_manager e)) as [C1 C2].
    fold (OrderManager.check_tp_sl
            v (Engine.symbol e) (Engine.close (ev_kline ev))
            (Engine.order_manager e)) in C1, C2.
    rewrite <- Hq in C1, C2. rewrite <- C1, <- C2.
    destruct (Engine.is_closed (ev_kline ev)).
    + apply (IH e1 (pre ++ [ev_kline ev]) Hb).
      rewrite <- app_assoc. exact Hlen.
    + apply (IH e1 pre Hb). exact Hlen.
Qed.

(** X21: the engine opens positions only on a closed kline, with at least
    60 closed klines buffered and signal 1.  An update whose kline is not
    closed, or whose signal is not 1, or that leaves fewer than 60 candles
    in the buffer, does to the order manager what the TP/SL check alone
    does; and over a stream with fewer than 60 closed klines, from an empty
    buffer, no position is created, whatever the signals are. *)
Theorem no_entry_before_sixty_closed_candles :
  forall v,
    (forall now now_ts signal k e,
        Engine.is_closed k = false
        \/ (List.length (Engine.buffer_append k (Engine._candle_buffer e))
            < 60)%nat
        \/ signal <> Some 1%Z ->
        Engine.order_manager (Engine._on_kline v now now_ts signal k e)
        = OrderManager.check_tp_sl v (Engine.symbol e) (Engine.close k)
                                   (Engine.order_manager e))
    /\ (forall evs e,
           Engine._candle_buffer e = [] ->
           (List.length (closed_klines evs) < 60)%nat ->
           ids (OrderManager.positions (Engine.order_manager (feed v e evs)))
           = ids (OrderManager.positions (Engine.order_manager e))
           /\ OrderManager._position_counter
                (Engine.order_manager (feed v e evs))
              = OrderManager._position_counter (Engine.order_manager e)).
Proof.
  intro v. split.
  - intros now now_ts signal k e H. apply on_kline_quiet. exact H.
  - intros evs e He Hlen. apply (feed_quiet v evs e []).
    + rewrite He. reflexivity.
    + exact Hlen.
Qed.

Lemma no_entry_before_sixty_closed_candles_witness :
  ids (OrderManager.positions
         (Engine.order_manager
            (feed filling_venue fresh_engine
                  [mkEvent 0 0 (Some 1%Z)
                           (Engine.mkKline 60 100 102 98 101 5 true)])))
  = [].
Proof.
  destruct (no_entry_before_sixty_closed_candles filling_venue) as [_ H].
  destruct (H [mkEvent 0 0 (Some 1%Z)
                       (Engine.mkKline 60 100 102 98 101 5 true)]
              fresh_engine) as [Hids _].
  - reflexivity.
  - cbn. lia.
  - exact Hids.
Defined.

(** ** The live trader's exits *)

Lemma kept_refl s : kept s s.
Proof. constructor; reflexivity. Qed.

Lemma kept_trans s1 s2 s3 : kept s1 s2 -> kept s2 s3 -> kept s1 s3.
Proof.
  intros [] []. constructor; etransitivity; eassumption.
Qed.

Lemma sell_loop_kept v attempts :
  forall s, kept s (snd (LiveTrader.sell_loop v attempts s)).
Proof.
  induction attempts as [|attempt rest IH]; intro s.
  - apply kept_refl.
  - cbn [LiveTrader.sell_loop].
    destruct (Execution.create_order v (LiveTrader.calls s))
      as [r|[code| | | | |]]; try (constructor; reflexivity).
    destruct (attempt <? LiveTrader.MAX_RETRIES)%Z;
      [|constructor; reflexivity].
    eapply kept_trans; [|apply IH]. constructor; reflexivity.
Qed.



Lemma lt_close_position_kept v now_iso pos reason s :
  kept s (LiveTrader._close_position v now_iso pos reason s).
Proof.
  unfold LiveTrader._close_position. cbn zeta.
  destruct (Py.leb _ 0); [apply kept_refl|].
  pose proof (sell_loop_kept
                v (map Z.of_nat (seq 1 (Z.to_nat LiveTrader.MAX_RETRIES))) s)
    as Hk.
  destruct (LiveTrader.sell_loop _ _ s) as [[r|] s1]; cbn [snd] in Hk;
    [|exact Hk].
  destruct (LiveTrader.is_empty r); [exact Hk|].
  destruct (Qeq_bool _ 0);
    (eapply kept_trans; [exact Hk|]; constructor; reflexivity).
Qed.


Lemma tp_sl_loop_kept v now_iso todo :
  forall s, kept s (LiveTrader.tp_sl_loop v now_iso todo s).
Proof.
  induction todo as [|pos rest IH]; intro s; cbn [LiveTrader.tp_sl_loop].
  - apply kept_refl.
  - destruct (LiveTrader.tp_sl_reason (LiveTrader.last_price s) pos)
      as [reason|]; [|apply IH].
    eapply kept_trans; [apply lt_close_position_kept | apply IH].
Qed.


Lemma close_fold_kept v now_iso reason todo :
  forall s,
    kept s (fold_left
              (fun st pos => LiveTrader._close_position v now_iso pos reason st)
              todo s).
Proof.
  induction todo as [|pos rest IH]; intro s; cbn [fold_left].
  - apply kept_refl.
  - eapply kept_trans; [apply lt_close_position_kept | apply IH].
Qed.


Lemma check_tp_sl_positions v now_iso s :
  LiveTrader.positions (LiveTrader._check_tp_sl v now_iso s)
  = filter (holds (LiveTrader.last_price s)) (LiveTrader.positions s).
Proof.
  unfold LiveTrader._check_tp_sl. cbn zeta.
  pose proof (tp_sl_loop_kept v now_iso (LiveTrader.positions s) s) as Hk.
  cbn [LiveTrader.with_positions LiveTrader.with_loaded LiveTrader.positions].
  rewrite (kept_price _ _ Hk), (kept_positions _ _ Hk). reflexivity.
Qed.



(** ** A session of the live trader *)

Lemma buy_loop_kept v attempts :
  forall s, kept s (snd (Session.buy_loop v attempts s)).
Proof.
  induction attempts as [|attempt rest IH]; intro s.
  - apply kept_refl.
  - cbn [Session.buy_loop].
    destruct (Execution.create_order v (LiveTrader.calls s))
      as [r|[code| | | | |]]; try (constructor; reflexivity).
    destruct (Execution.permanent code); [constructor; reflexivity|].
    destruct (attempt <? LiveTrader.MAX_RETRIES)%Z;
      [|constructor; reflexivity].
    eapply kept_trans; [|apply IH]. constructor; reflexivity.
Qed.

(** [_open_position] leaves the trader as the order loop left it, or adds
    one position to that. *)
Lemma lt_open_position_cases v now_iso min_notional s :
  exists s1,
    kept s s1
    /\ (Session._open_position v now_iso min_notional s = s1
        \/ exists pos,
            Session._open_position v now_iso min_notional s
            = LiveTrader.with_positions (LiveTrader.positions s1 ++ [pos]) s1).
Proof.
  unfold Session._open_position. cbn zeta.
  destruct (Py.leb _ 0); [exists s; split; [apply kept_refl | left; reflexivity]|].
  destruct (Py.ltb _ _);
    [exists s; split; [apply kept_refl | left; reflexivity]|].
  destruct (Py.leb _ 0);
    [exists s; split; [apply kept_refl | left; reflexivity]|].
  pose proof (buy_loop_kept
                v (map Z.of_nat (seq 1 (Z.to_nat LiveTrader.MAX_RETRIES))) s)
    as Hk.
  destruct (Session.buy_loop _ _ s) as [[r|] s1]; cbn [snd] in Hk.
  - exists s1. split; [exact Hk|].
    destruct (LiveTrader.is_empty r); [left; reflexivity|].
    right. eexists. reflexivity.
  - exists s1. split; [exact Hk | left; reflexivity].
Qed.

Lemma lt_open_position_frame v now_iso min_notional s :
  LiveTrader.peak_equity (Session._open_position v now_iso min_notional s)
  = LiveTrader.peak_equity s
  /\ LiveTrader.circuit_breaker
       (Session._open_position v now_iso min_notional s)
     = LiveTrader.circuit_breaker s
  /\ LiveTrader.connected (Session._open_position v now_iso min_notional s)
     = LiveTrader.connected s
  /\ (List.length (LiveTrader.positions
                     (Session._open_position v now_iso min_notional s))
      <= S (List.length (LiveTrader.positions s)))%nat.
Proof.
  destruct (lt_open_position_cases v now_iso min_notional s)
    as [s1 [Hk [->|[pos ->]]]].
  - rewrite (kept_peak _ _ Hk), (kept_breaker _ _ Hk),
      (kept_connected _ _ Hk), (kept_positions _ _ Hk).
    repeat split. lia.
  - cbn [LiveTrader.with_positions LiveTrader.with_loaded
         LiveTrader.peak_equity LiveTrader.circuit_breaker
         LiveTrader.connected LiveTrader.positions].
    rewrite (kept_peak _ _ Hk), (kept_breaker _ _ Hk),
      (kept_connected _ _ Hk), (kept_positions _ _ Hk).
    repeat split. rewrite length_app. cbn [List.length]. lia.
Qed.

Lemma lt_daily_frame today s :
  LiveTrader.peak_equity (LiveTrader._update_daily_tracking today s)
  = LiveTrader.peak_equity s
  /\ LiveTrader.circuit_breaker (LiveTrader._update_daily_tracking today s)
     = LiveTrader.circuit_breaker s
  /\ LiveTrader.connected (LiveTrader._update_daily_tracking today s)
     = LiveTrader.connected s
  /\ LiveTrader.positions (LiveTrader._update_daily_tracking today s)
     = LiveTrader.positions s.
Proof.
  unfold LiveTrader._update_daily_tracking. cbn zeta.
  destruct (match LiveTrader.daily_date s with
            | Some d => String.eqb d today
            | None => false
            end); repeat split.
Qed.

Lemma lt_breaker_frame s :
  LiveTrader.peak_equity (LiveTrader._check_circuit_breaker s)
  = LiveTrader.peak_equity s
  /\ (LiveTrader.circuit_breaker s = true ->
      LiveTrader.circuit_breaker (LiveTrader._check_circuit_breaker s) = true)
  /\ LiveTrader.connected (LiveTrader._check_circuit_breaker s)
     = LiveTrader.connected s
  /\ LiveTrader.positions (LiveTrader._check_circuit_breaker s)
     = LiveTrader.positions s.
Proof.
  unfold LiveTrader._check_circuit_breaker. cbn zeta.
  destruct (Py.leb _ 0); [repeat split; auto|].
  destruct (_ && _); repeat split; auto.
Qed.

Lemma lt_check_tp_sl_frame v now_iso s :
  LiveTrader.peak_equity (LiveTrader._check_tp_sl v now_iso s)
  = LiveTrader.peak_equity s
  /\ LiveTrader.circuit_breaker (LiveTrader._check_tp_sl v now_iso s)
     = LiveTrader.circuit_breaker s
  /\ LiveTrader.connected (LiveTrader._check_tp_sl v now_iso s)
     = LiveTrader.connected s
  /\ (List.length (LiveTrader.positions (LiveTrader._check_tp_sl v now_iso s))
      <= List.length (LiveTrader.positions s))%nat.
Proof.
  rewrite check_tp_sl_positions.
  unfold LiveTrader._check_tp_sl. cbn zeta.
  pose proof (tp_sl_loop_kept v now_iso (LiveTrader.positions s) s) as Hk.
  cbn [LiveTrader.with_positions LiveTrader.with_loaded
       LiveTrader.peak_equity LiveTrader.circuit_breaker
       LiveTrader.connected].
  rewrite (kept_peak _ _ Hk), (kept_breaker _ _ Hk), (kept_connected _ _ Hk).
  repeat split. apply filter_length_le.
Qed.

Lemma lt_can_trade_slot s :
  LiveTrader._can_trade s = true ->
  LiveTrader.circuit_breaker s = false
  /\ (Z.of_nat (List.length (LiveTrader.positions s))
      < Config.MAX_OPEN_TRADES)%Z.
Proof.
  unfold LiveTrader._can_trade.
  destruct (LiveTrader.circuit_breaker s); [discriminate|].
  destruct (Z.geb_spec (Z.of_nat (List.length (LiveTrader.positions s)))
                       Config.MAX_OPEN_TRADES); [discriminate|].
  intros _. split; [reflexivity | assumption].
Qed.

(** One tick: the peak does not go down, a set breaker stays set, the
    connection flag stays, and the book grows by at most one position,
    which needs the breaker off and a free slot. *)
Lemma tick_step v i s f :
  LiveTrader.peak_equity s <= LiveTrader.peak_equity (fst (Session.tick v i s f))
  /\ (LiveTrader.circuit_breaker s = true ->
      LiveTrader.circuit_breaker (fst (Session.tick v i s f)) = true)
  /\ LiveTrader.connected (fst (Session.tick v i s f)) = LiveTrader.connected s
  /\ ((List.length (LiveTrader.positions (fst (Session.tick v i s f)))
       <= List.length (LiveTrader.positions s))%nat
      \/ (LiveTrader.circuit_breaker s = false
          /\ (Z.of_nat (List.length
                          (LiveTrader.positions (fst (Session.tick v i s f))))
              <= Config.MAX_OPEN_TRADES)%Z)).
Proof.
  unfold Session.tick.
  destruct (LiveTrader.connected s) eqn:Hconn; cbn [negb];
    [|cbn [fst]; repeat split; [apply Qle_refl | auto | exact Hconn
                                | left; lia]].
  cbn zeta.
  destruct (lt_daily_frame (Session.today i) s) as [D1 [D2 [D3 D4]]].
  set (s1 := LiveTrader._update_daily_tracking (Session.today i) s) in *.
  destruct (Session.ticker i) as [price|];
    [|cbn [fst]; rewrite D1, D2, D3, D4;
      repeat split; [apply Qle_refl | auto | exact Hconn | left; lia]].
  set (s2 := Session.with_price price s1).
  destruct (Session._calculate_equity (Session.account i) s2) as [e|err];
    [|cbn [fst]; unfold s2;
      cbn [Session.with_price LiveTrader.peak_equity
           LiveTrader.circuit_breaker LiveTrader.connected
           LiveTrader.positions];
      rewrite D1, D2, D3, D4;
      repeat split; [apply Qle_refl | auto | exact Hconn | left; lia]].
  cbn [fst].
  set (s3 := Session.with_equity
               e (Py.max (LiveTrader.peak_equity s2) e) s2).
  assert (H3 : LiveTrader.peak_equity s <= LiveTrader.peak_equity s3
               /\ LiveTrader.circuit_breaker s3 = LiveTrader.circuit_breaker s
               /\ LiveTrader.connected s3 = LiveTrader.connected s
               /\ LiveTrader.positions s3 = LiveTrader.positions s).
  { unfold s3, s2.
    cbn [Session.with_equity Session.with_price LiveTrader.peak_equity
         LiveTrader.circuit_breaker LiveTrader.connected
         LiveTrader.positions].
    rewrite D1, D2, D3, D4. repeat split. apply max_ge_l. }
  destruct H3 as [P3 [B3 [C3 L3]]].
  destruct (lt_breaker_frame s3) as [P4 [B4 [C4 L4]]].
  set (s4 := LiveTrader._check_circuit_breaker s3) in *.
  destruct (lt_check_tp_sl_frame v (Session.now_iso i) s4)
    as [P5 [B5 [C5 L5]]].
  set (s5 := LiveTrader._check_tp_sl v (Session.now_iso i) s4) in *.
  set (s6 := match Session.signal i with
             | Some z => Session.with_signal z s5
             | None => s5
             end).
  assert (H6 : LiveTrader.peak_equity s6 = LiveTrader.peak_equity s5
               /\ LiveTrader.circuit_breaker s6 = LiveTrader.circuit_breaker s5
               /\ LiveTrader.connected s6 = LiveTrader.connected s5
               /\ LiveTrader.positions s6 = LiveTrader.positions s5).
  { unfold s6. destruct (Session.signal i); repeat split. }
  destruct H6 as [P6 [B6 [C6 L6]]].
  assert (Hlen6 : (List.length (LiveTrader.positions s6)
                   <= List.length (LiveTrader.positions s))%nat).
  { rewrite L6. rewrite L4, L3 in L5. exact L5. }
  assert (Hlatch6 : LiveTrader.circuit_breaker s = true ->
                    LiveTrader.circuit_breaker s6 = true).
  { intro Hb. rewrite B6, B5. apply B4. rewrite B3. exact Hb. }
  destruct (_ && LiveTrader._can_trade s6) eqn:Hgo.
  - apply andb_true_iff in Hgo. destruct Hgo as [_ Hcan].
    destruct (lt_can_trade_slot s6 Hcan) as [Hoff Hslot].
    destruct (lt_open_position_frame
                v (Session.now_iso i) (Session.min_notional i) s6)
      as [P7 [B7 [C7 L7]]].
    rewrite P7, B7, C7, P6, P5, P4, C6, C5, C4, C3.
    split; [exact P3|]. split; [exact Hlatch6|]. split; [exact Hconn|].
    right. split.
    + destruct (LiveTrader.circuit_breaker s) eqn:Hb; [|reflexivity].
      rewrite (Hlatch6 eq_refl) in Hoff. discriminate Hoff.
    + lia.
  - rewrite P6, P5, P4, C6, C5, C4, C3.
    split; [exact P3|]. split; [exact Hlatch6|]. split; [exact Hconn|].
    left. exact Hlen6.
Qed.

(** X23: what a session of ticks keeps.  Over any sequence of ticks, with
    any venue and any inputs: a book of at most three positions stays
    within three; the peak equity never goes down; once the breaker is
    set it stays set and the book does not grow; and a trader that is not
    connected is not changed and writes nothing. *)
Theorem session_keeps_its_limits :
  forall v inputs s f,
    ((Z.of_nat (List.length (LiveTrader.positions s))
      <= Config.MAX_OPEN_TRADES)%Z ->
     (Z.of_nat (List.length
                  (LiveTrader.positions (fst (Session.ticks v inputs s f))))
      <= Config.MAX_OPEN_TRADES)%Z)
    /\ LiveTrader.peak_equity s
       <= LiveTrader.peak_equity (fst (Session.ticks v inputs s f))
    /\ (LiveTrader.circuit_breaker s = true ->
        LiveTrader.circuit_breaker (fst (Session.ticks v inputs s f)) = true
        /\ (List.length
              (LiveTrader.positions (fst (Session.ticks v inputs s f)))
            <= List.length (LiveTrader.positions s))%nat)
    /\ (LiveTrader.connected s = false ->
        Session.ticks v inputs s f = (s, f)).
Proof.
  intros v inputs. unfold Session.ticks.
  induction inputs as [|i inputs IH]; intros s f; cbn [fold_left fst snd].
  - repeat split; try lia; auto. apply Qle_refl.
  - destruct (tick_step v i s f) as [P [B [C L]]].
    destruct (Session.tick v i s f) as [s1 f1] eqn:E. cbn [fst snd] in *.
    destruct (IH s1 f1) as [I1 [I2 [I3 I4]]].
    split; [|split; [|split]].
    + intro Hlim. apply I1. destruct L as [L|[_ L]]; lia.
    + eapply Qle_trans; eassumption.
    + intro Hb. destruct (I3 (B Hb)) as [J1 J2]. split; [exact J1|].
      destruct L as [L|[Hoff _]]; [lia|].
      rewrite Hb in Hoff. discriminate Hoff.
    + intro Hoff. rewrite (I4 (eq_trans C Hoff)).
      unfold Session.tick in E. rewrite Hoff in E. cbn [negb] in E.
      injection E as <- <-. reflexivity.
Qed.

Lemma session_keeps_its_limits_witness :
  (Z.of_nat (List.length
               (LiveTrader.positions
                  (fst (Session.ticks filling_venue [buy_tick; buy_tick]
                                      idle_trader LiveTrader.Absent))))
   <= Config.MAX_OPEN_TRADES)%Z
  /\ LiveTrader.positions
       (fst (Session.ticks filling_venue [buy_tick; buy_tick]
                           tripped_trader LiveTrader.Absent)) = []
  /\ Session.ticks filling_venue [buy_tick; buy_tick]
                   unconnected_trader LiveTrader.Absent
     = (unconnected_trader, LiveTrader.Absent).
Proof.
  destruct (session_keeps_its_limits filling_venue [buy_tick; buy_tick]
                                     idle_trader LiveTrader.Absent)
    as [Hlim _].
  destruct (session_keeps_its_limits filling_venue [buy_tick; buy_tick]
                                     tripped_trader LiveTrader.Absent)
    as [_ [_ [Hlatch _]]].
  destruct (session_keeps_its_limits filling_venue [buy_tick; buy_tick]
                                     unconnected_trader LiveTrader.Absent)
    as [_ [_ [_ Hoff]]].
  split; [|split].
  - apply Hlim. vm_compute. discriminate.
  - destruct (Hlatch eq_refl) as [_ Hlen].
    destruct (LiveTrader.positions
                (fst (Session.ticks filling_venue [buy_tick; buy_tick]
                                    tripped_trader LiveTrader.Absent)))
      as [|p l]; [reflexivity|].
    cbn in Hlen. lia.
  - apply Hoff. reflexivity.
Defined.

(** ** The live trader's entries *)

Lemma buy_loop_three v s :
  exists k,
    (k <= 2)%nat
    /\ LiveTrader.calls (snd (Session.buy_loop v [1; 2; 3]%Z s))
       = S (k + LiveTrader.calls s)
    /\ LiveTrader.sleeps (snd (Session.buy_loop v [1; 2; 3]%Z s))
       = LiveTrader.sleeps s ++ backoff k
    /\ forall r,
        fst (Session.buy_loop v [1; 2; 3]%Z s) = Some r ->
        Execution.create_order v (k + LiveTrader.calls s)
        = Execution.Filled r.
Proof.
  cbn [Session.buy_loop LiveTrader.with_io LiveTrader.calls LiveTrader.sleeps].
  change (1 <? LiveTrader.MAX_RETRIES)%Z with true.
  change (2 <? LiveTrader.MAX_RETRIES)%Z with true.
  change (3 <? LiveTrader.MAX_RETRIES)%Z with false.
  cbn match.
  venue_replies;
    cbn [fst snd LiveTrader.calls LiveTrader.sleeps LiveTrader.with_io];
    first
      [ exists 0%nat; split; [lia|]; split; [reflexivity|]; split;
        [rewrite app_nil_r; reflexivity|]; intros ? [= <-]; assumption
      | exists 0%nat; split; [lia|]; split; [reflexivity|]; split;
        [rewrite app_nil_r; reflexivity|]; intros ? [=]
      | exists 1%nat; split; [lia|]; split; [reflexivity|]; split;
        [reflexivity|]; intros ? [= <-]; assumption
      | exists 1%nat; split; [lia|]; split; [reflexivity|]; split;
        [reflexivity|]; intros ? [=]
      | exists 2%nat; split; [lia|]; split; [reflexivity|]; split;
        [rewrite <- app_assoc; reflexivity|]; intros ? [= <-]; assumption
      | exists 2%nat; split; [lia|]; split; [reflexivity|]; split;
        [rewrite <- app_assoc; reflexivity|]; intros ? [=] ].
Qed.

Lemma buy_loop_permanent v attempt rest s code :
  Execution.create_order v (LiveTrader.calls s)
  = Execution.Fails (Execution.BinanceAPIException code) ->
  Execution.permanent code = true ->
  Session.buy_loop v (attempt :: rest) s
  = (None,
     LiveTrader.with_io (S (LiveTrader.calls s)) (LiveTrader.sleeps s) s).
Proof.
  intros H Hp. cbn [Session.buy_loop]. rewrite H, Hp. reflexivity.
Qed.

Lemma ltb_true (a b : Q) : Py.ltb a b = true <-> a < b.
Proof. unfold Py.ltb. apply (gtb_true b a). Qed.

(** X24: a live entry needs a fill.  [_open_position] sends at most three
    buy orders; it adds at most one position, and only for an order
    document the venue returned to one of those orders, with the entry at
    the document's fill price and the target and the stop set from that
    price; an order whose notional is under the symbol's minimum (10 when
    the symbol gives none) is not sent and nothing changes; a rejection
    with code -2010, -1013 or -1111 on the first order ends the attempt
    after that one order, without a sleep and without a position. *)
Theorem a_live_entry_needs_a_fill :
  forall v now_iso min_notional s,
    let s' := Session._open_position v now_iso min_notional s in
    let entry := LiveTrader.last_price s * (1 + Config.SLIPPAGE) in
    let sl := entry * (1 - LiveTrader.sl_pct s) in
    (LiveTrader.calls s <= LiveTrader.calls s' <= LiveTrader.calls s + 3)%nat
    /\ (LiveTrader.positions s' = LiveTrader.positions s
        \/ exists pos n r,
            LiveTrader.positions s' = LiveTrader.positions s ++ [pos]
            /\ (LiveTrader.calls s <= n < LiveTrader.calls s')%nat
            /\ Execution.create_order v n = Execution.Filled r
            /\ LiveTrader.entry_price pos
               = OrderManager.fill_price r (LiveTrader.last_price s)
            /\ LiveTrader.tp_price pos
               = LiveTrader.entry_price pos * (1 + LiveTrader.tp_pct s)
            /\ LiveTrader.sl_price pos
               = LiveTrader.entry_price pos * (1 - LiveTrader.sl_pct s))
    /\ (LiveTrader.current_equity s * Config.RISK_PER_TRADE / (entry - sl)
        * LiveTrader.last_price s
        < match min_notional with Some m => m | None => 10 end ->
        s' = s)
    /\ (forall code,
           Execution.create_order v (LiveTrader.calls s)
           = Execution.Fails (Execution.BinanceAPIException code) ->
           Execution.permanent code = true ->
           LiveTrader.positions s' = LiveTrader.positions s
           /\ (LiveTrader.calls s' <= LiveTrader.calls s + 1)%nat
           /\ LiveTrader.sleeps s' = LiveTrader.sleeps s).
Proof.
  intros v now_iso min_notional s. cbn zeta.
  unfold Session._open_position. cbn zeta.
  destruct (Py.leb (LiveTrader.last_price s * (1 + Config.SLIPPAGE)
                    - LiveTrader.last_price s * (1 + Config.SLIPPAGE)
                      * (1 - LiveTrader.sl_pct s)) 0) eqn:Hd;
    [repeat split; try lia; auto|].
  destruct (Py.ltb _ _) eqn:Hn;
    [repeat split; try lia; auto|].
  assert (Hmin : LiveTrader.current_equity s * Config.RISK_PER_TRADE
                 / (LiveTrader.last_price s * (1 + Config.SLIPPAGE)
                    - LiveTrader.last_price s * (1 + Config.SLIPPAGE)
                      * (1 - LiveTrader.sl_pct s))
                 * LiveTrader.last_price s
                 < match min_notional with Some m => m | None => 10 end ->
                 False).
  { intro H. apply ltb_true in H. rewrite H in Hn. discriminate Hn. }
  destruct (Py.leb (LiveTrader._adjust_quantity _ s) 0) eqn:Hq;
    [repeat split; try lia; auto; intro H; destruct (Hmin H)|].
  change (map Z.of_nat (seq 1 (Z.to_nat LiveTrader.MAX_RETRIES)))
    with [1; 2; 3]%Z.
  destruct (buy_loop_three v s) as [k [Hk [Hcalls [Hsleeps Hfill]]]].
  pose proof (buy_loop_kept v [1; 2; 3]%Z s) as Hkept.
  assert (Hperm : forall code,
             Execution.create_order v (LiveTrader.calls s)
             = Execution.Fails (Execution.BinanceAPIException code) ->
             Execution.permanent code = true ->
             Session.buy_loop v [1; 2; 3]%Z s
             = (None,
                LiveTrader.with_io (S (LiveTrader.calls s))
                                   (LiveTrader.sleeps s) s))
    by (intros code; apply buy_loop_permanent).
  destruct (Session.buy_loop v [1; 2; 3]%Z s) as [[r|] s1];
    cbn [fst snd] in *.
  - destruct (LiveTrader.is_empty r).
    + rewrite Hcalls, (kept_positions _ _ Hkept).
      split; [lia|]. split; [left; reflexivity|].
      split; [intro H; destruct (Hmin H)|].
      intros code Hc Hp. discriminate (Hperm code Hc Hp).
    + cbn [LiveTrader.with_positions LiveTrader.with_loaded
           LiveTrader.calls LiveTrader.positions LiveTrader.sleeps].
      rewrite Hcalls, (kept_positions _ _ Hkept).
      split; [lia|]. split.
      * right. eexists. exists (k + LiveTrader.calls s)%nat, r.
        split; [reflexivity|]. split; [lia|].
        split; [apply Hfill; reflexivity|].
        cbn [LiveTrader.entry_price LiveTrader.tp_price LiveTrader.sl_price].
        rewrite (kept_price _ _ Hkept), (kept_tp _ _ Hkept),
          (kept_sl _ _ Hkept).
        repeat split.
      * split; [intro H; destruct (Hmin H)|].
        intros code Hc Hp. discriminate (Hperm code Hc Hp).
  - rewrite Hcalls, (kept_positions _ _ Hkept).
    split; [lia|]. split; [left; reflexivity|].
    split; [intro H; destruct (Hmin H)|].
    intros code Hc Hp. specialize (Hperm code Hc Hp).
    injection Hperm as Hs1. rewrite <- Hcalls, Hs1.
    cbn [LiveTrader.with_io LiveTrader.calls LiveTrader.sleeps].
    repeat split. lia.
Qed.

Lemma a_live_entry_needs_a_fill_witness :
  Session._open_position
    filling_venue "2024-01-01T00:01:00" (Some 1000000) idle_trader
  = idle_trader
  /\ LiveTrader.positions
       (Session._open_position
          flaky_then_rejecting "2024-01-01T00:01:00" None
          (LiveTrader.with_io 1 [] idle_trader))
     = [].
Proof.
  destruct (a_live_entry_needs_a_fill
              filling_venue "2024-01-01T00:01:00" (Some 1000000) idle_trader)
    as [_ [_ [Hsmall _]]].
  destruct (a_live_entry_needs_a_fill
              flaky_then_rejecting "2024-01-01T00:01:00" None
              (LiveTrader.with_io 1 [] idle_trader))
    as [_ [_ [_ Hperm]]].
  split.
  - apply Hsmall. vm_compute. reflexivity.
  - destruct (Hperm (-2010)%Z) as [Hpos _]; [reflexivity | reflexivity|].
    exact Hpos.
Defined.

(** ** The signals of the strategy *)

Lemma signal_rows (rsi_threshold : Q) (use_rsi_filter : bool)
      (df : list Strategy.Row) :
  forall prev,
    map (fun b : bool => if b then 1%Z else 0%Z)
        (if use_rsi_filter
         then Strategy.zip_with
                andb
                (Strategy.zip_with
                   andb
                   (Strategy.zip_with
                      Strategy.cell_le
                      (firstn (List.length (map Strategy.ema_fast df))
                              (Strategy.ema_fast prev
                               :: map Strategy.ema_fast df))
                      (firstn (List.length (map Strategy.ema_slow df))
                              (Strategy.ema_slow prev
                               :: map Strategy.ema_slow df)))
                   (Strategy.zip_with Strategy.cell_gt
                                      (map Strategy.ema_fast df)
                                      (map Strategy.ema_slow df)))
                (map (fun r => Strategy.cell_lt (Strategy.rsi r)
                                                (Some rsi_threshold)) df)
         else Strategy.zip_with
                andb
                (Strategy.zip_with
                   Strategy.cell_le
                   (firstn (List.length (map Strategy.ema_fast df))
                           (Strategy.ema_fast prev
                            :: map Strategy.ema_fast df))
                   (firstn (List.length (map Strategy.ema_slow df))
                           (Strategy.ema_slow prev
                            :: map Strategy.ema_slow df)))
                (Strategy.zip_with Strategy.cell_gt
                                   (map Strategy.ema_fast df)
                                   (map Strategy.ema_slow df)))
    = row_signals rsi_threshold use_rsi_filter prev df.
Proof.
  induction df as [|r t IH]; intro prev.
  - destruct use_rsi_filter; reflexivity.
  - specialize (IH r).
    destruct use_rsi_filter;
      cbn [map List.length firstn Strategy.zip_with row_signals] in *;
      rewrite IH; unfold row_signal, crosses_up;
      [reflexivity | rewrite andb_true_r; reflexivity].
Qed.

Lemma generate_signals_cons rsi_threshold use_rsi_filter first rest :
  Strategy.generate_signals rsi_threshold use_rsi_filter (first :: rest)
  = 0%Z :: row_signals rsi_threshold use_rsi_filter first rest.
Proof.
  rewrite <- (signal_rows rsi_threshold use_rsi_filter rest first).
  unfold Strategy.generate_signals, Strategy.shift.
  destruct use_rsi_filter;
    cbn [map List.length firstn Strategy.zip_with Strategy.set_first_zero];
    reflexivity.
Qed.

Lemma row_signals_length rsi_threshold use_rsi_filter rest :
  forall prev,
    List.length (row_signals rsi_threshold use_rsi_filter prev rest)
    = List.length rest.
Proof.
  induction rest as [|r t IH]; intro prev; [reflexivity|].
  cbn [row_signals List.length]. f_equal. apply IH.
Qed.

(** X25: the signal column is the row-by-row rule.  On a frame with at
    least one row, [generate_signals] gives 0 on the first row and, on
    every other row, 1 exactly where the fast average was at or under the
    slow one on the row before and is over it on the row (and, with the
    filter on, the row's RSI is under the threshold), a NaN cell making
    its comparison false; the column has one cell per row.  On an empty
    frame the final assignment to row 0 leaves a one-cell column. *)
Theorem signals_follow_the_row_rule :
  forall rsi_threshold use_rsi_filter,
    Strategy.generate_signals rsi_threshold use_rsi_filter [] = [0%Z]
    /\ forall first rest,
        Strategy.generate_signals rsi_threshold use_rsi_filter
                                  (first :: rest)
        = 0%Z :: row_signals rsi_threshold use_rsi_filter first rest
        /\ List.length (Strategy.generate_signals
                          rsi_threshold use_rsi_filter (first :: rest))
           = List.length (first :: rest).
Proof.
  intros rsi_threshold use_rsi_filter. split.
  - unfold Strategy.generate_signals. destruct use_rsi_filter; reflexivity.
  - intros first rest. rewrite generate_signals_cons.
    split; [reflexivity|].
    cbn [List.length]. rewrite row_signals_length. reflexivity.
Qed.

Lemma row_signals_nth rsi_threshold use_rsi_filter rest :
  forall prev i z,
    nth_error (row_signals rsi_threshold use_rsi_filter prev rest) i = Some z ->
    exists p c,
      nth_error (prev :: rest) i = Some p
      /\ nth_error rest i = Some c
      /\ z = row_signal rsi_threshold use_rsi_filter p c.
Proof.
  induction rest as [|r t IH]; intros prev i z H.
  - destruct i; discriminate H.
  - destruct i as [|i]; cbn [row_signals nth_error] in *.
    + injection H as <-. exists prev, r. repeat split.
    + destruct (IH r i z H) as [p [c [Hp [Hc Hz]]]].
      exists p, c. repeat split; assumption.
Qed.

Lemma row_signal_one rsi_threshold use_rsi_filter p c :
  row_signal rsi_threshold use_rsi_filter p c = 1%Z ->
  crosses_up p c = true
  /\ (use_rsi_filter = true ->
      Strategy.cell_lt (Strategy.rsi c) (Some rsi_threshold) = true).
Proof.
  unfold row_signal.
  destruct (crosses_up p c); cbn [andb]; [|discriminate].
  destruct use_rsi_filter; [|intros _; split; [reflexivity | discriminate]].
  destruct (Strategy.cell_lt _ _); [|discriminate].
  intros _. split; reflexivity.
Qed.

Lemma crosses_up_cells p c :
  crosses_up p c = true ->
  exists fp sp f s,
    Strategy.ema_fast p = Some fp /\ Strategy.ema_slow p = Some sp
    /\ fp <= sp
    /\ Strategy.ema_fast c = Some f /\ Strategy.ema_slow c = Some s
    /\ s < f.
Proof.
  unfold crosses_up, Strategy.cell_le, Strategy.cell_gt.
  intro H. apply andb_true_iff in H. destruct H as [H1 H2].
  destruct (Strategy.ema_fast p) as [fp|]; [|discriminate H1].
  destruct (Strategy.ema_slow p) as [sp|]; [|discriminate H1].
  destruct (Strategy.ema_fast c) as [f|]; [|discriminate H2].
  destruct (Strategy.ema_slow c) as [s|]; [|discriminate H2].
  exists fp, sp, f, s. apply leb_true in H1. apply gtb_true in H2.
  repeat split; assumption.
Qed.

(** X26: what a buy signal means.  Where [generate_signals] gives 1, the
    row is not the first one, both averages are numbers on it and on the
    row before, the fast one was at or under the slow one before and is
    over it now, and with the filter on the row's RSI is a number under
    the threshold; the next row never has a signal as well; every cell is
    0 or 1; and a signal given with the filter on is also given with the
    filter off. *)
Theorem a_signal_marks_an_upward_crossover :
  forall rsi_threshold use_rsi_filter df i,
    (forall z,
        nth_error (Strategy.generate_signals rsi_threshold use_rsi_filter df) i
        = Some z -> z = 0%Z \/ z = 1%Z)
    /\ (nth_error (Strategy.generate_signals rsi_threshold use_rsi_filter df) i
        = Some 1%Z ->
        (exists n prev cur fp sp f s,
            i = S n
            /\ nth_error df n = Some prev /\ nth_error df (S n) = Some cur
            /\ Strategy.ema_fast prev = Some fp
            /\ Strategy.ema_slow prev = Some sp
            /\ fp <= sp
            /\ Strategy.ema_fast cur = Some f
            /\ Strategy.ema_slow cur = Some s
            /\ s < f
            /\ (use_rsi_filter = true ->
                exists r, Strategy.rsi cur = Some r /\ r < rsi_threshold))
        /\ nth_error (Strategy.generate_signals
                        rsi_threshold use_rsi_filter df) (S i)
           <> Some 1%Z
        /\ forall other_threshold,
            nth_error (Strategy.generate_signals other_threshold false df) i
            = Some 1%Z).
Proof.
  intros rsi_threshold use_rsi_filter df i.
  destruct df as [|first rest].
  - unfold Strategy.generate_signals.
    split.
    + intros z H. destruct use_rsi_filter;
        (destruct i as [|[|i]]; cbn in H; [|discriminate H..];
         injection H as <-; left; reflexivity).
    + intro H. exfalso. destruct use_rsi_filter;
        (destruct i as [|[|i]]; cbn in H; discriminate H).
  - rewrite generate_signals_cons. split.
    + intros z H. destruct i as [|i]; cbn [nth_error] in H.
      * injection H as <-. left. reflexivity.
      * destruct (row_signals_nth _ _ _ _ _ _ H) as [p [c [_ [_ ->]]]].
        unfold row_signal. destruct (_ && _); [right | left]; reflexivity.
    + intro H. destruct i as [|n]; cbn [nth_error] in H; [discriminate H|].
      destruct (row_signals_nth _ _ _ _ _ _ H) as [p [c [Hp [Hc Hz]]]].
      symmetry in Hz. destruct (row_signal_one _ _ _ _ Hz) as [Hup Hrsi].
      split; [|split].
      * destruct (crosses_up_cells p c Hup)
          as [fp [sp [f [s [E1 [E2 [L1 [E3 [E4 L2]]]]]]]]].
        exists n, p, c, fp, sp, f, s.
        repeat split; try assumption.
        intro Hf. specialize (Hrsi Hf). unfold Strategy.cell_lt in Hrsi.
        destruct (Strategy.rsi c) as [r|]; [|discriminate Hrsi].
        exists r. split; [reflexivity|]. apply ltb_true. exact Hrsi.
      * intro H2.
        change (nth_error (row_signals rsi_threshold use_rsi_filter first rest)
                          (S n) = Some 1%Z) in H2.
        destruct (row_signals_nth _ _ _ _ _ _ H2) as [p2 [c2 [Hp2 [_ Hz2]]]].
        cbn [nth_error] in Hp2. rewrite Hc in Hp2. injection Hp2 as <-.
        symmetry in Hz2. destruct (row_signal_one _ _ _ _ Hz2) as [Hup2 _].
        destruct (crosses_up_cells p c Hup)
          as [fp [sp [f [s [_ [_ [_ [E3 [E4 L2]]]]]]]]].
        destruct (crosses_up_cells c c2 Hup2)
          as [fp' [sp' [f' [s' [E1' [E2' [L1' _]]]]]]].
        rewrite E3 in E1'. rewrite E4 in E2'.
        injection E1' as <-. injection E2' as <-. lra.
      * intro other_threshold. rewrite generate_signals_cons.
        change (nth_error (row_signals other_threshold false first rest) n
                = Some 1%Z).
        clear H Hz Hrsi. revert first n Hp Hc.
        induction rest as [|r t IH]; intros first n Hp Hc.
        -- destruct n; discriminate Hc.
        -- destruct n as [|n]; cbn [nth_error row_signals] in *.
           ++ injection Hp as ->. injection Hc as ->.
              unfold row_signal. rewrite Hup. reflexivity.
           ++ apply IH; assumption.
Qed.

Lemma a_signal_marks_an_upward_crossover_witness :
  nth_error (Strategy.generate_signals 60 true crossing_frame) 1
  = Some 1%Z
  /\ nth_error (Strategy.generate_signals 60 true crossing_frame) 2
     <> Some 1%Z.
Proof.
  destruct (a_signal_marks_an_upward_crossover 60 true crossing_frame 1)
    as [_ H].
  destruct (H eq_refl) as [_ [Hnext _]].
  split; [reflexivity | exact Hnext].
Defined.

(** ** An order document without fills *)

Lemma get_symbol_info_adjust v symbol c places c0 quantity :
  Execution.get_symbol_info v symbol c = (Execution.Returned places, c0) ->
  Execution._adjust_quantity symbol quantity c0
  = Execution.quantize_down places quantity.
Proof.
  unfold Execution.get_symbol_info, Execution._adjust_quantity.
  destruct (Execution.lookup symbol (Execution.symbol_info c)) as [p0|] eqn:E.
  - intros [= <- <-]. rewrite E. reflexivity.
  - destruct (Execution.get_symbol_info_reply v symbol) as [sp| |e];
      try discriminate.
    intros [= <- <-]. cbn [Execution.symbol_info]. rewrite lookup_same.
    reflexivity.
Qed.

(** With a first reply that reports a fill without fills, the order call
    never returns a document. *)
Lemma place_market_order_bare v symbol side quantity c r :
  Execution.create_order v (Execution.calls c) = Execution.Filled r ->
  Execution.fills r = Some [] ->
  (forall d, fst (Execution.place_market_order v symbol side quantity c)
             <> Execution.Returned d)
  /\ forall places,
      fst (Execution.get_symbol_info v symbol c) = Execution.Returned places ->
      0 < Execution.quantize_down places quantity ->
      fst (Execution.place_market_order v symbol side quantity c)
      = Execution.Raised Execution.IndexError
      /\ Execution.calls
           (snd (Execution.place_market_order v symbol side quantity c))
         = S (Execution.calls c).
Proof.
  intros Hr Hf.
  destruct (get_symbol_info_frame v symbol c) as [Hcalls _].
  pose proof (get_symbol_info_adjust v symbol c) as Hadj.
  unfold Execution.place_market_order.
  destruct (Execution.get_symbol_info v symbol c) as [[p|e] c0];
    cbn [fst snd] in *.
  - specialize (Hadj p c0 quantity eq_refl).
    change Execution.attempts_range with [1; 2; 3]%Z.
    cbn [Execution.order_loop]. rewrite Hcalls, Hr, Hf.
    destruct (Py.leb _ 0) eqn:Hq; cbn [fst snd].
    + split; [discriminate|].
      intros places [= <-] Hpos. apply leb_true in Hq.
      rewrite Hadj in Hq. lra.
    + split; [discriminate|].
      intros places _ _. split; [reflexivity|].
      cbn [Execution.sent Execution.calls]. rewrite Hcalls. reflexivity.
  - split; [discriminate|]. intros places H. discriminate H.
Qed.

(** X28: a fill reported without fills is sent but not booked.  When the
    venue answers the next order with a document whose fills list is
    empty, [place_market_order] raises IndexError after the order has gone
    out; [open_position] then returns [None] and records no position, and
    [_close_position] leaves the position OPEN and the risk manager as it
    was, although, for a known symbol and a quantity that does not round
    to zero, the sell order was sent. *)
Theorem empty_fills_are_not_booked :
  forall v r s,
    Execution.create_order v (Execution.calls (OrderManager.connector s))
    = Execution.Filled r ->
    Execution.fills r = Some [] ->
    (forall now now_ts symbol price,
        fst (OrderManager.open_position v now now_ts symbol price s) = None
        /\ OrderManager.positions
             (snd (OrderManager.open_position v now now_ts symbol price s))
           = OrderManager.positions s)
    /\ (forall p reason price,
           OrderManager.positions
             (OrderManager._close_position v p reason price s)
           = OrderManager.positions s
           /\ OrderManager.risk_manager
                (OrderManager._close_position v p reason price s)
              = OrderManager.risk_manager s
           /\ forall places,
               fst (Execution.get_symbol_info
                      v (OrderManager.symbol p) (OrderManager.connector s))
               = Execution.Returned places ->
               0 < Execution.quantize_down places (OrderManager.quantity p) ->
               Execution.calls
                 (OrderManager.connector
                    (OrderManager._close_position v p reason price s))
               = S (Execution.calls (OrderManager.connector s))).
Proof.
  intros v r s Hr Hf. split.
  - intros now now_ts symbol price.
    unfold OrderManager.open_position.
    destruct (RiskManager.can_trade now (OrderManager.risk_manager s))
      as [ok rm1].
    destruct ok; cbn [negb]; [|split; reflexivity].
    destruct (Py.leb _ 0); [split; reflexivity|].
    cbn [OrderManager.with_risk OrderManager.connector].
    destruct (place_market_order_bare
                v symbol Execution.BUY
                (RiskManager.calculate_position_size
                   (price * (1 + Config.SLIPPAGE))
                   (price * (1 + Config.SLIPPAGE)
                    * (1 - OrderManager.sl_pct s)) rm1)
                (OrderManager.connector s) r Hr Hf) as [Hno _].
    cbn [OrderManager.sl_pct].
    destruct (Execution.place_market_order _ _ _ _ _) as [[[d|]|e] c1];
      cbn [fst snd] in *; try (split; reflexivity).
    exfalso. apply (Hno (Some d)). reflexivity.
  - intros p reason price.
    destruct (place_market_order_bare
                v (OrderManager.symbol p) Execution.SELL
                (OrderManager.quantity p) (OrderManager.connector s) r Hr Hf)
      as [Hno Hsent].
    unfold OrderManager._close_position.
    destruct (Execution.place_market_order _ _ _ _ _) as [[[d|]|e] c1];
      cbn [fst snd] in *.
    + exfalso. apply (Hno (Some d)). reflexivity.
    + exfalso. apply (Hno None). reflexivity.
    + split; [reflexivity|]. split; [reflexivity|].
      intros places Hp Hq. apply (Hsent places Hp Hq).
Qed.

Lemma empty_fills_are_not_booked_witness :
  OrderManager.positions
    (OrderManager._close_position bare_venue held_position OrderManager.SL 98
                                  manager_with_position)
  = [held_position]
  /\ Execution.calls
       (OrderManager.connector
          (OrderManager._close_position bare_venue held_position
                                        OrderManager.SL 98
                                        manager_with_position))
     = 1%nat.
Proof.
  destruct (empty_fills_are_not_booked bare_venue bare_document
                                       manager_with_position eq_refl eq_refl)
    as [_ H].
  destruct (H held_position OrderManager.SL 98) as [Hpos [_ Hsent]].
  split; [exact Hpos|].
  apply (Hsent 3%nat); [reflexivity | reflexivity].
Defined.
